(** * Validation pipelines of evaluacion_javascript

    A shallow embedding of the three exercises of the repository
    (operations, service requests, transactions) and the properties of
    their validate / simulate-latency / classify / aggregate pipeline.

    The program is JavaScript: records are dynamically typed objects, the
    validators are made of [typeof] tests, failures are exceptions caught
    by [try/catch], and the orchestrators are [async] loops that draw
    random latencies and write to the console.  The embedding keeps all
    of that explicit:
    - [JS.value] is the universe of data the program inspects;
    - [JS.completion] is the outcome of synchronous code (normal or thrown);
    - [Async.async] threads the host of an [async] function: the
      successive values of [Math.random], the time spent in [delay] and
      the console. *)

From Stdlib Require Import ZArith List String Ascii Bool Lia DecimalString.
Import ListNotations.

#[local] Set Warnings "-register-all".
#[local] Open Scope string_scope.
#[local] Open Scope Z_scope.

(** Sequencing, shared by the three kinds of code of the program:
    synchronous code that may throw, synchronous code that calls a
    callback, and [async] code.  [x <- c ;; k] runs [c], names its result
    and goes on with [k]; in [async] code it is [const x = await c; k]. *)
Class Monad (M : Type -> Type) : Type := {
  ret : forall {A}, A -> M A;
  bind : forall {A B}, M A -> (A -> M B) -> M B
}.

Notation "x <- c1 ;; c2" := (bind c1 (fun x => c2))
  (at level 61, c1 at next level, right associativity).
Notation "c1 ;; c2" := (bind c1 (fun _ => c2))
  (at level 61, right associativity).

(* ================================================================= *)
(** * The fragment of JavaScript the program uses *)
(* ================================================================= *)

Module JS.

(** ** Numbers

    A finite number is the decimal [m * 10^-e]; every binary64 value is
    such a decimal.  Arithmetic on finite numbers is exact: the rounding
    and the overflow of binary64 are not modelled.  [NaN] and the two
    infinities behave as in IEEE 754; the sign of zero, which the program
    cannot observe ([-0 === 0], [-0 < 0] is false and -0 prints as 0), is
    not kept. *)

Inductive number : Type :=
| NaN
| Infinity (negative : bool)
| Fin (m : Z) (e : nat).

Definition pow10 (e : nat) : Z := 10 ^ Z.of_nat e.

Definition int (z : Z) : number := Fin z 0.

Definition sign (m : Z) : bool := m <? 0.

(** [x < y], [x <= y], [x > y], [x === y] on numbers: every comparison
    with [NaN] is false. *)
Definition num_lt (x y : number) : bool :=
  match x, y with
  | NaN, _ | _, NaN => false
  | Infinity a, Infinity b => a && negb b
  | Infinity a, Fin _ _ => a
  | Fin _ _, Infinity b => negb b
  | Fin m1 e1, Fin m2 e2 => m1 * pow10 e2 <? m2 * pow10 e1
  end.

Definition num_eq (x y : number) : bool :=
  match x, y with
  | NaN, _ | _, NaN => false
  | Infinity a, Infinity b => Bool.eqb a b
  | Infinity _, Fin _ _ | Fin _ _, Infinity _ => false
  | Fin m1 e1, Fin m2 e2 => m1 * pow10 e2 =? m2 * pow10 e1
  end.

Definition num_le (x y : number) : bool := num_lt x y || num_eq x y.
Definition num_gt (x y : number) : bool := num_lt y x.

(** [x + y] *)
Definition num_add (x y : number) : number :=
  match x, y with
  | NaN, _ | _, NaN => NaN
  | Infinity a, Infinity b => if Bool.eqb a b then Infinity a else NaN
  | Infinity a, Fin _ _ => Infinity a
  | Fin _ _, Infinity b => Infinity b
  | Fin m1 e1, Fin m2 e2 => Fin (m1 * pow10 e2 + m2 * pow10 e1) (e1 + e2)
  end.

(** [x * y] *)
Definition num_mul (x y : number) : number :=
  match x, y with
  | NaN, _ | _, NaN => NaN
  | Infinity a, Infinity b => Infinity (xorb a b)
  | Infinity a, Fin m _ | Fin m _, Infinity a =>
      if m =? 0 then NaN else Infinity (xorb a (sign m))
  | Fin m1 e1, Fin m2 e2 => Fin (m1 * m2) (e1 + e2)
  end.

(** [-x] and [x - y] *)
Definition num_neg (x : number) : number :=
  match x with
  | NaN => NaN
  | Infinity a => Infinity (negb a)
  | Fin m e => Fin (- m) e
  end.

Definition num_sub (x y : number) : number := num_add x (num_neg y).

(** [Number.isFinite], [Number.isInteger] and [Math.floor] on a number. *)
Definition Number_isFinite (x : number) : bool :=
  match x with Fin _ _ => true | _ => false end.

Definition Number_isInteger (x : number) : bool :=
  match x with Fin m e => m mod pow10 e =? 0 | _ => false end.

Definition Math_floor (x : number) : number :=
  match x with Fin m e => Fin (m / pow10 e) 0 | _ => x end.

(** *** Number::toString, radix 10

    ECMAScript writes a finite non-zero number from the integers [n], [k]
    and [s] with [10^(k-1) <= s < 10^k], [s * 10^(n-k)] the number and [k]
    minimal: [digits] below is the decimal writing of [s], of length [k],
    and [n] is the position of the decimal point. *)

Fixpoint strip_zeros (rev_digits : list ascii) (dropped : nat) : list ascii * nat :=
  match rev_digits with
  | "0"%char :: r => strip_zeros r (S dropped)
  | _ => (rev_digits, dropped)
  end.

Fixpoint zeros (n : nat) : string :=
  match n with O => "" | S n' => String "0" (zeros n') end.

Definition string_of_Z (z : Z) : string := NilZero.string_of_int (Z.to_int z).

Definition positive_toString (m : positive) (e : nat) : string :=
  let all := list_ascii_of_string (NilEmpty.string_of_uint (Pos.to_uint m)) in
  let '(rev_s, z) := strip_zeros (rev all) 0 in
  let digits := string_of_list_ascii (rev rev_s) in
  let k := String.length digits in
  let n := Z.of_nat k + Z.of_nat z - Z.of_nat e in
  if (Z.of_nat k <=? n) && (n <=? 21) then
    digits ++ zeros (Z.to_nat (n - Z.of_nat k))
  else if (0 <? n) && (n <=? 21) then
    substring 0 (Z.to_nat n) digits ++ "." ++
    substring (Z.to_nat n) (k - Z.to_nat n) digits
  else if (-6 <? n) && (n <=? 0) then
    "0." ++ zeros (Z.to_nat (- n)) ++ digits
  else
    let exponent :=
      "e" ++ (if n - 1 <? 0 then "-" else "+") ++ string_of_Z (Z.abs (n - 1)) in
    if (k =? 1)%nat then digits ++ exponent
    else substring 0 1 digits ++ "." ++ substring 1 (k - 1) digits ++ exponent.

Definition Number_toString (x : number) : string :=
  match x with
  | NaN => "NaN"
  | Infinity false => "Infinity"
  | Infinity true => "-Infinity"
  | Fin 0 _ => "0"
  | Fin (Zpos m) e => positive_toString m e
  | Fin (Zneg m) e => "-" ++ positive_toString m e
  end.

(** ** Values

    The data the program inspects: primitives, arrays, plain objects with
    data properties (an object is the list of its properties, the first
    binding of a key being the property) and [Date] objects.  A [Date] is
    observed by [instanceof Date] and, in a template literal, by the text
    [Date.prototype.toString] gives for it on the host: that text stands
    for the object.  Functions, symbols, accessors and proxies are not
    data and are not modelled; arrays have no holes. *)

Inductive value : Type :=
| VUndefined
| VNull
| VBool (b : bool)
| VNum (n : number)
| VStr (s : string)
| VArr (elems : list value)
| VObj (props : list (string * value))
| VDate (shown : string).

(** [typeof v] *)
Definition typeof (v : value) : string :=
  match v with
  | VUndefined => "undefined"
  | VBool _ => "boolean"
  | VNum _ => "number"
  | VStr _ => "string"
  | VNull | VArr _ | VObj _ | VDate _ => "object"
  end.

(** [!!v]: the values that are not falsy. *)
Definition truthy (v : value) : bool :=
  match v with
  | VUndefined | VNull => false
  | VBool b => b
  | VNum x => negb (num_eq x (int 0)) && negb (match x with NaN => true | _ => false end)
  | VStr s => negb (s =? "")%string
  | VArr _ | VObj _ | VDate _ => true
  end.

(** [v === s] for a string literal [s]. *)
Definition is_string (v : value) (s : string) : bool :=
  match v with VStr s' => (s' =? s)%string | _ => false end.

(** [v === true] *)
Definition is_true (v : value) : bool :=
  match v with VBool b => b | _ => false end.

(** [String(v)], also the conversion a template literal applies. *)
Fixpoint ToString (v : value) : string :=
  match v with
  | VUndefined => "undefined"
  | VNull => "null"
  | VBool true => "true"
  | VBool false => "false"
  | VNum x => Number_toString x
  | VStr s => s
  | VArr elems =>
      (fix join (l : list value) : string :=
         match l with
         | [] => ""
         | x :: r =>
             let shown :=
               match x with VUndefined | VNull => "" | _ => ToString x end in
             match r with [] => shown | _ :: _ => shown ++ "," ++ join r end
         end) elems
  | VObj _ => "[object Object]"
  | VDate shown => shown
  end.

(** The property [k] of the property list of an object: [undefined] when
    there is none. *)
Fixpoint lookup (k : string) (props : list (string * value)) : value :=
  match props with
  | [] => VUndefined
  | (k', v) :: rest => if (k =? k')%string then v else lookup k rest
  end.

(** ** Strings *)

Definition lower (c : ascii) : ascii :=
  let n := nat_of_ascii c in
  if ((65 <=? n) && (n <=? 90))%nat then ascii_of_nat (n + 32) else c.

(** [s.toLowerCase()].  Strings are byte strings, the UTF-8 writing of
    the text: the letters A to Z are folded and every other byte is
    kept.  The program compares the result with five words (ingreso,
    egreso, instalacion, mantenimiento, soporte) and prints it only when
    it is one of them.  Outside A to Z the one character whose lower
    case is a letter a to z alone is the Kelvin sign, for k, and no word
    of the five has a k: what the program observes is what JavaScript
    gives. *)
Fixpoint toLowerCase (s : string) : string :=
  match s with
  | EmptyString => EmptyString
  | String c r => String (lower c) (toLowerCase r)
  end.

(** The white space and line terminators [trim] removes.  One byte:
    tab, line feed, vertical tab, form feed, carriage return, space.
    Two bytes: U+00A0.  Three bytes: U+1680, U+2000 to U+200A, U+2028,
    U+2029, U+202F, U+205F, U+3000 and U+FEFF. *)
Definition is_space (c : ascii) : bool :=
  let n := nat_of_ascii c in
  (((9 <=? n) && (n <=? 13)) || (n =? 32))%nat.

Definition is_space2 (c1 c2 : ascii) : bool :=
  ((nat_of_ascii c1 =? 194) && (nat_of_ascii c2 =? 160))%nat.

Definition is_space3 (c1 c2 c3 : ascii) : bool :=
  let a := nat_of_ascii c1 in
  let b := nat_of_ascii c2 in
  let c := nat_of_ascii c3 in
  (((a =? 225) && (b =? 154) && (c =? 128))
   || ((a =? 226) && (b =? 128)
       && (((128 <=? c) && (c <=? 138)) || (c =? 168) || (c =? 169) || (c =? 175)))
   || ((a =? 226) && (b =? 129) && (c =? 159))
   || ((a =? 227) && (b =? 128) && (c =? 128))
   || ((a =? 239) && (b =? 187) && (c =? 191)))%nat.

Fixpoint trimStart (s : string) : string :=
  match s with
  | EmptyString => EmptyString
  | String c1 r1 =>
      if is_space c1 then trimStart r1
      else
        match r1 with
        | EmptyString => s
        | String c2 r2 =>
            if is_space2 c1 c2 then trimStart r2
            else
              match r2 with
              | EmptyString => s
              | String c3 r3 => if is_space3 c1 c2 c3 then trimStart r3 else s
              end
        end
  end.

(** A string that is one white space character. *)
Definition is_one_space (s : string) : bool :=
  match s with
  | String c1 EmptyString => is_space c1
  | String c1 (String c2 EmptyString) => is_space2 c1 c2
  | String c1 (String c2 (String c3 EmptyString)) => is_space3 c1 c2 c3
  | _ => false
  end.

Fixpoint trimEnd (s : string) : string :=
  match s with
  | EmptyString => EmptyString
  | String c r =>
      let t := String c (trimEnd r) in
      if is_one_space t then EmptyString else t
  end.

(** [s.trim()] *)
Definition trim (s : string) : string := trimEnd (trimStart s).

(** The double quote, for the messages that quote a value. *)
Definition dquote : string := String (ascii_of_nat 34) EmptyString.

(** ** Completions of synchronous code

    A statement list either runs to its end or throws; every exception of
    the program is an [Error] (or the [TypeError] of a property read on
    [null] or [undefined]) and is only ever observed through its
    [message]. *)

Inductive completion (A : Type) : Type :=
| Normal (a : A)
| Throw (message : string).
Arguments Normal {A} a.
Arguments Throw {A} message.

#[export] Instance Monad_completion : Monad completion := {
  ret := fun A a => Normal a;
  bind := fun A B c k =>
    match c with
    | Normal a => k a
    | Throw m => Throw m
    end
}.

(** [if (cond) { throw new Error(message); }] *)
Definition throw_if (cond : bool) (message : string) : completion unit :=
  if cond then Throw message else Normal tt.

(** [v.k]: a property read; on [null] and [undefined] it throws the
    TypeError of Node.js. *)
Definition prop (v : value) (k : string) : completion value :=
  match v with
  | VUndefined =>
      Throw ("Cannot read properties of undefined (reading '" ++ k ++ "')")
  | VNull =>
      Throw ("Cannot read properties of null (reading '" ++ k ++ "')")
  | VObj props => Normal (lookup k props)
  | VBool _ | VNum _ | VStr _ | VArr _ | VDate _ => Normal VUndefined
  end.

(** [v?.id ?? "desconocido"] *)
Definition id_or_desconocido (v : value) : value :=
  match v with
  | VObj props =>
      match lookup "id" props with
      | VUndefined | VNull => VStr "desconocido"
      | id => id
      end
  | _ => VStr "desconocido"
  end.

(** The number a value is when it is one; it is applied only to values a
    validator has checked with [typeof v === "number"]. *)
Definition as_number (v : value) : number :=
  match v with VNum x => x | _ => NaN end.

(** The line feed that starts some console lines. *)
Definition nl : string := String (ascii_of_nat 10) EmptyString.

End JS.

Import JS.

(* ================================================================= *)
(** * Callbacks, promises and the host of async code *)
(* ================================================================= *)

Module Async.

(** ** Synchronous code that calls a callback

    The callback is the caller's code: it may change the caller's state
    [S] and it may throw.  State changes made before a throw are kept. *)

Definition eff (S A : Type) : Type := S -> completion A * S.

#[export] Instance Monad_eff {S} : Monad (eff S) := {
  ret := fun A a s => (Normal a, s);
  bind := fun A B c k s =>
    match c s with
    | (Normal a, s') => k a s'
    | (Throw m, s') => (Throw m, s')
    end
}.

(** Code without callbacks, run inside code with callbacks. *)
Definition pure {S A} (c : completion A) : eff S A := fun s => (c, s).

(** [try { body } catch (err) { handler(err.message) }] *)
Definition try_catch_eff {S A} (body : eff S A) (handler : string -> eff S A)
  : eff S A :=
  fun s =>
    match body s with
    | (Normal a, s') => (Normal a, s')
    | (Throw m, s') => handler m s'
    end.

(** ** The host and the variables of an async function

    What an [async] function of the program reaches outside itself: the
    successive values of [Math.random], the time its [delay]s have taken
    and the values written by [console.log]. *)

Record world : Type := {
  randoms : nat -> number;
  drawn : nat;
  elapsed : number;
  console : list value
}.

(** The state of the promise an [async] call returns, once the loop has
    run as far as it can: a promise nobody resolves stays [Pending] and
    the code awaiting it never resumes. *)
Inductive settled (A : Type) : Type :=
| Fulfilled (a : A)
| Rejected (message : string)
| Pending.
Arguments Fulfilled {A} a.
Arguments Rejected {A} message.
Arguments Pending {A}.

(** An [async] computation inside a function whose assignable variables
    (the arrays it pushes to, its accumulators) are [L]: what was
    assigned before a rejection stays assigned. *)
Definition async (L A : Type) : Type := L -> world -> settled A * L * world.

(** [ret] is [return] in an [async] function, [bind] is [await]: a
    rejection is thrown at the [await], a pending promise stops the
    caller. *)
#[export] Instance Monad_async {L} : Monad (async L) := {
  ret := fun A a l w => (Fulfilled a, l, w);
  bind := fun A B c k l w =>
    match c l w with
    | (Fulfilled a, l', w') => k a l' w'
    | (Rejected m, l', w') => (Rejected m, l', w')
    | (Pending, l', w') => (Pending, l', w')
    end
}.

(** Synchronous code run inside an [async] function: what it throws
    rejects the promise of the function. *)
Definition sync {L A} (c : completion A) : async L A :=
  fun l w =>
    match c with
    | Normal a => (Fulfilled a, l, w)
    | Throw m => (Rejected m, l, w)
    end.

(** An assignment to the variables of the function. *)
Definition assign {L} (f : L -> L) : async L unit :=
  fun l w => (Fulfilled tt, f l, w).

(** [try { body } catch (err) { handler(err.message) }] in an [async]
    function. *)
Definition try_catch_async {L A} (body : async L A) (handler : string -> async L A)
  : async L A :=
  fun l w =>
    match body l w with
    | (Fulfilled a, l', w') => (Fulfilled a, l', w')
    | (Rejected m, l', w') => handler m l' w'
    | (Pending, l', w') => (Pending, l', w')
    end.

(** A call of an [async] function, awaited: the callee has variables of
    its own, the caller keeps its. *)
Definition call {L L' A} (callee : async L' A) (init : L') : async L A :=
  fun l w =>
    match callee init w with
    | (r, _, w') => (r, l, w')
    end.

(** [Math.random()] *)
Definition Math_random {L} : async L number :=
  fun l w =>
    (Fulfilled (randoms w (drawn w)), l,
     {| randoms := randoms w; drawn := S (drawn w);
        elapsed := elapsed w; console := console w |}).

(** [console.log(v)] *)
Definition console_log {L} (v : value) : async L unit :=
  fun l w =>
    (Fulfilled tt, l,
     {| randoms := randoms w; drawn := drawn w;
        elapsed := elapsed w; console := (console w ++ [v])%list |}).

(** [delay(ms)], the same in the three modules:
    [new Promise(resolve => setTimeout(resolve, ms))], awaited. *)
Definition delay {L} (ms : number) : async L unit :=
  fun l w =>
    (Fulfilled tt, l,
     {| randoms := randoms w; drawn := drawn w;
        elapsed := num_add (elapsed w) ms; console := console w |}).

(** [tiempoAleatorio()], the same in the three modules. *)
Definition tiempoAleatorio {L} : async L number :=
  let min := int 300 in
  let max := int 2000 in
  r <- Math_random ;;
  ret (num_add (Math_floor (num_mul r (num_add (num_sub max min) (int 1)))) min).

(** [resolve(v)] on the promise under construction: the first call
    settles it, later calls do nothing. *)
Definition resolve (v : value) : eff (option value) value :=
  fun cell =>
    (Normal VUndefined, match cell with None => Some v | Some _ => cell end).

(** [await new Promise(resolve => executor(resolve))] for a synchronous
    executor. *)
Definition await_new_Promise {L}
    (executor : (value -> eff (option value) value) -> eff (option value) value)
  : async L value :=
  fun l w =>
    match executor resolve None with
    | (_, Some v) => (Fulfilled v, l, w)
    | (Throw m, None) => (Rejected m, l, w)
    | (Normal _, None) => (Pending, l, w)
    end.

(** [for (const x of xs) { body }] *)
Fixpoint for_of {L A} (xs : list A) (body : A -> async L unit) : async L unit :=
  match xs with
  | [] => ret tt
  | x :: rest => body x ;; for_of rest body
  end.

(** [xs.push(x)] *)
Definition push (xs : list value) (x : value) : list value := (xs ++ [x])%list.

(** [xs.length] and [xs.filter(p).length] *)
Definition length_of_nat (n : nat) : value := VNum (int (Z.of_nat n)).

Definition length_of (xs : list value) : value := length_of_nat (List.length xs).

Definition count (p : value -> bool) (xs : list value) : nat :=
  List.length (filter p xs).

(** The line [`${label} ${r.id}: ${r.estado} => ${r.motivo}`] each
    orchestrator prints for a result [r]; [estado] names the outcome
    field of the module. *)
Definition linea (label estado : string) (r : value) : completion value :=
  id <- prop r "id" ;;
  e <- prop r estado ;;
  motivo <- prop r "motivo" ;;
  ret (VStr (label ++ " " ++ ToString id ++ ": " ++ ToString e
               ++ " => " ++ ToString motivo)).

(** [r.k === s] in the callback of a [filter].  The arrays filtered hold
    the results the loops collected, which are objects: the read does
    not throw there. *)
Definition prop_is (k s : string) (r : value) : bool :=
  match prop r k with
  | Normal v => is_string v s
  | Throw _ => false
  end.

End Async.

Import Async.

(* ================================================================= *)
(** * Exercise 2: batch operations *)
(* ================================================================= *)

Module Operaciones.

Definition validarOperacion (op : value) : completion value :=
  (* Regla 1 *)
  throw_if (negb (truthy op)) "La operación se encuentra vacía o indefinida." ;;
  (* Regla 2 *)
  id <- prop op "id" ;;
  throw_if (negb (typeof id =? "string")%string && negb (typeof id =? "number")%string)
    ("Operación inválida: el id " ++ dquote ++ ToString id ++ dquote
       ++ " no es válido (debe ser string o number).") ;;
  (* Regla 3: Array.isArray(op.valores) *)
  valores <- prop op "valores" ;;
  elems <- match valores with
           | VArr elems => Normal (elems : list value)
           | _ => Throw ("Operación " ++ ToString id ++ ": 'valores' debe ser un arreglo.")
           end ;;
  (* Regla 4 *)
  throw_if (List.length elems =? 0)%nat
    ("Operación " ++ ToString id ++ ": el arreglo de valores está vacío.") ;;
  (* Regla 5 *)
  throw_if (negb (forallb (fun v => (typeof v =? "number")%string) elems))
    ("Operación " ++ ToString id ++ ": todos los valores deben ser numéricos.") ;;
  (* Regla 6 *)
  tipo <- prop op "tipo" ;;
  throw_if (negb (typeof tipo =? "string")%string)
    ("Operación " ++ ToString id ++ ": el tipo debe ser un string.") ;;
  (* Regla 7 *)
  activa <- prop op "activa" ;;
  throw_if (negb (typeof activa =? "boolean")%string)
    ("Operación " ++ ToString id ++ ": el campo 'activa' debe ser booleano.") ;;
  ret VUndefined.

(** [op.valores.reduce(f, init)].  The function is private to its module
    and its one caller runs [validarOperacion] first, which leaves only
    arrays of numbers: [f] is applied to numbers. *)
Definition reduce (f : number -> number -> number) (init : number) (valores : value)
  : completion number :=
  match valores with
  | VArr elems => Normal (fold_left (fun total elemento => f total (as_number elemento)) elems init)
  | VUndefined => Throw "Cannot read properties of undefined (reading 'reduce')"
  | VNull => Throw "Cannot read properties of null (reading 'reduce')"
  | _ => Throw "op.valores.reduce is not a function"
  end.

Definition calcularResultado (op : value) : completion number :=
  tipo <- prop op "tipo" ;;
  if is_string tipo "suma" then
    valores <- prop op "valores" ;;
    reduce (fun total elemento => num_add total elemento) (int 0) valores
  else if is_string tipo "multiplicacion" then
    valores <- prop op "valores" ;;
    reduce (fun total elemento => num_mul total elemento) (int 1) valores
  else
    Throw ("Tipo de operación no reconocido: " ++ ToString tipo).

Definition procesarOperacion {L} (op : value) : async L value :=
  try_catch_async
    (sync (validarOperacion op) ;;
     activa <- sync (prop op "activa") ;;
     if negb (truthy activa) then
       id <- sync (prop op "id") ;;
       ret (VObj [("id", id);
                  ("estado", VStr "rechazada");
                  ("motivo", VStr "La operación está desactivada.")])
     else
       ms <- tiempoAleatorio ;;
       delay ms ;;
       resultado <- sync (calcularResultado op) ;;
       if num_lt resultado (int 0) then
         id <- sync (prop op "id") ;;
         ret (VObj [("id", id);
                    ("estado", VStr "rechazada");
                    ("motivo", VStr ("El resultado (" ++ Number_toString resultado
                                       ++ ") es negativo."))])
       else
         id <- sync (prop op "id") ;;
         ret (VObj [("id", id);
                    ("estado", VStr "aprobada");
                    ("motivo", VStr ("Operación realizada correctamente. Resultado = "
                                       ++ Number_toString resultado))]))
    (fun err =>
       ret (VObj [("id", id_or_desconocido op);
                  ("estado", VStr "rechazada");
                  ("motivo", VStr ("Error: " ++ err))])).

Definition arrObjeto : list value :=
  [ VObj [("id", VNum (int 1)); ("valores", VArr [VNum (int 10); VNum (int 20); VNum (int 30)]);
          ("tipo", VStr "suma"); ("activa", VBool true)];
    VObj [("id", VNum (int 2)); ("valores", VArr [VNum (int 2); VNum (int 3); VNum (int 4)]);
          ("tipo", VStr "multiplicacion"); ("activa", VBool true)];
    VObj [("id", VNum (int 3)); ("valores", VArr []);
          ("tipo", VStr "suma"); ("activa", VBool true)];
    VObj [("id", VNum (int 4)); ("valores", VArr [VNum (int 5); VStr "x"; VNum (int 7)]);
          ("tipo", VStr "suma"); ("activa", VBool true)];
    VObj [("id", VNum (int 5)); ("valores", VArr [VNum (int 10); VNum (int (-50))]);
          ("tipo", VStr "suma"); ("activa", VBool true)];
    VObj [("id", VNum (int 6)); ("valores", VArr [VNum (int 1); VNum (int 2); VNum (int 3)]);
          ("tipo", VStr "division"); ("activa", VBool true)];
    VObj [("id", VNum (int 7)); ("valores", VArr [VNum (int 9); VNum (int 9)]);
          ("tipo", VStr "suma"); ("activa", VBool false)] ].

(** The one variable [ejecutarOperaciones] assigns: the array
    [resultados]. *)
Definition locales : Type := list value.

(** One turn of the [for...of] loop of [ejecutarOperaciones]. *)
Definition iteracion (op : value) : async locales unit :=
  resultado <- call (procesarOperacion op) tt ;;
  assign (fun resultados => push resultados resultado) ;;
  l <- sync (linea "Operación" "estado" resultado) ;;
  console_log l.

Definition bucle (operaciones : list value) : async locales unit :=
  for_of operaciones iteracion.

Definition aprobadas (resultados : locales) : nat :=
  count (prop_is "estado" "aprobada") resultados.

Definition rechazadas (resultados : locales) : nat :=
  count (prop_is "estado" "rechazada") resultados.

(** What follows the loop: the summary. *)
Definition resumen : async locales unit :=
  fun resultados =>
    (console_log (VStr (nl ++ "Resumen")) ;;
     console_log (VStr ("Operaciones aprobadas: "
                          ++ ToString (length_of_nat (aprobadas resultados)))) ;;
     console_log (VStr ("Operaciones rechazadas: "
                          ++ ToString (length_of_nat (rechazadas resultados)))))
      resultados.

Definition ejecutarOperaciones : async locales value :=
  console_log (VStr (nl ++ "Procesando operaciones (Ejercicio 2)")) ;;
  let operaciones := arrObjeto in
  assign (fun _ => []) ;;
  bucle operaciones ;;
  resumen ;;
  ret VUndefined.

End Operaciones.

(* ================================================================= *)
(** * Exercise 3: service requests *)
(* ================================================================= *)

Module Solicitudes.

(** Steps 1 to 7 of the [try] block of [validarSolicitudConCallback]:
    the checks that throw. *)
Definition validacionEstructural (solicitud : value) : completion unit :=
  (* 1 *)
  throw_if (negb (truthy solicitud)) "La solicitud se encuentra vacía o indefinida." ;;
  (* 2 *)
  id <- prop solicitud "id" ;;
  throw_if (negb (typeof id =? "number")%string)
    ("Solicitud inválida: id " ++ dquote ++ ToString id ++ dquote ++ " no es numérico.") ;;
  (* 3: typeof cliente !== "string" || cliente.trim().length === 0 *)
  cliente <- prop solicitud "cliente" ;;
  throw_if (match cliente with
            | VStr c => (String.length (trim c) =? 0)%nat
            | _ => true
            end)
    ("Solicitud " ++ ToString id ++ ": el cliente debe ser un string y no debe estar vacío.") ;;
  (* 4 *)
  tipoServicio <- prop solicitud "tipoServicio" ;;
  throw_if (negb (typeof tipoServicio =? "string")%string)
    ("Solicitud " ++ ToString id ++ ": el tipo de servicio debe ser un string.") ;;
  (* 5: typeof prioridad !== "number" || prioridad < 1 || prioridad > 5 *)
  prioridad <- prop solicitud "prioridad" ;;
  throw_if (match prioridad with
            | VNum p => num_lt p (int 1) || num_gt p (int 5)
            | _ => true
            end)
    ("Solicitud " ++ ToString id ++ ": la prioridad debe ser un número entre 1 y 5.") ;;
  (* 6 *)
  activo <- prop solicitud "activo" ;;
  throw_if (negb (typeof activo =? "boolean")%string)
    ("Solicitud " ++ ToString id ++ ": el campo 'activo' debe ser booleano.") ;;
  (* 7: !(typeof fecha === "string" || fecha instanceof Date) *)
  fechaSolicitud <- prop solicitud "fechaSolicitud" ;;
  throw_if (match fechaSolicitud with
            | VStr _ | VDate _ => false
            | _ => true
            end)
    ("Solicitud " ++ ToString id ++ ": la fecha debe ser string o Date.").

Definition validarSolicitudConCallback {S}
    (solicitud : value) (callback : value -> value -> eff S value) : eff S value :=
  try_catch_eff
    (pure (validacionEstructural solicitud) ;;
     (* 8 *)
     activo <- pure (prop solicitud "activo") ;;
     if negb (truthy activo) then
       id <- pure (prop solicitud "id") ;;
       callback VNull (VObj [("id", id);
                             ("estado", VStr "rechazada");
                             ("motivo", VStr "La solicitud está inactiva.")])
     else
       (* 9 *)
       callback VNull solicitud)
    (* 10 *)
    (fun err =>
       callback VNull (VObj [("id", id_or_desconocido solicitud);
                             ("estado", VStr "rechazada");
                             ("motivo", VStr ("Error: " ++ err))])).

(** [solicitud.tipoServicio.toLowerCase()] *)
Definition tipoServicio_toLowerCase (tipoServicio : value) : completion string :=
  match tipoServicio with
  | VStr s => Normal (toLowerCase s)
  | VUndefined => Throw "Cannot read properties of undefined (reading 'toLowerCase')"
  | VNull => Throw "Cannot read properties of null (reading 'toLowerCase')"
  | _ => Throw "solicitud.tipoServicio.toLowerCase is not a function"
  end.

Definition procesarSolicitudConPromesa {L} (solicitud : value) : async L value :=
  try_catch_async
    (ms <- tiempoAleatorio ;;
     delay ms ;;
     tipoServicio <- sync (prop solicitud "tipoServicio") ;;
     tipo <- sync (tipoServicio_toLowerCase tipoServicio) ;;
     if (tipo =? "instalacion")%string || (tipo =? "mantenimiento")%string
        || (tipo =? "soporte")%string then
       id <- sync (prop solicitud "id") ;;
       cliente <- sync (prop solicitud "cliente") ;;
       ret (VObj [("id", id);
                  ("estado", VStr "aprobada");
                  ("motivo", VStr ("Solicitud de " ++ ToString tipoServicio
                                     ++ " aprobada para cliente " ++ ToString cliente ++ "."))])
     else
       id <- sync (prop solicitud "id") ;;
       ret (VObj [("id", id);
                  ("estado", VStr "rechazada");
                  ("motivo", VStr ("Tipo de servicio no reconocido: "
                                     ++ ToString tipoServicio))]))
    (fun err =>
       ret (VObj [("id", id_or_desconocido solicitud);
                  ("estado", VStr "rechazada");
                  ("motivo", VStr ("Error: " ++ err))])).

(** The one variable [ejecutarSolicitudes] assigns: the array
    [resultados]. *)
Definition locales : Type := list value.

(** One turn of the [for...of] loop of [ejecutarSolicitudes]. *)
Definition iteracion (solicitud : value) : async locales unit :=
  try_catch_async
    (validada <- await_new_Promise (fun resolve =>
                   validarSolicitudConCallback solicitud (fun err res => resolve res)) ;;
     estado <- sync (prop validada "estado") ;;
     if is_string estado "rechazada" then
       assign (fun resultados => push resultados validada) ;;
       l <- sync (linea "Solicitud" "estado" validada) ;;
       console_log l
       (* continue *)
     else
       resultado <- call (procesarSolicitudConPromesa validada) tt ;;
       assign (fun resultados => push resultados resultado) ;;
       l <- sync (linea "Solicitud" "estado" resultado) ;;
       console_log l)
    (fun err =>
       let fallo := VObj [("id", id_or_desconocido solicitud);
                          ("estado", VStr "rechazada");
                          ("motivo", VStr ("Error inesperado: " ++ err))] in
       assign (fun resultados => push resultados fallo) ;;
       l <- sync (linea "Solicitud" "estado" fallo) ;;
       console_log l).

Definition bucle (solicitudes : list value) : async locales unit :=
  for_of solicitudes iteracion.

Definition aprobadas (resultados : locales) : nat :=
  count (prop_is "estado" "aprobada") resultados.

Definition rechazadas (resultados : locales) : nat :=
  count (prop_is "estado" "rechazada") resultados.

(** What follows the loop: the summary. *)
Definition resumen : async locales unit :=
  fun resultados =>
    (console_log (VStr (nl ++ "Resumen")) ;;
     console_log (VStr ("Solicitudes procesadas: " ++ ToString (length_of resultados))) ;;
     console_log (VStr ("Solicitudes aprobadas: "
                          ++ ToString (length_of_nat (aprobadas resultados)))) ;;
     console_log (VStr ("Solicitudes rechazadas: "
                          ++ ToString (length_of_nat (rechazadas resultados)))))
      resultados.

(** [new Date()] in the sample data: the host gives the text. *)
Definition arrSolicitudes (hoy : string) : list value :=
  [ VObj [("id", VNum (int 1)); ("cliente", VStr "Carlos"); ("tipoServicio", VStr "instalacion");
          ("prioridad", VNum (int 3)); ("activo", VBool true); ("fechaSolicitud", VStr "2025-12-01")];
    VObj [("id", VNum (int 2)); ("cliente", VStr "Ana"); ("tipoServicio", VStr "mantenimiento");
          ("prioridad", VNum (int 5)); ("activo", VBool true); ("fechaSolicitud", VDate hoy)];
    VObj [("id", VNum (int 3)); ("cliente", VStr ""); ("tipoServicio", VStr "soporte");
          ("prioridad", VNum (int 2)); ("activo", VBool true); ("fechaSolicitud", VStr "2025-12-02")];
    VObj [("id", VNum (int 4)); ("cliente", VStr "Luis"); ("tipoServicio", VStr "auditoria");
          ("prioridad", VNum (int 4)); ("activo", VBool true); ("fechaSolicitud", VStr "2025-12-03")];
    VObj [("id", VNum (int 5)); ("cliente", VStr "Marta"); ("tipoServicio", VStr "soporte");
          ("prioridad", VNum (int 7)); ("activo", VBool true); ("fechaSolicitud", VStr "2025-12-04")];
    VObj [("id", VNum (int 6)); ("cliente", VStr "Pedro"); ("tipoServicio", VStr "instalacion");
          ("prioridad", VNum (int 1)); ("activo", VBool false); ("fechaSolicitud", VStr "2025-12-05")] ].

Definition ejecutarSolicitudes (hoy : string) : async locales value :=
  console_log (VStr (nl ++ "Gestionando solicitudes de servicio (Ejercicio 3)")) ;;
  let solicitudes := arrSolicitudes hoy in
  assign (fun _ => []) ;;
  bucle solicitudes ;;
  resumen ;;
  ret VUndefined.

End Solicitudes.

(* ================================================================= *)
(** * Exercise 1: transactions *)
(* ================================================================= *)

Module Transacciones.

(** Steps 1 to 7 of the [try] block of [validarTransaccionConCallback]:
    the checks that throw. *)
Definition validacionEstructural (transaccion : value) : completion unit :=
  (* 1 *)
  throw_if (negb (truthy transaccion)) "La transacción está vacía o indefinida." ;;
  (* 2: typeof id !== "number" || !Number.isInteger(id) || id <= 0 *)
  id <- prop transaccion "id" ;;
  throw_if (match id with
            | VNum n => negb (Number_isInteger n) || num_le n (int 0)
            | _ => true
            end)
    ("Transacción inválida: id " ++ dquote ++ ToString id ++ dquote
       ++ " debe ser entero positivo.") ;;
  (* 3: typeof usuario !== "string" || usuario.trim().length === 0 *)
  usuario <- prop transaccion "usuario" ;;
  throw_if (match usuario with
            | VStr u => (String.length (trim u) =? 0)%nat
            | _ => true
            end)
    ("Transacción " ++ ToString id ++ ": el usuario debe ser un string no vacío.") ;;
  (* 4: typeof monto !== "number" || !Number.isFinite(monto) || monto === 0 *)
  monto <- prop transaccion "monto" ;;
  throw_if (match monto with
            | VNum m => negb (Number_isFinite m) || num_eq m (int 0)
            | _ => true
            end)
    ("Transacción " ++ ToString id ++ ": el monto debe ser un número finito distinto de 0.") ;;
  (* 5 *)
  tipo <- prop transaccion "tipo" ;;
  throw_if (negb (typeof tipo =? "string")%string)
    ("Transacción " ++ ToString id ++ ": el tipo debe ser un string.") ;;
  (* 6 *)
  autorizada <- prop transaccion "autorizada" ;;
  throw_if (negb (typeof autorizada =? "boolean")%string)
    ("Transacción " ++ ToString id ++ ": el campo 'autorizada' debe ser booleano.") ;;
  (* 7: !(typeof fecha === "string" || fecha instanceof Date) *)
  fecha <- prop transaccion "fecha" ;;
  throw_if (match fecha with
            | VStr _ | VDate _ => false
            | _ => true
            end)
    ("Transacción " ++ ToString id ++ ": la fecha debe ser string o Date.").

Definition validarTransaccionConCallback {S}
    (transaccion : value) (callback : value -> value -> eff S value) : eff S value :=
  try_catch_eff
    (pure (validacionEstructural transaccion) ;;
     (* 8 *)
     tipo <- pure (prop transaccion "tipo") ;;
     let tipoLower := toLowerCase (ToString tipo) in
     monto <- pure (prop transaccion "monto") ;;
     if (tipoLower =? "ingreso")%string && num_le (as_number monto) (int 0) then
       id <- pure (prop transaccion "id") ;;
       callback VNull (VObj [("id", id);
                             ("clasificacion", VStr "invalida");
                             ("motivo", VStr "Ingreso con monto <= 0 es incoherente.")])
     else if (tipoLower =? "egreso")%string && num_le (as_number monto) (int 0) then
       id <- pure (prop transaccion "id") ;;
       callback VNull (VObj [("id", id);
                             ("clasificacion", VStr "invalida");
                             ("motivo", VStr "Egreso con monto <= 0 es incoherente.")])
     else
       (* 9 *)
       callback VNull transaccion)
    (* 10 *)
    (fun err =>
       callback VNull (VObj [("id", id_or_desconocido transaccion);
                             ("clasificacion", VStr "invalida");
                             ("motivo", VStr ("Error: " ++ err))])).

Definition procesarTransaccionConPromesa {L} (transaccion : value) : async L value :=
  try_catch_async
    (ms <- tiempoAleatorio ;;
     delay ms ;;
     tipo <- sync (prop transaccion "tipo") ;;
     let tipoLower := toLowerCase (ToString tipo) in
     if negb (tipoLower =? "ingreso")%string && negb (tipoLower =? "egreso")%string then
       id <- sync (prop transaccion "id") ;;
       ret (VObj [("id", id);
                  ("clasificacion", VStr "invalida");
                  ("motivo", VStr ("Tipo no reconocido: " ++ ToString tipo))])
     else
       autorizada <- sync (prop transaccion "autorizada") ;;
       if is_true autorizada then
         id <- sync (prop transaccion "id") ;;
         usuario <- sync (prop transaccion "usuario") ;;
         monto <- sync (prop transaccion "monto") ;;
         ret (VObj [("id", id);
                    ("clasificacion", VStr "valida");
                    ("motivo", VStr ("Transacción " ++ tipoLower
                                       ++ " autorizada para usuario " ++ ToString usuario ++ "."));
                    ("tipo", VStr tipoLower);
                    ("monto", monto)])
       else
         id <- sync (prop transaccion "id") ;;
         usuario <- sync (prop transaccion "usuario") ;;
         monto <- sync (prop transaccion "monto") ;;
         ret (VObj [("id", id);
                    ("clasificacion", VStr "sospechosa");
                    ("motivo", VStr ("Transacción " ++ tipoLower
                                       ++ " NO autorizada para usuario " ++ ToString usuario ++ "."));
                    ("tipo", VStr tipoLower);
                    ("monto", monto)]))
    (fun err =>
       ret (VObj [("id", id_or_desconocido transaccion);
                  ("clasificacion", VStr "invalida");
                  ("motivo", VStr ("Error de procesamiento: " ++ err))])).

(** [new Date()] in the sample data: the host gives the text. *)
Definition arrTransacciones (hoy : string) : list value :=
  [ VObj [("id", VNum (int 1)); ("usuario", VStr "Sebas"); ("monto", VNum (int 500));
          ("tipo", VStr "ingreso"); ("autorizada", VBool true); ("fecha", VStr "2025-12-01")];
    VObj [("id", VNum (int 2)); ("usuario", VStr "Karol"); ("monto", VNum (int 300));
          ("tipo", VStr "egreso"); ("autorizada", VBool true); ("fecha", VDate hoy)];
    VObj [("id", VNum (int 3)); ("usuario", VStr "Juan"); ("monto", VNum (int (-200)));
          ("tipo", VStr "ingreso"); ("autorizada", VBool true); ("fecha", VStr "2025-12-02")];
    VObj [("id", VNum (int 4)); ("usuario", VStr "Nicolle"); ("monto", VNum (int 150));
          ("tipo", VStr "egreso"); ("autorizada", VBool false); ("fecha", VStr "2025-12-03")];
    VObj [("id", VNum (int 5)); ("usuario", VStr ""); ("monto", VNum (int 100));
          ("tipo", VStr "ingreso"); ("autorizada", VBool true); ("fecha", VStr "2025-12-04")];
    VObj [("id", VNum (int 6)); ("usuario", VStr "Santi"); ("monto", VNum (int 0));
          ("tipo", VStr "egreso"); ("autorizada", VBool true); ("fecha", VStr "2025-12-05")];
    VObj [("id", VNum (int 7)); ("usuario", VStr "David"); ("monto", VNum (int 250));
          ("tipo", VStr "transfer"); ("autorizada", VBool true); ("fecha", VStr "2025-12-06")] ].

(** The variables [ejecutarAnalisis] assigns: four arrays and two
    accumulators. *)
Record locales : Type := {
  resultados : list value;
  validas : list value;
  sospechosas : list value;
  invalidas : list value;
  totalIngresos : number;
  totalEgresos : number
}.

Definition inicio : locales :=
  {| resultados := []; validas := []; sospechosas := []; invalidas := [];
     totalIngresos := int 0; totalEgresos := int 0 |}.

Definition resultados_push (r : value) : async locales unit :=
  assign (fun l =>
    {| resultados := push (resultados l) r; validas := validas l;
       sospechosas := sospechosas l; invalidas := invalidas l;
       totalIngresos := totalIngresos l; totalEgresos := totalEgresos l |}).

Definition validas_push (r : value) : async locales unit :=
  assign (fun l =>
    {| resultados := resultados l; validas := push (validas l) r;
       sospechosas := sospechosas l; invalidas := invalidas l;
       totalIngresos := totalIngresos l; totalEgresos := totalEgresos l |}).

Definition sospechosas_push (r : value) : async locales unit :=
  assign (fun l =>
    {| resultados := resultados l; validas := validas l;
       sospechosas := push (sospechosas l) r; invalidas := invalidas l;
       totalIngresos := totalIngresos l; totalEgresos := totalEgresos l |}).

Definition invalidas_push (r : value) : async locales unit :=
  assign (fun l =>
    {| resultados := resultados l; validas := validas l;
       sospechosas := sospechosas l; invalidas := push (invalidas l) r;
       totalIngresos := totalIngresos l; totalEgresos := totalEgresos l |}).

(** [totalIngresos += monto] and [totalEgresos += monto]; [monto] is the
    field of a result classified "valida", a number. *)
Definition totalIngresos_add (monto : value) : async locales unit :=
  assign (fun l =>
    {| resultados := resultados l; validas := validas l;
       sospechosas := sospechosas l; invalidas := invalidas l;
       totalIngresos := num_add (totalIngresos l) (as_number monto);
       totalEgresos := totalEgresos l |}).

Definition totalEgresos_add (monto : value) : async locales unit :=
  assign (fun l =>
    {| resultados := resultados l; validas := validas l;
       sospechosas := sospechosas l; invalidas := invalidas l;
       totalIngresos := totalIngresos l;
       totalEgresos := num_add (totalEgresos l) (as_number monto) |}).

(** One turn of the [for...of] loop of [ejecutarAnalisis]. *)
Definition iteracion (t : value) : async locales unit :=
  try_catch_async
    (validada <- await_new_Promise (fun resolve =>
                   validarTransaccionConCallback t (fun err res => resolve res)) ;;
     clasificacion <- sync (prop validada "clasificacion") ;;
     if is_string clasificacion "invalida" then
       invalidas_push validada ;;
       resultados_push validada ;;
       l <- sync (linea "Transacción" "clasificacion" validada) ;;
       console_log l
       (* continue *)
     else
       procesada <- call (procesarTransaccionConPromesa validada) tt ;;
       resultados_push procesada ;;
       clasificacion <- sync (prop procesada "clasificacion") ;;
       (if is_string clasificacion "valida" then
          validas_push procesada ;;
          tipo <- sync (prop procesada "tipo") ;;
          if is_string tipo "ingreso" then
            monto <- sync (prop procesada "monto") ;;
            totalIngresos_add monto
          else if is_string tipo "egreso" then
            monto <- sync (prop procesada "monto") ;;
            totalEgresos_add monto
          else ret tt
        else if is_string clasificacion "sospechosa" then
          sospechosas_push procesada
        else
          invalidas_push procesada) ;;
       msgBase <- sync (linea "Transacción" "clasificacion" procesada) ;;
       console_log msgBase)
    (fun err =>
       let fallo := VObj [("id", id_or_desconocido t);
                          ("clasificacion", VStr "invalida");
                          ("motivo", VStr ("Error inesperado: " ++ err))] in
       invalidas_push fallo ;;
       resultados_push fallo ;;
       l <- sync (linea "Transacción" "clasificacion" fallo) ;;
       console_log l).

Definition bucle (transacciones : list value) : async locales unit :=
  for_of transacciones iteracion.

(** What follows the loop: the balance, the summary, the listings and
    the totals. *)
Definition resumen : async locales unit :=
  fun l =>
    (let balanceFinal := num_sub (totalIngresos l) (totalEgresos l) in
     console_log (VStr (nl ++ "Resumen")) ;;
     console_log (VStr ("Total procesadas (number): " ++ ToString (length_of (resultados l))
       ++ " — incluye válidas, sospechosas e inválidas según reglas aplicadas.")) ;;
     console_log (VStr ("Válidas (array): " ++ ToString (length_of (validas l))
       ++ " — datos correctos y autorizadas.")) ;;
     console_log (VStr ("Sospechosas (array): " ++ ToString (length_of (sospechosas l))
       ++ " — datos correctos pero NO autorizadas.")) ;;
     console_log (VStr ("Inválidas (array): " ++ ToString (length_of (invalidas l))
       ++ " — errores de estructura o lógica.")) ;;
     console_log (VStr (nl ++ "Listado de válidas (array de objetos):")) ;;
     console_log (VArr (validas l)) ;;
     console_log (VStr (nl ++ "Listado de sospechosas (array de objetos):")) ;;
     console_log (VArr (sospechosas l)) ;;
     console_log (VStr (nl ++ "Listado de inválidas con motivo (array de objetos):")) ;;
     console_log (VArr (invalidas l)) ;;
     console_log (VStr (nl ++ "Totales")) ;;
     console_log (VStr ("Total de ingresos válidos (number): "
       ++ Number_toString (totalIngresos l)
       ++ " — suma de montos de transacciones válidas con tipo " ++ dquote ++ "ingreso"
       ++ dquote ++ ".")) ;;
     console_log (VStr ("Total de egresos válidos (number): "
       ++ Number_toString (totalEgresos l)
       ++ " — suma de montos de transacciones válidas con tipo " ++ dquote ++ "egreso"
       ++ dquote ++ ".")) ;;
     console_log (VStr ("Balance final (number): " ++ Number_toString balanceFinal
       ++ " — ingresos válidos menos egresos válidos.")))
      l.

Definition ejecutarAnalisis (hoy : string) : async locales value :=
  console_log (VStr (nl ++ "Sistema de Transacciones y Control de Riesgo")) ;;
  let transacciones := arrTransacciones hoy in
  assign (fun _ => inicio) ;;
  bucle transacciones ;;
  resumen ;;
  ret VUndefined.

End Transacciones.

(* ================================================================= *)
(** * transacciones.module.js *)
(* ================================================================= *)

(** The second text of [validarTransaccionConCallback] in
    ejercicio1.js, under the header [transacciones.module.js]: the same
    steps 1 to 8 and the same [catch]; step 9 is a comment, so a
    transaction that passes every check leaves the [try] block without a
    call. *)
Module TransaccionesModule.

Definition validarTransaccionConCallback {S}
    (transaccion : value) (callback : value -> value -> eff S value) : eff S value :=
  try_catch_eff
    (pure (Transacciones.validacionEstructural transaccion) ;;
     (* 8 *)
     tipo <- pure (prop transaccion "tipo") ;;
     let tipoLower := toLowerCase (ToString tipo) in
     monto <- pure (prop transaccion "monto") ;;
     if (tipoLower =? "ingreso")%string && num_le (as_number monto) (int 0) then
       id <- pure (prop transaccion "id") ;;
       callback VNull (VObj [("id", id);
                             ("clasificacion", VStr "invalida");
                             ("motivo", VStr "Ingreso con monto <= 0 es incoherente.")])
     else if (tipoLower =? "egreso")%string && num_le (as_number monto) (int 0) then
       id <- pure (prop transaccion "id") ;;
       callback VNull (VObj [("id", id);
                             ("clasificacion", VStr "invalida");
                             ("motivo", VStr "Egreso con monto <= 0 es incoherente.")])
     else
       (* 9: // return callback(null, transaccion); *)
       ret VUndefined)
    (* 10 *)
    (fun err =>
       callback VNull (VObj [("id", id_or_desconocido transaccion);
                             ("clasificacion", VStr "invalida");
                             ("motivo", VStr ("Error: " ++ err))])).

End TransaccionesModule.


(* ================================================================= *)
(** * app.js: the menu *)
(* ================================================================= *)

Module App.

(** What [mainMenu] keeps and reaches besides the host of its callees:
    its variable [salir], the terminal [prompt] reads from (each read
    gives a line, or [null] when the user interrupts), and what
    [console.error] has written. *)
Record menu : Type := {
  salir : bool;
  entradas : nat -> option string;
  leidas : nat;
  errores : list value
}.

Section MainMenu.

(** [./modulo/index.js] is not among the sources.  The three functions
    app.js imports from it are parameters: a call of each, awaited,
    takes the host to a settled promise and a host. *)
Variables ejecutarOperaciones ejecutarSolicitudes ejecutarAnalisis
  : world -> settled value * world.

(** [await f()] *)
Definition llamar (f : world -> settled value * world) : async menu value :=
  fun l w => let (r, w') := f w in (r, l, w').

(** [prompt(ask)]: the line read; the question itself is written on the
    terminal by the library, not by [console.log]. *)
Definition prompt (ask : string) : async menu (option string) :=
  fun l w =>
    (Fulfilled (entradas l (leidas l)),
     {| salir := salir l; entradas := entradas l;
        leidas := S (leidas l); errores := errores l |}, w).

(** [entrada.trim()] *)
Definition entrada_trim (entrada : option string) : completion string :=
  match entrada with
  | Some s => Normal (trim s)
  | None => Throw "Cannot read properties of null (reading 'trim')"
  end.

(** [console.error(a, b)]: the two texts, a space between them. *)
Definition console_error (a b : string) : async menu unit :=
  assign (fun l =>
    {| salir := salir l; entradas := entradas l; leidas := leidas l;
       errores := push (errores l) (VStr (a ++ " " ++ b)) |}).

(** [salir = true] *)
Definition salir_true : async menu unit :=
  assign (fun l =>
    {| salir := true; entradas := entradas l; leidas := leidas l;
       errores := errores l |}).

(** One turn of the [while (!salir)] loop. *)
Definition vuelta : async menu unit :=
  console_log (VStr (nl ++ "MENÚ PRINCIPAL")) ;;
  console_log (VStr "Opción 1. Procesar operaciones por lotes (Ejercicio 2)") ;;
  console_log (VStr "Opción 2. Gestionar solicitudes de servicio (Ejercicio 3)") ;;
  console_log (VStr "Opción 3. Analizar transacciones y control de riesgo (Ejercicio1)") ;;
  console_log (VStr "Opción 4. Salir") ;;
  try_catch_async
    (entrada <- prompt "Seleccione una opción (1-4): " ;;
     opcion <- sync (entrada_trim entrada) ;;
     if (String.length opcion =? 0)%nat then
       console_log (VStr (nl ++ "Entrada vacía. Por favor ingrese una opción válida "
                             ++ "(1, 2 , 3 o 4)."))
       (* continue *)
     else if (opcion =? "1")%string then
       console_log (VStr (nl ++ "Has elegido la opción 1: Procesar operaciones por lotes.")) ;;
       llamar ejecutarOperaciones ;;
       ret tt
     else if (opcion =? "2")%string then
       console_log (VStr (nl ++ "Has elegido la opción 2: Gestionar solicitudes de servicio.")) ;;
       llamar ejecutarSolicitudes ;;
       ret tt
     else if (opcion =? "3")%string then
       console_log (VStr (nl ++ "Has elegido la opción 3: Analizar transacciones y "
                             ++ "control de riesgo.")) ;;
       llamar ejecutarAnalisis ;;
       ret tt
     else if (opcion =? "4")%string then
       console_log (VStr (nl ++ "Has elegido la opción 3: Saliendo del sistema... "
                             ++ "¡Vuelva pronto!")) ;;
       salir_true
     else
       console_log (VStr (nl ++ "Opción inválida. Por favor ingrese las opciones "
                             ++ "1, 2, 3 o 4.")))
    (fun err =>
       console_error "Error en el menú: " err ;;
       console_log (VStr "Intentalo nuevamente, estamos trabajando en ello.")).

(** [while (!salir) { vuelta }], for at most [fuel] turns: [None] when
    the loop is still running after them. *)
Fixpoint mientras (fuel : nat) (l : menu) (w : world)
  : option (settled unit * menu * world) :=
  if salir l then Some (Fulfilled tt, l, w)
  else
    match fuel with
    | O => None
    | S fuel' =>
        match vuelta l w with
        | (Fulfilled _, l', w') => mientras fuel' l' w'
        | (r, l', w') => Some (r, l', w')
        end
    end.

(** [mainMenu()]: [let salir = false;] and the loop. *)
Definition mainMenu (fuel : nat) (l : menu) (w : world)
  : option (settled unit * menu * world) :=
  mientras fuel
    {| salir := false; entradas := entradas l; leidas := leidas l;
       errores := errores l |} w.

End MainMenu.

End App.

(* ================================================================= *)
(** * Vocabulary of the properties *)
(* ================================================================= *)

(** The [Result] record [{ id, <campo>: estado, motivo }]; [campo] is
    [estado] for operations and requests, [clasificacion] for
    transactions. *)
Definition Result (campo : string) (id : value) (estado motivo : string) : value :=
  VObj [("id", id); (campo, VStr estado); ("motivo", VStr motivo)].

(** A value an orchestrator may collect: an object whose outcome field
    is one of the labels [estados]. *)
Definition es_resultado (campo : string) (estados : list string) (r : value) : Prop :=
  exists props e, r = VObj props /\ lookup campo props = VStr e /\ In e estados.

(** The host after [await delay(tiempoAleatorio())]: one more value of
    [Math.random] is drawn and the latency it gives has elapsed.  Every
    classifier starts with that step, and nothing else draws. *)
Definition tras_latencia (w : world) : world :=
  {| randoms := randoms w;
     drawn := S (drawn w);
     elapsed :=
       num_add (elapsed w)
         (num_add (Math_floor (num_mul (randoms w (drawn w))
                                 (num_add (num_sub (int 2000) (int 300)) (int 1))))
            (int 300));
     console := console w |}.

(** The host after [console.log(v)]. *)
Definition tras_log (v : value) (w : world) : world :=
  {| randoms := randoms w; drawn := drawn w; elapsed := elapsed w;
     console := (console w ++ [v])%list |}.

(** A callback that records its calls, in order. *)
Definition registrar : value -> value -> eff (list (value * value)) value :=
  fun err res llamadas => (Normal VUndefined, (llamadas ++ [(err, res)])%list).

(** A callback that records its call and then throws. *)
Definition registrar_y_lanzar : value -> value -> eff (list (value * value)) value :=
  fun err res llamadas => (Throw "callback", (llamadas ++ [(err, res)])%list).

(** A callback that returns: it does not throw, whatever it is given. *)
Definition no_lanza {S} (callback : value -> value -> eff S value) : Prop :=
  forall err res s, exists v s', callback err res s = (Normal v, s').

(** The properties of an object. *)
Definition props_de (v : value) : list (string * value) :=
  match v with VObj props => props | _ => [] end.

(** A Result that carries a finite amount above zero. *)
Definition monto_positivo (r : value) : Prop :=
  exists props m,
    r = VObj props /\ lookup "monto" props = VNum m /\
    Number_isFinite m = true /\ num_gt m (int 0) = true.

(** The sum, from 0 and in order, of the amounts of the results of kind
    [tipo] in [rs]. *)
Definition suma_montos (tipo : string) (rs : list value) : number :=
  fold_left
    (fun total r => num_add total (as_number (lookup "monto" (props_de r))))
    (filter (prop_is "tipo" tipo) rs) (int 0).

(** The four assignments a turn of the loop of [ejecutarAnalisis] can
    make to the variables of the function. *)
Definition archivar_invalida (r : value) (l : Transacciones.locales)
  : Transacciones.locales :=
  {| Transacciones.resultados := push (Transacciones.resultados l) r;
     Transacciones.validas := Transacciones.validas l;
     Transacciones.sospechosas := Transacciones.sospechosas l;
     Transacciones.invalidas := push (Transacciones.invalidas l) r;
     Transacciones.totalIngresos := Transacciones.totalIngresos l;
     Transacciones.totalEgresos := Transacciones.totalEgresos l |}.

Definition archivar_sospechosa (r : value) (l : Transacciones.locales)
  : Transacciones.locales :=
  {| Transacciones.resultados := push (Transacciones.resultados l) r;
     Transacciones.validas := Transacciones.validas l;
     Transacciones.sospechosas := push (Transacciones.sospechosas l) r;
     Transacciones.invalidas := Transacciones.invalidas l;
     Transacciones.totalIngresos := Transacciones.totalIngresos l;
     Transacciones.totalEgresos := Transacciones.totalEgresos l |}.

Definition archivar_ingreso (r : value) (m : number) (l : Transacciones.locales)
  : Transacciones.locales :=
  {| Transacciones.resultados := push (Transacciones.resultados l) r;
     Transacciones.validas := push (Transacciones.validas l) r;
     Transacciones.sospechosas := Transacciones.sospechosas l;
     Transacciones.invalidas := Transacciones.invalidas l;
     Transacciones.totalIngresos := num_add (Transacciones.totalIngresos l) m;
     Transacciones.totalEgresos := Transacciones.totalEgresos l |}.

Definition archivar_egreso (r : value) (m : number) (l : Transacciones.locales)
  : Transacciones.locales :=
  {| Transacciones.resultados := push (Transacciones.resultados l) r;
     Transacciones.validas := push (Transacciones.validas l) r;
     Transacciones.sospechosas := Transacciones.sospechosas l;
     Transacciones.invalidas := Transacciones.invalidas l;
     Transacciones.totalIngresos := Transacciones.totalIngresos l;
     Transacciones.totalEgresos := num_add (Transacciones.totalEgresos l) m |}.

(** What one turn of the loop of [ejecutarAnalisis] does: it files one
    result, and a valid result adds its amount, which is finite and
    above zero, to the total of its kind. *)
Inductive paso : Transacciones.locales -> Transacciones.locales -> Prop :=
| paso_invalida (l : Transacciones.locales) (r : value) :
    es_resultado "clasificacion" ["invalida"] r ->
    paso l (archivar_invalida r l)
| paso_sospechosa (l : Transacciones.locales) (r : value) :
    es_resultado "clasificacion" ["sospechosa"] r ->
    paso l (archivar_sospechosa r l)
| paso_ingreso (l : Transacciones.locales) (props : list (string * value)) (m : number) :
    lookup "clasificacion" props = VStr "valida" ->
    lookup "tipo" props = VStr "ingreso" ->
    lookup "monto" props = VNum m ->
    Number_isFinite m = true -> num_gt m (int 0) = true ->
    paso l (archivar_ingreso (VObj props) m l)
| paso_egreso (l : Transacciones.locales) (props : list (string * value)) (m : number) :
    lookup "clasificacion" props = VStr "valida" ->
    lookup "tipo" props = VStr "egreso" ->
    lookup "monto" props = VNum m ->
    Number_isFinite m = true -> num_gt m (int 0) = true ->
    paso l (archivar_egreso (VObj props) m l).

(** What holds of the variables of [ejecutarAnalisis] all along a run:
    the three arrays partition [resultados]; every result classified
    "valida" carries a finite amount above zero; the two totals are
    finite and are the sums of the amounts of the valid results of their
    kind. *)
Definition invariante (l : Transacciones.locales) : Prop :=
  (List.length (Transacciones.validas l) + List.length (Transacciones.sospechosas l)
   + List.length (Transacciones.invalidas l)
   = List.length (Transacciones.resultados l))%nat /\
  Forall (fun r => prop_is "clasificacion" "valida" r = true -> monto_positivo r)
    (Transacciones.resultados l) /\
  Forall monto_positivo (Transacciones.validas l) /\
  Transacciones.totalIngresos l = suma_montos "ingreso" (Transacciones.validas l) /\
  Transacciones.totalEgresos l = suma_montos "egreso" (Transacciones.validas l) /\
  Number_isFinite (Transacciones.totalIngresos l) = true /\
  Number_isFinite (Transacciones.totalEgresos l) = true.

(** [n] turns in a row. *)
Fixpoint pasos (n : nat) (l l' : Transacciones.locales) : Prop :=
  match n with
  | O => l = l'
  | S n' => exists l1, paso l l1 /\ pasos n' l1 l'
  end.

(** Sample records of the three exercises, and two records of the same
    shapes that are not in the samples. *)
Module Ejemplos.

(** [{ id: 2, valores: [2, 3, 4], tipo: "multiplicacion", activa: true }] *)
Definition operacion2 : value := nth 1 Operaciones.arrObjeto VUndefined.

(** [{ id: 5, valores: [10, -50], tipo: "suma", activa: true }] *)
Definition operacion5 : value := nth 4 Operaciones.arrObjeto VUndefined.

(** [{ id: 6, valores: [1, 2, 3], tipo: "division", activa: true }] *)
Definition operacion6 : value := nth 5 Operaciones.arrObjeto VUndefined.

(** [{ id: 6, cliente: "Pedro", ..., prioridad: 1, activo: false, ... }] *)
Definition solicitud6 : value := nth 5 (Solicitudes.arrSolicitudes "") VUndefined.

(** [{ id: 5, cliente: "Marta", ..., prioridad: 7, activo: true, ... }] *)
Definition solicitud5 : value := nth 4 (Solicitudes.arrSolicitudes "") VUndefined.

(** The first request of the sample with [prioridad: 2.5]. *)
Definition solicitud_2_5 : value :=
  VObj [("id", VNum (int 1)); ("cliente", VStr "Carlos"); ("tipoServicio", VStr "instalacion");
        ("prioridad", VNum (Fin 25 1)); ("activo", VBool true);
        ("fechaSolicitud", VStr "2025-12-01")].

(** [{ id: 1, usuario: "Sebas", monto: 500, tipo: "ingreso", autorizada: true, ... }] *)
Definition transaccion1 : value := nth 0 (Transacciones.arrTransacciones "") VUndefined.

(** [{ id: 3, usuario: "Juan", monto: -200, tipo: "ingreso", autorizada: true, ... }] *)
Definition transaccion3 : value := nth 2 (Transacciones.arrTransacciones "") VUndefined.

(** [{ id: 6, usuario: "Santi", monto: 0, tipo: "egreso", autorizada: true, ... }] *)
Definition transaccion6 : value := nth 5 (Transacciones.arrTransacciones "") VUndefined.

(** Two hosts that differ in every value of [Math.random], in the
    number of values drawn and in the time elapsed. *)
Definition host_a : world :=
  {| randoms := fun _ => int 0; drawn := 0; elapsed := int 0; console := [] |}.

Definition host_b : world :=
  {| randoms := fun n => Fin (Z.of_nat (n mod 10)) 1; drawn := 7;
     elapsed := int 123456; console := [] |}.

End Ejemplos.

(** ** Vocabulary of the further properties *)


Definition linea_de (label campo : string) (r : value) : value :=
  VStr (label ++ " " ++ ToString (lookup "id" (props_de r)) ++ ": "
          ++ ToString (lookup campo (props_de r)) ++ " => "
          ++ ToString (lookup "motivo" (props_de r))).


(** The kinds the two classifiers with kinds recognize, in lower case. *)
Definition servicio_reconocido (t : string) : bool :=
  (t =? "instalacion")%string || (t =? "mantenimiento")%string || (t =? "soporte")%string.

Definition tipo_reconocido (t : string) : bool :=
  (t =? "ingreso")%string || (t =? "egreso")%string.

(** A read of the menu that starts no exercise and does not leave: an
    interrupted read, or a line that, trimmed, is none of the four
    options (the empty line among them). *)
Definition ociosa (entrada : option string) : bool :=
  match entrada with
  | None => true
  | Some s =>
      negb (trim s =? "1")%string && negb (trim s =? "2")%string
      && negb (trim s =? "3")%string && negb (trim s =? "4")%string
  end.


(** The host after the five lines every turn of the menu prints. *)
Definition tras_menu (w : world) : world :=
  tras_log (VStr "Opción 4. Salir")
    (tras_log (VStr "Opción 3. Analizar transacciones y control de riesgo (Ejercicio1)")
       (tras_log (VStr "Opción 2. Gestionar solicitudes de servicio (Ejercicio 3)")
          (tras_log (VStr "Opción 1. Procesar operaciones por lotes (Ejercicio 2)")
             (tras_log (VStr (nl ++ "MENÚ PRINCIPAL")) w)))).

(** What the [catch] of the menu does with the message of an error. *)
Definition capturar (err : string) : async App.menu unit :=
  App.console_error "Error en el menú: " err ;;
  console_log (VStr "Intentalo nuevamente, estamos trabajando en ello.").

(** Cases for the menu: an exercise that fails, one that runs the loop
    of exercise 2 on no record, a terminal whose third read asks to
    leave after an empty line and an interrupted read, and a terminal
    that asks for exercise 3 and then to leave. *)
Module Casos.




Definition terminal : App.menu :=
  {| App.salir := false;
     App.entradas := fun n => nth n [Some "   "; None; Some " 4 "] (Some "1");
     App.leidas := 0;
     App.errores := [] |}.

End Casos.

(* ================================================================= *)
(** * Properties *)
(* ================================================================= *)

(** ** Completions, property reads and the async monad *)

Lemma bind_Normal {A B} (c : completion A) (k : A -> completion B) (b : B) :
  bind c k = Normal b -> exists a, c = Normal a /\ k a = Normal b.
Proof. destruct c as [a|m]; simpl; intros H; [eauto | discriminate]. Qed.

Lemma throw_if_Normal (c : bool) (m : string) (u : unit) :
  throw_if c m = Normal u -> c = false.
Proof. destruct c; simpl; [discriminate | reflexivity]. Qed.

(** Splits [H : (x <- c ;; k) = Normal b] into the run of [c] and the
    run of [k]; a [throw_if] leaves the negation of its condition. *)
Tactic Notation "inv_bind" hyp(H) "as" ident(a) ident(Hc) :=
  apply bind_Normal in H; destruct H as (a & Hc & H);
  try (apply throw_if_Normal in Hc).

(** A property that is not [undefined] was read from an object. *)
Lemma prop_object (v : value) (k : string) (x : value) :
  prop v k = Normal x -> x <> VUndefined ->
  exists props, v = VObj props /\ lookup k props = x.
Proof.
  destruct v; simpl; intros H Hx; try discriminate;
    try (injection H as <-; congruence).
  injection H as <-. eauto.
Qed.

Lemma prop_VObj (props : list (string * value)) (k : string) :
  prop (VObj props) k = Normal (lookup k props).
Proof. reflexivity. Qed.

Lemma typeof_number (v : value) :
  (typeof v =? "number")%string = true -> exists n, v = VNum n.
Proof. destruct v; simpl; try discriminate; eauto. Qed.

Lemma typeof_string (v : value) :
  (typeof v =? "string")%string = true -> exists s, v = VStr s.
Proof. destruct v; simpl; try discriminate; eauto. Qed.

Lemma typeof_boolean (v : value) :
  (typeof v =? "boolean")%string = true -> exists b, v = VBool b.
Proof. destruct v; simpl; try discriminate; eauto. Qed.

Lemma all_numbers (elems : list value) :
  forallb (fun v => (typeof v =? "number")%string) elems = true ->
  exists ns, elems = map VNum ns.
Proof.
  induction elems as [|v elems IH]; simpl; intros H.
  - exists []. reflexivity.
  - apply andb_true_iff in H. destruct H as [Hv Hr].
    destruct (typeof_number v Hv) as [n ->].
    destruct (IH Hr) as [ns ->].
    exists (n :: ns). reflexivity.
Qed.

Lemma fold_as_number (f : number -> number -> number) (ns : list number) (init : number) :
  fold_left (fun total elemento => f total (as_number elemento)) (map VNum ns) init
  = fold_left f ns init.
Proof.
  revert init. induction ns as [|n ns IH]; simpl; intros init; [reflexivity | apply IH].
Qed.

Lemma bind_sync {L A B} (c : completion A) (k : A -> async L B) (l : L) (w : world) :
  bind (sync c) k l w =
  match c with Normal a => k a l w | Throw m => (Rejected m, l, w) end.
Proof. destruct c; reflexivity. Qed.

Lemma bind_async {L A B} (c : async L A) (k : A -> async L B)
    (l l' : L) (w w' : world) (a : A) :
  c l w = (Fulfilled a, l', w') -> bind c k l w = k a l' w'.
Proof. intros H. simpl. rewrite H. reflexivity. Qed.

Lemma linea_VObj (label campo : string) (props : list (string * value)) :
  linea label campo (VObj props) =
  Normal (VStr (label ++ " " ++ ToString (lookup "id" props) ++ ": "
                  ++ ToString (lookup campo props) ++ " => "
                  ++ ToString (lookup "motivo" props))).
Proof. reflexivity. Qed.

Lemma es_resultado_Result (campo : string) (estados : list string) (id : value)
    (estado motivo : string) :
  campo <> "id" -> In estado estados ->
  es_resultado campo estados (Result campo id estado motivo).
Proof.
  intros Hc Hin. exists [("id", id); (campo, VStr estado); ("motivo", VStr motivo)], estado.
  split; [reflexivity|]. split; [|assumption].
  simpl. destruct (String.eqb_spec campo "id") as [E|_]; [contradiction|].
  now rewrite String.eqb_refl.
Qed.

(** A loop whose every turn pushes one result and prints one line, both
    independent of the host, collects one result per element: the
    results and the lines of the whole loop do not depend on the host
    either. *)
Lemma for_of_push (body : value -> async (list value) unit) (P : value -> Prop) :
  (forall x, exists r line, P r /\
     forall l w, exists w',
       body x l w = (Fulfilled tt, push l r, w') /\
       console w' = (console w ++ [line])%list) ->
  forall xs, exists rs lines,
    Forall P rs /\ List.length rs = List.length xs /\
    forall l w, exists w',
      for_of xs body l w = (Fulfilled tt, (l ++ rs)%list, w') /\
      console w' = (console w ++ lines)%list.
Proof.
  intros Hbody xs. induction xs as [|x xs IH].
  - exists [], []. repeat split; [constructor|].
    intros l w. exists w. simpl. now rewrite !app_nil_r.
  - destruct (Hbody x) as (r & line & Pr & Hx).
    destruct IH as (rs & lines & Prs & Hlen & Hxs).
    exists (r :: rs), (line :: lines).
    split; [now constructor|]. split; [simpl; now rewrite Hlen|].
    intros l w. destruct (Hx l w) as (w1 & E1 & C1).
    destruct (Hxs (push l r) w1) as (w2 & E2 & C2).
    exists w2. split.
    + change (for_of (x :: xs) body) with (body x ;; for_of xs body).
      rewrite (bind_async _ _ _ _ _ _ _ E1), E2.
      unfold push. now rewrite <- app_assoc.
    + rewrite C2, C1. now rewrite <- app_assoc.
Qed.

(** Results that carry one of two labels are split by the two filters. *)
Lemma count_partition (campo a b : string) (rs : list value) :
  a <> b ->
  Forall (es_resultado campo [a; b]) rs ->
  (count (prop_is campo a) rs + count (prop_is campo b) rs = List.length rs)%nat.
Proof.
  intros Hab H. unfold count. induction H as [|r rs Hr _ IH]; [reflexivity|].
  destruct Hr as (props & e & -> & He & Hin).
  assert (Ea : prop_is campo a (VObj props) = (e =? a)%string)
    by (unfold prop_is; rewrite prop_VObj, He; reflexivity).
  assert (Eb : prop_is campo b (VObj props) = (e =? b)%string)
    by (unfold prop_is; rewrite prop_VObj, He; reflexivity).
  simpl filter. rewrite Ea, Eb.
  destruct Hin as [<-|[<-|[]]]; rewrite String.eqb_refl.
  - destruct (String.eqb_spec a b) as [E|_]; [contradiction|]. simpl. lia.
  - destruct (String.eqb_spec b a) as [E|_]; [congruence|]. simpl. lia.
Qed.

(** The step every classifier starts with. *)
Lemma latencia {L B} (k : async L B) (l : L) (w : world) :
  (ms <- tiempoAleatorio ;; delay ms ;; k) l w = k l (tras_latencia w).
Proof. reflexivity. Qed.

Lemma bind_pure {S A B} (c : completion A) (k : A -> eff S B) (s : S) :
  bind (pure c) k s =
  match c with Normal a => k a s | Throw m => (Throw m, s) end.
Proof. destruct c; reflexivity. Qed.

(** A [try] block that ends in a call of a callback that returns. *)
Lemma try_catch_eff_callback {S} (callback : value -> value -> eff S value)
    (body : eff S value) (handler : string -> eff S value) (err res : value) (s : S) :
  no_lanza callback ->
  body s = callback err res s ->
  try_catch_eff body handler s = callback err res s.
Proof.
  intros H E. unfold try_catch_eff. rewrite E.
  destruct (H err res s) as (v & s' & ->). reflexivity.
Qed.

Lemma no_lanza_resolve : no_lanza (fun _ res => resolve res).
Proof. intros err res s. unfold resolve. eauto. Qed.

Lemma no_lanza_registrar : no_lanza registrar.
Proof. intros err res s. unfold registrar. eauto. Qed.

Lemma console_log_bind {L B} (v : value) (k : async L B) (l : L) (w : world) :
  (console_log v ;; k) l w = k l (tras_log v w).
Proof. reflexivity. Qed.

Lemma console_tras_log (v : value) (w : world) :
  console (tras_log v w) = (console w ++ [v])%list.
Proof. reflexivity. Qed.

(** ** Numbers *)

Lemma pow10_pos (e : nat) : 0 < pow10 e.
Proof. unfold pow10. apply Z.pow_pos_nonneg; lia. Qed.

Lemma pow10_add (e1 e2 : nat) : pow10 (e1 + e2) = pow10 e1 * pow10 e2.
Proof. unfold pow10. rewrite Nat2Z.inj_add. apply Z.pow_add_r; lia. Qed.

Lemma num_le_refl (x : number) : Number_isFinite x = true -> num_le x x = true.
Proof.
  destruct x as [|b|m e]; try discriminate. intros _.
  unfold num_le, num_eq. now rewrite Z.eqb_refl, orb_true_r.
Qed.

Lemma num_le_Fin (a : Z) (e1 : nat) (b : Z) (e2 : nat) :
  num_le (Fin a e1) (Fin b e2) = true <-> a * pow10 e2 <= b * pow10 e1.
Proof.
  unfold num_le, num_lt, num_eq. rewrite orb_true_iff, Z.ltb_lt, Z.eqb_eq. lia.
Qed.

Lemma num_le_trans (x y z : number) :
  Number_isFinite y = true ->
  num_le x y = true -> num_le y z = true -> num_le x z = true.
Proof.
  destruct y as [|?|b e2]; try discriminate. intros _ H1 H2.
  destruct z as [|bz|c e3]; [discriminate| |].
  - destruct bz; [discriminate|]. destruct x as [|bx|a e1]; [discriminate| |reflexivity].
    destruct bx; [reflexivity | discriminate].
  - destruct x as [|bx|a e1]; [discriminate| |].
    + destruct bx; [reflexivity | discriminate].
    + rewrite num_le_Fin in *.
      pose proof (pow10_pos e1). pose proof (pow10_pos e2). pose proof (pow10_pos e3).
      apply (Z.mul_le_mono_pos_r _ _ (pow10 e2)); [assumption|]. nia.
Qed.

(** Adding a finite amount above zero to a finite total gives a finite
    total that is not smaller. *)
Lemma num_add_positive (total m : number) :
  Number_isFinite total = true -> Number_isFinite m = true ->
  num_gt m (int 0) = true ->
  Number_isFinite (num_add total m) = true /\ num_le total (num_add total m) = true.
Proof.
  destruct total as [|b|a e1]; try discriminate.
  destruct m as [|b|b e2]; try discriminate. intros _ _ Hgt.
  split; [reflexivity|].
  unfold num_gt, num_lt, int in Hgt. change (pow10 0) with 1 in Hgt.
  rewrite Z.ltb_lt in Hgt.
  unfold num_le, num_add, num_lt. apply orb_true_iff. left. apply Z.ltb_lt.
  rewrite pow10_add.
  pose proof (pow10_pos e1). pose proof (pow10_pos e2). nia.
Qed.

(** ** Operations *)

Module OperacionesFacts.
Import Operaciones.

(** What [validarOperacion] has checked when it returns. *)
Lemma validarOperacion_Normal (op r : value) :
  validarOperacion op = Normal r ->
  r = VUndefined /\
  exists props ns tipo activa,
    op = VObj props /\
    ((exists s, lookup "id" props = VStr s) \/ (exists n, lookup "id" props = VNum n)) /\
    lookup "valores" props = VArr (map VNum ns) /\ ns <> [] /\
    lookup "tipo" props = VStr tipo /\
    lookup "activa" props = VBool activa.
Proof.
  unfold validarOperacion. intros H.
  inv_bind H as u1 Hop. inv_bind H as id Hid. inv_bind H as u2 Htid.
  inv_bind H as valores Hvalores. inv_bind H as elems Helems.
  inv_bind H as u4 Hlen. inv_bind H as u5 Hnum.
  inv_bind H as tipo0 Htipo. inv_bind H as u6 Httipo.
  inv_bind H as activa0 Hactiva. inv_bind H as u7 Htactiva.
  simpl in H. injection H as <-. split; [reflexivity|].
  destruct valores; try discriminate. injection Helems as ->.
  destruct (prop_object _ _ _ Hvalores) as (props & -> & Hv); [discriminate|].
  rewrite prop_VObj in Hid, Htipo, Hactiva.
  injection Hid as <-. injection Htipo as <-. injection Hactiva as <-.
  apply negb_false_iff in Hnum, Httipo, Htactiva.
  destruct (all_numbers _ Hnum) as [ns ->].
  destruct (typeof_string _ Httipo) as [tipo Htipo].
  destruct (typeof_boolean _ Htactiva) as [activa Hactiva].
  exists props, ns, tipo, activa. repeat split; trivial.
  - destruct (typeof (lookup "id" props) =? "string")%string eqn:E1.
    + left. apply typeof_string, E1.
    + right. destruct (typeof (lookup "id" props) =? "number")%string eqn:E2.
      * apply typeof_number, E2.
      * discriminate.
  - intros ->. discriminate.
Qed.

Lemma validarOperacion_total (op : value) :
  validarOperacion op = Normal VUndefined \/ exists m, validarOperacion op = Throw m.
Proof.
  destruct (validarOperacion op) as [r|m] eqn:E.
  - left. f_equal. apply (validarOperacion_Normal _ _ E).
  - right. eauto.
Qed.

(** On a record [validarOperacion] accepts, [calcularResultado] is the
    fold of the numbers of [valores]. *)
Lemma calcularResultado_valida (props : list (string * value)) (ns : list number)
    (tipo : string) :
  lookup "valores" props = VArr (map VNum ns) ->
  lookup "tipo" props = VStr tipo ->
  calcularResultado (VObj props) =
    if (tipo =? "suma")%string then Normal (fold_left num_add ns (int 0))
    else if (tipo =? "multiplicacion")%string then Normal (fold_left num_mul ns (int 1))
    else Throw ("Tipo de operación no reconocido: " ++ tipo).
Proof.
  intros Hv Ht. unfold calcularResultado.
  rewrite !prop_VObj, Hv, Ht. unfold bind, Monad_completion, is_string, reduce.
  destruct (tipo =? "suma")%string; [now rewrite fold_as_number|].
  destruct (tipo =? "multiplicacion")%string; [now rewrite fold_as_number|].
  reflexivity.
Qed.

(** The three ways through [procesarOperacion]. *)
Lemma procesarOperacion_Throw (op : value) (m : string) {L} (l : L) (w : world) :
  validarOperacion op = Throw m ->
  procesarOperacion op l w =
    (Fulfilled (Result "estado" (id_or_desconocido op) "rechazada" ("Error: " ++ m)), l, w).
Proof.
  intros H. unfold procesarOperacion, try_catch_async.
  rewrite bind_sync, H. reflexivity.
Qed.

Lemma procesarOperacion_desactivada (props : list (string * value)) {L} (l : L) (w : world) :
  validarOperacion (VObj props) = Normal VUndefined ->
  lookup "activa" props = VBool false ->
  procesarOperacion (VObj props) l w =
    (Fulfilled (Result "estado" (lookup "id" props) "rechazada"
                  "La operación está desactivada."), l, w).
Proof.
  intros H Ha. unfold procesarOperacion, try_catch_async.
  rewrite bind_sync, H, bind_sync, prop_VObj, Ha. reflexivity.
Qed.

Lemma procesarOperacion_activa (props : list (string * value)) {L} (l : L) (w : world) :
  validarOperacion (VObj props) = Normal VUndefined ->
  lookup "activa" props = VBool true ->
  procesarOperacion (VObj props) l w =
    (Fulfilled
       match calcularResultado (VObj props) with
       | Normal resultado =>
           if num_lt resultado (int 0) then
             Result "estado" (lookup "id" props) "rechazada"
               ("El resultado (" ++ Number_toString resultado ++ ") es negativo.")
           else
             Result "estado" (lookup "id" props) "aprobada"
               ("Operación realizada correctamente. Resultado = "
                  ++ Number_toString resultado)
       | Throw m =>
           Result "estado" (id_or_desconocido (VObj props)) "rechazada" ("Error: " ++ m)
       end, l, tras_latencia w).
Proof.
  intros H Ha. unfold procesarOperacion, try_catch_async.
  rewrite bind_sync, H, bind_sync, prop_VObj, Ha.
  cbn -[calcularResultado].
  destruct (calcularResultado (VObj props)) as [r|m]; cbn.
  - destruct (num_lt r (int 0)); reflexivity.
  - reflexivity.
Qed.

(** [procesarOperacion] always fulfils, with a Result that depends on
    the record alone, and writes nothing. *)
Lemma procesarOperacion_resultado (op : value) :
  exists r, es_resultado "estado" ["aprobada"; "rechazada"] r /\
    forall L (l : L) (w : world), exists w',
      procesarOperacion op l w = (Fulfilled r, l, w') /\ console w' = console w.
Proof.
  assert (Hr : forall id m, es_resultado "estado" ["aprobada"; "rechazada"]
                              (Result "estado" id "rechazada" m))
    by (intros; apply es_resultado_Result; [discriminate | simpl; auto]).
  assert (Ha : forall id m, es_resultado "estado" ["aprobada"; "rechazada"]
                              (Result "estado" id "aprobada" m))
    by (intros; apply es_resultado_Result; [discriminate | simpl; auto]).
  destruct (validarOperacion op) as [r|m] eqn:E.
  - destruct (validarOperacion_Normal _ _ E)
      as (-> & props & ns & tipo & activa & -> & _ & _ & _ & _ & Hact).
    destruct activa.
    + eexists. split; [|intros L l w; eexists; split;
                         [apply (procesarOperacion_activa props l w E Hact) | reflexivity]].
      destruct (calcularResultado (VObj props)) as [x|x]; [destruct (num_lt x (int 0))|]; auto.
    + eexists. split; [|intros L l w; eexists; split;
                         [apply (procesarOperacion_desactivada props l w E Hact) | reflexivity]].
      auto.
  - eexists. split; [|intros L l w; eexists; split;
                       [apply (procesarOperacion_Throw op m l w E) | reflexivity]].
    auto.
Qed.

Lemma iteracion_operacion (op : value) :
  exists r line, es_resultado "estado" ["aprobada"; "rechazada"] r /\
    forall l w, exists w',
      iteracion op l w = (Fulfilled tt, push l r, w') /\
      console w' = (console w ++ [line])%list.
Proof.
  destruct (procesarOperacion_resultado op) as (r & Hr & Hp).
  destruct Hr as (props & e & -> & He & Hin).
  eexists. eexists. split; [exists props, e; auto|].
  intros l w. destruct (Hp unit tt w) as (w1 & E1 & C1).
  eexists. unfold iteracion.
  erewrite bind_async by (unfold call; rewrite E1; reflexivity).
  cbn -[linea]. rewrite linea_VObj. cbn -[append]. unfold console_log.
  split; [reflexivity|]. simpl. rewrite C1. reflexivity.
Qed.

Lemma bucle_operaciones (operaciones : list value) :
  exists rs lines,
    Forall (es_resultado "estado" ["aprobada"; "rechazada"]) rs /\
    List.length rs = List.length operaciones /\
    forall l w, exists w',
      bucle operaciones l w = (Fulfilled tt, (l ++ rs)%list, w') /\
      console w' = (console w ++ lines)%list.
Proof. apply for_of_push, iteracion_operacion. Qed.

(** C1, as the code has it: [validarOperacion] signals a failed rule by
    raising.  For every input it either returns [undefined] (never the
    record) or throws an [Error]; its caller [procesarOperacion] catches
    the error and fulfils with the rejection
    [{ id: op?.id ?? "desconocido", estado: "rechazada", motivo: "Error: " + message }],
    and [procesarOperacion] itself never rejects: for every input and
    every host it fulfils with a Result whose [estado] is "aprobada" or
    "rechazada". *)
Theorem validarOperacion_throws_procesarOperacion_catches (op : value) :
  (validarOperacion op = Normal VUndefined \/ exists m, validarOperacion op = Throw m) /\
  (forall m, validarOperacion op = Throw m ->
     forall L (l : L) (w : world),
       procesarOperacion op l w =
         (Fulfilled (Result "estado" (id_or_desconocido op) "rechazada" ("Error: " ++ m)),
          l, w)) /\
  (forall L (l : L) (w : world), exists r w',
     procesarOperacion op l w = (Fulfilled r, l, w') /\
     es_resultado "estado" ["aprobada"; "rechazada"] r).
Proof.
  split; [apply validarOperacion_total|]. split.
  - intros m H L l w. now apply procesarOperacion_Throw.
  - intros L l w. destruct (procesarOperacion_resultado op) as (r & Hr & Hp).
    destruct (Hp L l w) as (w' & E & _). eauto.
Qed.

(** C1, the claim as stated fails: on [null] the validator raises, and
    on the first record of the sample, which is valid, it returns
    [undefined] and not the record. *)
Lemma validarOperacion_raises_on_null :
  validarOperacion VNull = Throw "La operación se encuentra vacía o indefinida." /\
  validarOperacion (nth 0 arrObjeto VUndefined) = Normal VUndefined.
Proof. split; reflexivity. Qed.

(** [null] through [procesarOperacion]: the error of the validator
    comes back as a rejection. *)
Lemma procesarOperacion_null_witness :
  procesarOperacion VNull tt Ejemplos.host_a =
    (Fulfilled (Result "estado" (VStr "desconocido") "rechazada"
                  "Error: La operación se encuentra vacía o indefinida."),
     tt, Ejemplos.host_a).
Proof.
  exact (proj1 (proj2 (validarOperacion_throws_procesarOperacion_catches VNull))
           _ eq_refl unit tt Ejemplos.host_a).
Defined.

(** C5: on a record [validarOperacion] accepts, the result is the left
    fold of [valores]: with [+] from 0 for "suma", with [*] from 1 for
    "multiplicacion"; any other [tipo] raises the unrecognized-kind error
    that names the kind, which [procesarOperacion] turns, for an active
    record, into the rejection whose [motivo] names the kind. *)
Theorem calcularResultado_is_left_fold (op : value) :
  validarOperacion op = Normal VUndefined ->
  exists props ns tipo,
    op = VObj props /\
    lookup "valores" props = VArr (map VNum ns) /\
    lookup "tipo" props = VStr tipo /\
    (tipo = "suma" ->
       calcularResultado op = Normal (fold_left num_add ns (int 0))) /\
    (tipo = "multiplicacion" ->
       calcularResultado op = Normal (fold_left num_mul ns (int 1))) /\
    (tipo <> "suma" -> tipo <> "multiplicacion" ->
       calcularResultado op = Throw ("Tipo de operación no reconocido: " ++ tipo) /\
       (lookup "activa" props = VBool true ->
        forall L (l : L) (w : world),
          procesarOperacion op l w =
            (Fulfilled (Result "estado" (lookup "id" props) "rechazada"
                          ("Error: Tipo de operación no reconocido: " ++ tipo)),
             l, tras_latencia w))).
Proof.
  intros H.
  destruct (validarOperacion_Normal _ _ H)
    as (_ & props & ns & tipo & activa & -> & Hid & Hv & _ & Ht & Ha).
  exists props, ns, tipo. repeat split; trivial.
  - intros ->. now rewrite (calcularResultado_valida _ _ _ Hv Ht).
  - intros ->. now rewrite (calcularResultado_valida _ _ _ Hv Ht).
  - rewrite (calcularResultado_valida _ _ _ Hv Ht).
    destruct (String.eqb_spec tipo "suma"); [contradiction|].
    destruct (String.eqb_spec tipo "multiplicacion"); [contradiction|]. reflexivity.
  - intros Hact L l w. rewrite (procesarOperacion_activa props l w H Hact).
    rewrite (calcularResultado_valida _ _ _ Hv Ht).
    destruct (String.eqb_spec tipo "suma"); [contradiction|].
    destruct (String.eqb_spec tipo "multiplicacion"); [contradiction|].
    unfold id_or_desconocido.
    destruct Hid as [[x ->]|[x ->]]; reflexivity.
Qed.

(** C5 at two records of the sample: the sum of [10, -50] and the
    unrecognized kind "division". *)
Lemma calcularResultado_is_left_fold_witness :
  (exists props ns tipo,
     Ejemplos.operacion5 = VObj props /\
     lookup "valores" props = VArr (map VNum ns) /\
     lookup "tipo" props = VStr tipo /\
     (tipo = "suma" ->
        calcularResultado Ejemplos.operacion5 = Normal (fold_left num_add ns (int 0))) /\
     (tipo = "multiplicacion" ->
        calcularResultado Ejemplos.operacion5 = Normal (fold_left num_mul ns (int 1))) /\
     (tipo <> "suma" -> tipo <> "multiplicacion" ->
        calcularResultado Ejemplos.operacion5
          = Throw ("Tipo de operación no reconocido: " ++ tipo) /\
        (lookup "activa" props = VBool true ->
         forall L (l : L) (w : world),
           procesarOperacion Ejemplos.operacion5 l w =
             (Fulfilled (Result "estado" (lookup "id" props) "rechazada"
                           ("Error: Tipo de operación no reconocido: " ++ tipo)),
              l, tras_latencia w)))) /\
  calcularResultado Ejemplos.operacion5 = Normal (int (-40)) /\
  calcularResultado Ejemplos.operacion6 = Throw "Tipo de operación no reconocido: division".
Proof.
  split; [|split; reflexivity].
  exact (calcularResultado_is_left_fold Ejemplos.operacion5 eq_refl).
Defined.

(** C6: for a record [validarOperacion] accepts, with [activa] true and
    a computed result, [procesarOperacion] rejects when the result is
    negative and approves otherwise, and the [motivo] carries the result
    as a template literal writes it; record 5 of the sample, the sum of
    [10, -50], is rejected with "-40" in its [motivo]. *)
Theorem procesarOperacion_rejects_negative_result :
  (forall (props : list (string * value)) (resultado : number),
     validarOperacion (VObj props) = Normal VUndefined ->
     lookup "activa" props = VBool true ->
     calcularResultado (VObj props) = Normal resultado ->
     forall L (l : L) (w : world),
       procesarOperacion (VObj props) l w =
         (Fulfilled
            (if num_lt resultado (int 0) then
               Result "estado" (lookup "id" props) "rechazada"
                 ("El resultado (" ++ Number_toString resultado ++ ") es negativo.")
             else
               Result "estado" (lookup "id" props) "aprobada"
                 ("Operación realizada correctamente. Resultado = "
                    ++ Number_toString resultado)),
          l, tras_latencia w)) /\
  (forall L (l : L) (w : world),
     procesarOperacion Ejemplos.operacion5 l w =
       (Fulfilled (Result "estado" (VNum (int 5)) "rechazada"
                     "El resultado (-40) es negativo."),
        l, tras_latencia w)).
Proof.
  split.
  - intros props r H Ha Hr L l w.
    rewrite (procesarOperacion_activa props l w H Ha), Hr. reflexivity.
  - intros L l w. unfold Ejemplos.operacion5. simpl nth.
    rewrite procesarOperacion_activa by reflexivity. reflexivity.
Qed.

(** C6 at the second record of the sample: the product of [2, 3, 4] is
    24, not negative, and the record is approved. *)
Lemma procesarOperacion_rejects_negative_result_witness :
  procesarOperacion Ejemplos.operacion2 tt Ejemplos.host_a =
    (Fulfilled (Result "estado" (VNum (int 2)) "aprobada"
                  "Operación realizada correctamente. Resultado = 24"),
     tt, tras_latencia Ejemplos.host_a).
Proof.
  exact (proj1 procesarOperacion_rejects_negative_result
           (props_de Ejemplos.operacion2) (int 24)
           eq_refl eq_refl eq_refl unit tt Ejemplos.host_a).
Defined.

End OperacionesFacts.

(** ** Service requests *)

Module SolicitudesFacts.
Import Solicitudes.

(** What steps 1 to 7 have checked when none throws. *)
Lemma solicitud_estructural_Normal (solicitud : value) (u : unit) :
  validacionEstructural solicitud = Normal u ->
  exists props n cliente tipoServicio p activo,
    solicitud = VObj props /\
    lookup "id" props = VNum n /\
    lookup "cliente" props = VStr cliente /\ trim cliente <> "" /\
    lookup "tipoServicio" props = VStr tipoServicio /\
    lookup "prioridad" props = VNum p /\
    num_lt p (int 1) = false /\ num_gt p (int 5) = false /\
    lookup "activo" props = VBool activo /\
    ((exists f, lookup "fechaSolicitud" props = VStr f) \/
     (exists f, lookup "fechaSolicitud" props = VDate f)).
Proof.
  unfold validacionEstructural. intros H.
  inv_bind H as u1 Hs. inv_bind H as id Hid. inv_bind H as u2 Htid.
  inv_bind H as cliente Hcliente. inv_bind H as u3 Htcliente.
  inv_bind H as tipoServicio Htipo. inv_bind H as u4 Httipo.
  inv_bind H as prioridad Hprio. inv_bind H as u5 Htprio.
  inv_bind H as activo Hactivo. inv_bind H as u6 Htactivo.
  inv_bind H as fecha Hfecha. apply throw_if_Normal in H.
  apply negb_false_iff in Htid, Httipo, Htactivo.
  destruct (typeof_number _ Htid) as [n ->].
  destruct (prop_object _ _ _ Hid) as (props & -> & Hn); [discriminate|].
  rewrite prop_VObj in Hcliente, Htipo, Hprio, Hactivo, Hfecha.
  injection Hcliente as <-. injection Htipo as <-. injection Hprio as <-.
  injection Hactivo as <-. injection Hfecha as <-.
  destruct (typeof_string _ Httipo) as [ts Hts].
  destruct (typeof_boolean _ Htactivo) as [b Hb].
  destruct (lookup "cliente" props) as [| | | |c| | |] eqn:Hc; try discriminate.
  destruct (lookup "prioridad" props) as [| | |p| | | |] eqn:Hp; try discriminate.
  apply orb_false_iff in Htprio. destruct Htprio as [Hlo Hhi].
  exists props, n, c, ts, p, b. repeat split; trivial.
  - intros E. rewrite E in Htcliente. discriminate.
  - destruct (lookup "fechaSolicitud" props); try discriminate; eauto.
Qed.

(** The validator calls its callback once, with [null] and with a value
    that depends on the request alone: the rejection of the [catch], the
    rejection of an inactive request, or the request itself. *)
Lemma validarSolicitud_una_llamada (solicitud : value) :
  exists res,
    (forall S (callback : value -> value -> eff S value) (s : S),
       no_lanza callback ->
       validarSolicitudConCallback solicitud callback s = callback VNull res s) /\
    ((exists m, validacionEstructural solicitud = Throw m /\
        res = Result "estado" (id_or_desconocido solicitud) "rechazada" ("Error: " ++ m)) \/
     (exists props, validacionEstructural solicitud = Normal tt /\
        solicitud = VObj props /\
        ((lookup "activo" props = VBool false /\
          res = Result "estado" (lookup "id" props) "rechazada"
                  "La solicitud está inactiva.") \/
         (lookup "activo" props = VBool true /\ res = solicitud)))).
Proof.
  destruct (validacionEstructural solicitud) as [[]|m] eqn:E.
  - destruct (solicitud_estructural_Normal _ _ E)
      as (props & n & c & ts & p & b & -> & Hn & _ & _ & _ & _ & _ & _ & Hb & _).
    destruct b.
    + exists (VObj props). split.
      * intros S callback s Hcb. unfold validarSolicitudConCallback.
        apply try_catch_eff_callback; [assumption|].
        rewrite bind_pure, E, bind_pure, prop_VObj, Hb. reflexivity.
      * right. exists props. auto.
    + eexists. split.
      * intros S callback s Hcb. unfold validarSolicitudConCallback.
        apply try_catch_eff_callback; [assumption|].
        rewrite bind_pure, E, bind_pure, prop_VObj, Hb.
        cbn [truthy negb]. rewrite bind_pure, prop_VObj. reflexivity.
      * right. exists props. auto.
  - eexists. split.
    + intros S callback s Hcb. unfold validarSolicitudConCallback, try_catch_eff.
      rewrite bind_pure, E. reflexivity.
    + left. exists m. auto.
Qed.

(** The classifier always fulfils, after one latency, with a Result
    that depends on the request alone. *)
Lemma procesarSolicitud_resultado (solicitud : value) :
  exists r, es_resultado "estado" ["aprobada"; "rechazada"] r /\
    forall L (l : L) (w : world),
      procesarSolicitudConPromesa solicitud l w = (Fulfilled r, l, tras_latencia w).
Proof.
  assert (Hr : forall id e m, In e ["aprobada"; "rechazada"] ->
                 es_resultado "estado" ["aprobada"; "rechazada"] (Result "estado" id e m))
    by (intros; apply es_resultado_Result; [discriminate | assumption]).
  destruct (prop solicitud "tipoServicio") as [ts|m] eqn:Ets.
  - destruct (tipoServicio_toLowerCase ts) as [t|m] eqn:Et.
    + assert (Hobj : exists props, solicitud = VObj props).
      { destruct ts; try discriminate.
        destruct (prop_object _ _ _ Ets) as (props & -> & _); [discriminate | eauto]. }
      destruct Hobj as [props ->].
      destruct ((t =? "instalacion")%string || (t =? "mantenimiento")%string
                || (t =? "soporte")%string) eqn:Ek.
      * eexists. split; [|intros L l w; unfold procesarSolicitudConPromesa, try_catch_async;
                           rewrite latencia, bind_sync, Ets, bind_sync, Et, Ek;
                           reflexivity].
        apply Hr. simpl. auto.
      * eexists. split; [|intros L l w; unfold procesarSolicitudConPromesa, try_catch_async;
                           rewrite latencia, bind_sync, Ets, bind_sync, Et, Ek;
                           reflexivity].
        apply Hr. simpl. auto.
    + eexists. split; [|intros L l w; unfold procesarSolicitudConPromesa, try_catch_async;
                         rewrite latencia, bind_sync, Ets, bind_sync, Et; reflexivity].
      apply Hr. simpl. auto.
  - eexists. split; [|intros L l w; unfold procesarSolicitudConPromesa, try_catch_async;
                       rewrite latencia, bind_sync, Ets; reflexivity].
    apply Hr. simpl. auto.
Qed.

(** The promise the loop awaits is fulfilled with what the validator
    handed to its callback. *)
Lemma await_validarSolicitud (solicitud res : value) {L} (l : L) (w : world) :
  (forall S (callback : value -> value -> eff S value) (s : S),
     no_lanza callback ->
     validarSolicitudConCallback solicitud callback s = callback VNull res s) ->
  await_new_Promise (fun resolve =>
    validarSolicitudConCallback solicitud (fun err res => resolve res)) l w
  = (Fulfilled res, l, w).
Proof.
  intros H. unfold await_new_Promise.
  rewrite (H _ (fun _ r => resolve r) None no_lanza_resolve). reflexivity.
Qed.

(** A turn of the loop that stops at the validator: the rejection is
    collected and printed, the host is otherwise untouched. *)
Lemma iteracion_rechazada (solicitud : value) (props : list (string * value))
    (l : locales) (w : world) :
  (forall S (callback : value -> value -> eff S value) (s : S),
     no_lanza callback ->
     validarSolicitudConCallback solicitud callback s = callback VNull (VObj props) s) ->
  lookup "estado" props = VStr "rechazada" ->
  iteracion solicitud l w =
    (Fulfilled tt, push l (VObj props),
     tras_log (VStr ("Solicitud " ++ ToString (lookup "id" props) ++ ": rechazada => "
                       ++ ToString (lookup "motivo" props))) w).
Proof.
  intros H He. unfold iteracion, try_catch_async.
  rewrite (bind_async _ _ _ _ _ _ _ (await_validarSolicitud _ _ l w H)).
  rewrite bind_sync, prop_VObj, He. cbn -[linea append].
  rewrite linea_VObj, He. reflexivity.
Qed.

(** Every turn of the loop collects one result and prints one line, and
    neither depends on the host. *)
Lemma iteracion_solicitud (solicitud : value) :
  exists r line, es_resultado "estado" ["aprobada"; "rechazada"] r /\
    forall l w, exists w',
      iteracion solicitud l w = (Fulfilled tt, push l r, w') /\
      console w' = (console w ++ [line])%list.
Proof.
  assert (Hr : forall id m, es_resultado "estado" ["aprobada"; "rechazada"]
                              (Result "estado" id "rechazada" m))
    by (intros; apply es_resultado_Result; [discriminate | simpl; auto]).
  destruct (validarSolicitud_una_llamada solicitud)
    as (res & Hcall & [(m & _ & ->)|(props & _ & -> & [[_ ->]|[_ ->]])]).
  - eexists. eexists. split; [apply Hr|]. intros l w. eexists.
    rewrite (iteracion_rechazada _ _ l w Hcall eq_refl). split; reflexivity.
  - eexists. eexists. split; [apply Hr|]. intros l w. eexists.
    rewrite (iteracion_rechazada _ _ l w Hcall eq_refl). split; reflexivity.
  - destruct (is_string (lookup "estado" props) "rechazada") eqn:He.
    + assert (He' : lookup "estado" props = VStr "rechazada").
      { unfold is_string in He. destruct (lookup "estado" props); try discriminate.
        apply String.eqb_eq in He. now subst. }
      eexists. eexists. split.
      * exists props, "rechazada". simpl. auto.
      * intros l w. eexists.
        rewrite (iteracion_rechazada _ _ l w Hcall He'). split; reflexivity.
    + destruct (procesarSolicitud_resultado (VObj props)) as (r & Hres & Hp).
      pose proof Hres as (rprops & e & -> & Hre & Hin).
      eexists. exists (VStr ("Solicitud " ++ ToString (lookup "id" rprops) ++ ": "
                          ++ ToString (lookup "estado" rprops) ++ " => "
                          ++ ToString (lookup "motivo" rprops))).
      split; [exact Hres|]. intros l w. eexists.
      unfold iteracion, try_catch_async.
      rewrite (bind_async _ _ _ _ _ _ _ (await_validarSolicitud _ _ l w Hcall)).
      rewrite bind_sync, prop_VObj, He.
      erewrite bind_async by (unfold call; rewrite Hp; reflexivity).
      cbn -[linea append]. rewrite linea_VObj. split; reflexivity.
Qed.

Lemma bucle_solicitudes (solicitudes : list value) :
  exists rs lines,
    Forall (es_resultado "estado" ["aprobada"; "rechazada"]) rs /\
    List.length rs = List.length solicitudes /\
    forall l w, exists w',
      bucle solicitudes l w = (Fulfilled tt, (l ++ rs)%list, w') /\
      console w' = (console w ++ lines)%list.
Proof. apply for_of_push, iteracion_solicitud. Qed.

(** C7: a request that passes the seven structural checks and has
    [activo] false is rejected by the validator itself, with the
    [motivo] "La solicitud está inactiva.": the callback is called once
    with that rejection, the turn of the loop collects and prints it,
    and the host comes out with no value of [Math.random] drawn and no
    time elapsed, whereas every call of [procesarSolicitudConPromesa]
    draws one: the classifier is not called. *)
Theorem inactive_request_short_circuits (solicitud : value) :
  validacionEstructural solicitud = Normal tt ->
  prop solicitud "activo" = Normal (VBool false) ->
  exists id,
    prop solicitud "id" = Normal id /\
    (forall S (callback : value -> value -> eff S value) (s : S),
       no_lanza callback ->
       validarSolicitudConCallback solicitud callback s
       = callback VNull (Result "estado" id "rechazada" "La solicitud está inactiva.") s) /\
    validarSolicitudConCallback solicitud registrar []
    = (Normal VUndefined,
       [(VNull, Result "estado" id "rechazada" "La solicitud está inactiva.")]) /\
    (forall l w,
       iteracion solicitud l w =
         (Fulfilled tt,
          push l (Result "estado" id "rechazada" "La solicitud está inactiva."),
          tras_log (VStr ("Solicitud " ++ ToString id
                            ++ ": rechazada => La solicitud está inactiva.")) w)) /\
    (forall L (l : L) (w : world),
       drawn (snd (procesarSolicitudConPromesa solicitud l w)) = S (drawn w)).
Proof.
  intros E Ha.
  destruct (validarSolicitud_una_llamada solicitud)
    as (res & Hcall & [(m & E' & _)|(props & _ & -> & [[Hb ->]|[Hb _]])]).
  - congruence.
  - exists (lookup "id" props). split; [reflexivity|]. split; [exact Hcall|]. split.
    + rewrite (Hcall _ registrar [] no_lanza_registrar). reflexivity.
    + split.
      * intros l w. rewrite (iteracion_rechazada _ _ l w Hcall eq_refl). reflexivity.
      * intros L l w. destruct (procesarSolicitud_resultado (VObj props)) as (r & _ & Hp).
        rewrite Hp. reflexivity.
  - rewrite prop_VObj in Ha. congruence.
Qed.

(** C7 at record 6 of the sample, the inactive request of Pedro. *)
Lemma inactive_request_short_circuits_witness :
  exists id,
    prop Ejemplos.solicitud6 "id" = Normal id /\
    (forall S (callback : value -> value -> eff S value) (s : S),
       no_lanza callback ->
       validarSolicitudConCallback Ejemplos.solicitud6 callback s
       = callback VNull (Result "estado" id "rechazada" "La solicitud está inactiva.") s) /\
    validarSolicitudConCallback Ejemplos.solicitud6 registrar []
    = (Normal VUndefined,
       [(VNull, Result "estado" id "rechazada" "La solicitud está inactiva.")]) /\
    (forall l w,
       iteracion Ejemplos.solicitud6 l w =
         (Fulfilled tt,
          push l (Result "estado" id "rechazada" "La solicitud está inactiva."),
          tras_log (VStr ("Solicitud " ++ ToString id
                            ++ ": rechazada => La solicitud está inactiva.")) w)) /\
    (forall L (l : L) (w : world),
       drawn (snd (procesarSolicitudConPromesa Ejemplos.solicitud6 l w)) = S (drawn w)).
Proof.
  exact (inactive_request_short_circuits Ejemplos.solicitud6 eq_refl eq_refl).
Defined.

(** C8, the claim as stated fails: the request of the sample's first
    record with [prioridad: 2.5], which is not an integer, passes the
    validator unchanged. *)
Lemma priority_2_5_is_accepted :
  Number_isInteger (Fin 25 1) = false /\
  validarSolicitudConCallback Ejemplos.solicitud_2_5 registrar []
  = (Normal VUndefined, [(VNull, Ejemplos.solicitud_2_5)]).
Proof. split; reflexivity. Qed.

(** C8, as the code has it: the rule of step 5 is "a number between 1
    and 5".  A request that passes steps 1 to 4 and whose [prioridad]
    is not a number, or is a number below 1 or above 5, is rejected with
    the [motivo] that names the priority rule. *)
Theorem priority_outside_1_5_is_rejected
    (props : list (string * value)) (n : number) (cliente tipoServicio : string) :
  lookup "id" props = VNum n ->
  lookup "cliente" props = VStr cliente -> trim cliente <> "" ->
  lookup "tipoServicio" props = VStr tipoServicio ->
  ((forall p, lookup "prioridad" props <> VNum p) \/
   (exists p, lookup "prioridad" props = VNum p /\
              (num_lt p (int 1) = true \/ num_gt p (int 5) = true))) ->
  forall S (callback : value -> value -> eff S value) (s : S),
    no_lanza callback ->
    validarSolicitudConCallback (VObj props) callback s
    = callback VNull
        (Result "estado" (VNum n) "rechazada"
           ("Error: Solicitud " ++ Number_toString n
              ++ ": la prioridad debe ser un número entre 1 y 5.")) s.
Proof.
  intros Hid Hc Hne Hts Hp S callback s Hcb.
  assert (E : validacionEstructural (VObj props)
              = Throw ("Solicitud " ++ Number_toString n
                         ++ ": la prioridad debe ser un número entre 1 y 5.")).
  { unfold validacionEstructural. rewrite !prop_VObj, Hid, Hc, Hts.
    assert (Hlen : (String.length (trim cliente) =? 0)%nat = false).
    { destruct (trim cliente); [congruence | reflexivity]. }
    cbn -[append trim Number_toString num_lt num_gt]. rewrite Hlen.
    cbn -[append trim Number_toString num_lt num_gt].
    destruct Hp as [Hp|(p & -> & [Hp|Hp])].
    - destruct (lookup "prioridad" props); try reflexivity. now destruct (Hp n0).
    - rewrite Hp. reflexivity.
    - rewrite Hp, orb_true_r. reflexivity. }
  unfold validarSolicitudConCallback, try_catch_eff.
  rewrite bind_pure, E. unfold id_or_desconocido. rewrite Hid. reflexivity.
Qed.

(** C8 at record 5 of the sample, whose [prioridad] is 7. *)
Lemma priority_outside_1_5_is_rejected_witness :
  validarSolicitudConCallback Ejemplos.solicitud5 registrar []
  = (Normal VUndefined,
     [(VNull, Result "estado" (VNum (int 5)) "rechazada"
                "Error: Solicitud 5: la prioridad debe ser un número entre 1 y 5.")]).
Proof.
  refine (priority_outside_1_5_is_rejected
            (props_de Ejemplos.solicitud5) (int 5) "Marta" "soporte"
            eq_refl eq_refl _ eq_refl _ _ registrar [] no_lanza_registrar).
  - discriminate.
  - right. exists (int 7). split; [reflexivity | right; reflexivity].
Defined.

End SolicitudesFacts.

(** ** Transactions *)

Module TransaccionesFacts.
Import Transacciones.

(** What steps 1 to 7 have checked when none throws. *)
Lemma transaccion_estructural_Normal (transaccion : value) (u : unit) :
  validacionEstructural transaccion = Normal u ->
  exists props n usuario m tipo autorizada,
    transaccion = VObj props /\
    lookup "id" props = VNum n /\
    Number_isInteger n = true /\ num_le n (int 0) = false /\
    lookup "usuario" props = VStr usuario /\ trim usuario <> "" /\
    lookup "monto" props = VNum m /\
    Number_isFinite m = true /\ num_eq m (int 0) = false /\
    lookup "tipo" props = VStr tipo /\
    lookup "autorizada" props = VBool autorizada /\
    ((exists f, lookup "fecha" props = VStr f) \/
     (exists f, lookup "fecha" props = VDate f)).
Proof.
  unfold validacionEstructural. intros H.
  inv_bind H as u1 Hs. inv_bind H as id Hid. inv_bind H as u2 Htid.
  inv_bind H as usuario Husuario. inv_bind H as u3 Htusuario.
  inv_bind H as monto Hmonto. inv_bind H as u4 Htmonto.
  inv_bind H as tipo Htipo. inv_bind H as u5 Httipo.
  inv_bind H as autorizada Hautorizada. inv_bind H as u6 Htautorizada.
  inv_bind H as fecha Hfecha. apply throw_if_Normal in H.
  apply negb_false_iff in Httipo, Htautorizada.
  destruct id as [| | |n| | | |]; try discriminate.
  destruct (prop_object _ _ _ Hid) as (props & -> & Hn); [discriminate|].
  rewrite prop_VObj in Husuario, Hmonto, Htipo, Hautorizada, Hfecha.
  injection Husuario as <-. injection Hmonto as <-. injection Htipo as <-.
  injection Hautorizada as <-. injection Hfecha as <-.
  destruct (typeof_string _ Httipo) as [t Ht].
  destruct (typeof_boolean _ Htautorizada) as [b Hb].
  destruct (lookup "usuario" props) as [| | | |us| | |] eqn:Hus; try discriminate.
  destruct (lookup "monto" props) as [| | |m| | | |] eqn:Hm; try discriminate.
  apply orb_false_iff in Htid, Htmonto.
  destruct Htid as [Hint Hpos]. destruct Htmonto as [Hfin Hnz].
  apply negb_false_iff in Hint, Hfin.
  exists props, n, us, m, t, b. repeat split; trivial.
  - intros E. rewrite E in Htusuario. discriminate.
  - destruct (lookup "fecha" props); try discriminate; eauto.
Qed.

(** A finite amount is [<= 0] or [> 0], and not both. *)
Lemma finite_le_0_or_gt_0 (z : Z) (e : nat) :
  num_le (Fin z e) (int 0) = negb (num_gt (Fin z e) (int 0)).
Proof.
  unfold num_le, num_gt, num_lt, num_eq, int. change (pow10 0) with 1.
  rewrite Z.mul_1_r, Z.mul_0_l.
  destruct (Z.ltb_spec z 0), (Z.eqb_spec z 0), (Z.ltb_spec 0 z);
    simpl; try reflexivity; lia.
Qed.

Lemma le_0_not_gt_0 (m : number) :
  num_le m (int 0) = true -> num_gt m (int 0) = true -> False.
Proof.
  destruct m as [|b|z e].
  - discriminate.
  - destruct b; discriminate.
  - rewrite finite_le_0_or_gt_0. intros H1 H2. rewrite H2 in H1. discriminate.
Qed.

Lemma finite_not_le_0 (m : number) :
  Number_isFinite m = true -> num_le m (int 0) = false -> num_gt m (int 0) = true.
Proof.
  destruct m as [|b|z e]; try discriminate. intros _.
  rewrite finite_le_0_or_gt_0. now destruct (num_gt (Fin z e) (int 0)).
Qed.

(** The validator calls its callback once, with [null] and with a value
    that depends on the transaction alone: the rejection of the [catch],
    one of the two coherence rejections, or the transaction itself. *)
Lemma validarTransaccion_una_llamada (transaccion : value) :
  exists res,
    (forall S (callback : value -> value -> eff S value) (s : S),
       no_lanza callback ->
       validarTransaccionConCallback transaccion callback s = callback VNull res s) /\
    ((exists e, validacionEstructural transaccion = Throw e /\
        res = Result "clasificacion" (id_or_desconocido transaccion) "invalida"
                ("Error: " ++ e)) \/
     (exists props m tipo,
        validacionEstructural transaccion = Normal tt /\
        transaccion = VObj props /\
        lookup "monto" props = VNum m /\ Number_isFinite m = true /\
        lookup "tipo" props = VStr tipo /\
        ((toLowerCase tipo = "ingreso" /\ num_le m (int 0) = true /\
          res = Result "clasificacion" (lookup "id" props) "invalida"
                  "Ingreso con monto <= 0 es incoherente.") \/
         (toLowerCase tipo = "egreso" /\ num_le m (int 0) = true /\
          res = Result "clasificacion" (lookup "id" props) "invalida"
                  "Egreso con monto <= 0 es incoherente.") \/
         ((toLowerCase tipo = "ingreso" \/ toLowerCase tipo = "egreso" ->
           num_gt m (int 0) = true) /\
          res = transaccion)))).
Proof.
  destruct (validacionEstructural transaccion) as [[]|e] eqn:E.
  - destruct (transaccion_estructural_Normal _ _ E)
      as (props & n & us & m & t & b & -> & Hn & _ & _ & _ & _ & Hm & Hfin & _ & Ht & _ & _).
    destruct ((toLowerCase t =? "ingreso")%string && num_le m (int 0)) eqn:Ei;
      [|destruct ((toLowerCase t =? "egreso")%string && num_le m (int 0)) eqn:Ee].
    + apply andb_true_iff in Ei. destruct Ei as [Ei Hle]. apply String.eqb_eq in Ei.
      eexists. split.
      * intros S callback s Hcb. unfold validarTransaccionConCallback.
        apply try_catch_eff_callback; [assumption|].
        rewrite bind_pure, E, bind_pure, prop_VObj, Ht, bind_pure, prop_VObj, Hm.
        cbn [ToString as_number]. rewrite Ei, Hle. reflexivity.
      * right. exists props, m, t. repeat split; trivial. left. auto.
    + apply andb_true_iff in Ee. destruct Ee as [Ee Hle]. apply String.eqb_eq in Ee.
      eexists. split.
      * intros S callback s Hcb. unfold validarTransaccionConCallback.
        apply try_catch_eff_callback; [assumption|].
        rewrite bind_pure, E, bind_pure, prop_VObj, Ht, bind_pure, prop_VObj, Hm.
        cbn [ToString as_number]. rewrite Ei, Ee, Hle. reflexivity.
      * right. exists props, m, t. repeat split; trivial. right. left. auto.
    + exists (VObj props). split.
      * intros S callback s Hcb. unfold validarTransaccionConCallback.
        apply try_catch_eff_callback; [assumption|].
        rewrite bind_pure, E, bind_pure, prop_VObj, Ht, bind_pure, prop_VObj, Hm.
        cbn [ToString as_number]. rewrite Ei, Ee. reflexivity.
      * right. exists props, m, t. repeat split; trivial. right. right.
        split; [|reflexivity]. intros Hk. apply finite_not_le_0; [assumption|].
        destruct Hk as [Hk|Hk]; rewrite Hk in *; simpl in Ei, Ee; assumption.
  - eexists. split.
    + intros S callback s Hcb. unfold validarTransaccionConCallback, try_catch_eff.
      rewrite bind_pure, E. reflexivity.
    + left. exists e. auto.
Qed.

(** C2, the claim as stated fails: record 6 of the sample has [monto]
    0 and [tipo] "egreso", and its [motivo] is the one of the structural
    step 4, not the coherence one. *)
Lemma zero_amount_gets_structural_reason :
  validarTransaccionConCallback Ejemplos.transaccion6 registrar []
  = (Normal VUndefined,
     [(VNull, Result "clasificacion" (VNum (int 6)) "invalida"
                "Error: Transacción 6: el monto debe ser un número finito distinto de 0.")]).
Proof. reflexivity. Qed.

(** C2, as the code has it: a transaction whose [monto] is a number
    [<= 0] and whose [tipo] is, in any letter case, "ingreso" or "egreso"
    is classified "invalida" whatever its other fields are.  The
    [motivo] is the coherence one when the transaction passes the
    structural steps 1 to 7; when one of them throws (step 4 does for
    the amount 0), it is "Error: " followed by the message of that
    step. *)
Theorem nonpositive_amount_is_invalid (transaccion : value) (m : number) (tipo : string) :
  prop transaccion "monto" = Normal (VNum m) ->
  prop transaccion "tipo" = Normal (VStr tipo) ->
  num_le m (int 0) = true ->
  toLowerCase tipo = "ingreso" \/ toLowerCase tipo = "egreso" ->
  exists id motivo,
    (forall S (callback : value -> value -> eff S value) (s : S),
       no_lanza callback ->
       validarTransaccionConCallback transaccion callback s
       = callback VNull (Result "clasificacion" id "invalida" motivo) s) /\
    (validacionEstructural transaccion = Normal tt ->
       prop transaccion "id" = Normal id /\
       motivo = if (toLowerCase tipo =? "ingreso")%string
                then "Ingreso con monto <= 0 es incoherente."
                else "Egreso con monto <= 0 es incoherente.") /\
    (forall e, validacionEstructural transaccion = Throw e ->
       id = id_or_desconocido transaccion /\ motivo = "Error: " ++ e).
Proof.
  intros Hm Ht Hle Hk.
  destruct (validarTransaccion_una_llamada transaccion)
    as (res & Hcall & [(e & E & ->)|(props & m' & t' & E & -> & Hm' & _ & Ht' & Hres)]).
  - eexists. eexists. split; [exact Hcall|]. split; [congruence|].
    intros e' E'. split; congruence.
  - rewrite prop_VObj in Hm, Ht. rewrite Hm' in Hm. rewrite Ht' in Ht.
    injection Hm as ->. injection Ht as ->.
    destruct Hres as [(Hi & _ & ->)|[(He & _ & ->)|(Hpos & _)]].
    + eexists. eexists. split; [exact Hcall|]. split; [|congruence].
      intros _. split; [reflexivity|]. now rewrite Hi.
    + eexists. eexists. split; [exact Hcall|]. split; [|congruence].
      intros _. split; [reflexivity|]. now rewrite He.
    + exfalso. eapply le_0_not_gt_0; [exact Hle | exact (Hpos Hk)].
Qed.

(** C2 at record 3 of the sample: an "ingreso" of -200. *)
Lemma nonpositive_amount_is_invalid_witness :
  exists id motivo,
    (forall S (callback : value -> value -> eff S value) (s : S),
       no_lanza callback ->
       validarTransaccionConCallback Ejemplos.transaccion3 callback s
       = callback VNull (Result "clasificacion" id "invalida" motivo) s) /\
    (validacionEstructural Ejemplos.transaccion3 = Normal tt ->
       prop Ejemplos.transaccion3 "id" = Normal id /\
       motivo = if (toLowerCase "ingreso" =? "ingreso")%string
                then "Ingreso con monto <= 0 es incoherente."
                else "Egreso con monto <= 0 es incoherente.") /\
    (forall e, validacionEstructural Ejemplos.transaccion3 = Throw e ->
       id = id_or_desconocido Ejemplos.transaccion3 /\ motivo = "Error: " ++ e).
Proof.
  exact (nonpositive_amount_is_invalid Ejemplos.transaccion3 (int (-200)) "ingreso"
           eq_refl eq_refl eq_refl (or_introl eq_refl)).
Defined.

(** The validator of ejercicio1.js calls its callback exactly once,
    with [null] as the error, whatever the transaction. *)
Lemma validarTransaccion_calls_once (transaccion : value) :
  exists res, forall llamadas,
    validarTransaccionConCallback transaccion registrar llamadas
    = (Normal VUndefined, (llamadas ++ [(VNull, res)])%list).
Proof.
  destruct (validarTransaccion_una_llamada transaccion) as (res & Hcall & _).
  exists res. intros llamadas. now rewrite (Hcall _ registrar llamadas no_lanza_registrar).
Qed.

(** The calls are inside the [try] block: a callback that throws on a
    valid transaction is called a second time, from the [catch], and
    what it throws then leaves the validator.  The callback of the
    orchestrator, [(err, res) => resolve(res)], does not throw. *)
Lemma throwing_callback_is_called_again :
  validarTransaccionConCallback Ejemplos.transaccion1 registrar_y_lanzar []
  = (Throw "callback",
     [(VNull, Ejemplos.transaccion1);
      (VNull, Result "clasificacion" (VNum (int 1)) "invalida" "Error: callback")]).
Proof. reflexivity. Qed.

(** C3 fails on the text of [validarTransaccionConCallback] under the
    header [transacciones.module.js]: on the first record of the sample,
    which passes every check, it returns without a call of the callback
    (the promise the orchestrator awaits would stay pending), where the
    text of ejercicio1.js calls it once with the record. *)
Lemma module_validator_never_calls_back_on_valid :
  TransaccionesModule.validarTransaccionConCallback Ejemplos.transaccion1 registrar []
  = (Normal VUndefined, []) /\
  await_new_Promise (fun resolve =>
    TransaccionesModule.validarTransaccionConCallback Ejemplos.transaccion1
      (fun err res => resolve res)) tt Ejemplos.host_a
  = (Pending, tt, Ejemplos.host_a) /\
  validarTransaccionConCallback Ejemplos.transaccion1 registrar []
  = (Normal VUndefined, [(VNull, Ejemplos.transaccion1)]).
Proof. repeat split; reflexivity. Qed.

(** The classifier always fulfils, after one latency, with a Result
    that depends on the transaction alone: "invalida", or "valida" or
    "sospechosa" with the kind in lower case and the amount of the
    transaction. *)
Lemma procesarTransaccion_casos (t : value) :
  (exists id m, forall L (l : L) (w : world),
     procesarTransaccionConPromesa t l w
     = (Fulfilled (Result "clasificacion" id "invalida" m), l, tras_latencia w)) \/
  (exists props tl estado motivo,
     t = VObj props /\
     tl = toLowerCase (ToString (lookup "tipo" props)) /\
     (tl = "ingreso" \/ tl = "egreso") /\
     (estado = "valida" \/ estado = "sospechosa") /\
     forall L (l : L) (w : world),
       procesarTransaccionConPromesa t l w
       = (Fulfilled (VObj [("id", lookup "id" props);
                           ("clasificacion", VStr estado);
                           ("motivo", VStr motivo);
                           ("tipo", VStr tl);
                           ("monto", lookup "monto" props)]),
          l, tras_latencia w)).
Proof.
  destruct t as [| |b|n|x|elems|props|d];
    try (left; eexists; eexists; intros L l w; reflexivity).
  remember (toLowerCase (ToString (lookup "tipo" props))) as tl eqn:Htl.
  destruct (negb (tl =? "ingreso")%string && negb (tl =? "egreso")%string) eqn:Ek.
  - left. eexists. eexists. intros L l w.
    unfold procesarTransaccionConPromesa, try_catch_async.
    rewrite latencia, bind_sync, prop_VObj. cbn zeta. rewrite <- Htl, Ek. reflexivity.
  - right.
    assert (Hk : tl = "ingreso" \/ tl = "egreso").
    { apply andb_false_iff in Ek.
      destruct Ek as [Ek|Ek]; apply negb_false_iff, String.eqb_eq in Ek; auto. }
    destruct (is_true (lookup "autorizada" props)) eqn:Ea.
    + exists props, tl, "valida". eexists. repeat split; auto.
      intros L l w. unfold procesarTransaccionConPromesa, try_catch_async.
      rewrite latencia, bind_sync, prop_VObj. cbn zeta.
      rewrite <- Htl, Ek, bind_sync, prop_VObj, Ea. reflexivity.
    + exists props, tl, "sospechosa". eexists. repeat split; auto.
      intros L l w. unfold procesarTransaccionConPromesa, try_catch_async.
      rewrite latencia, bind_sync, prop_VObj. cbn zeta.
      rewrite <- Htl, Ek, bind_sync, prop_VObj, Ea. reflexivity.
Qed.

(** The promise the loop awaits is fulfilled with what the validator
    handed to its callback. *)
Lemma await_validarTransaccion (t res : value) {L} (l : L) (w : world) :
  (forall S (callback : value -> value -> eff S value) (s : S),
     no_lanza callback ->
     validarTransaccionConCallback t callback s = callback VNull res s) ->
  await_new_Promise (fun resolve =>
    validarTransaccionConCallback t (fun err res => resolve res)) l w
  = (Fulfilled res, l, w).
Proof.
  intros H. unfold await_new_Promise.
  rewrite (H _ (fun _ r => resolve r) None no_lanza_resolve). reflexivity.
Qed.

(** A turn of the loop that stops at the validator. *)
Lemma iteracion_validacion_invalida (t : value) (props : list (string * value))
    (l : locales) (w : world) :
  (forall S (callback : value -> value -> eff S value) (s : S),
     no_lanza callback ->
     validarTransaccionConCallback t callback s = callback VNull (VObj props) s) ->
  lookup "clasificacion" props = VStr "invalida" ->
  iteracion t l w =
    (Fulfilled tt, archivar_invalida (VObj props) l,
     tras_log (VStr ("Transacción " ++ ToString (lookup "id" props) ++ ": invalida => "
                       ++ ToString (lookup "motivo" props))) w).
Proof.
  intros H He. unfold iteracion, try_catch_async.
  rewrite (bind_async _ _ _ _ _ _ _ (await_validarTransaccion _ _ l w H)).
  rewrite bind_sync, prop_VObj, He. cbn -[linea append].
  rewrite linea_VObj, He. reflexivity.
Qed.

(** A turn of the loop that reaches the classifier: what is done with
    its Result. *)
Lemma iteracion_transaccion_procesada (props rprops : list (string * value))
    (l : locales) (w : world) :
  (forall S (callback : value -> value -> eff S value) (s : S),
     no_lanza callback ->
     validarTransaccionConCallback (VObj props) callback s
     = callback VNull (VObj props) s) ->
  is_string (lookup "clasificacion" props) "invalida" = false ->
  (forall L (l : L) (w : world),
     procesarTransaccionConPromesa (VObj props) l w
     = (Fulfilled (VObj rprops), l, tras_latencia w)) ->
  iteracion (VObj props) l w =
    (Fulfilled tt,
     (let r := VObj rprops in
      if is_string (lookup "clasificacion" rprops) "valida" then
        if is_string (lookup "tipo" rprops) "ingreso" then
          archivar_ingreso r (as_number (lookup "monto" rprops)) l
        else if is_string (lookup "tipo" rprops) "egreso" then
          archivar_egreso r (as_number (lookup "monto" rprops)) l
        else
          {| resultados := push (resultados l) r; validas := push (validas l) r;
             sospechosas := sospechosas l; invalidas := invalidas l;
             totalIngresos := totalIngresos l; totalEgresos := totalEgresos l |}
      else if is_string (lookup "clasificacion" rprops) "sospechosa" then
        archivar_sospechosa r l
      else archivar_invalida r l),
     tras_log (VStr ("Transacción " ++ ToString (lookup "id" rprops) ++ ": "
                       ++ ToString (lookup "clasificacion" rprops) ++ " => "
                       ++ ToString (lookup "motivo" rprops))) (tras_latencia w)).
Proof.
  intros H He Hp.
  unfold iteracion, try_catch_async.
  rewrite (bind_async _ _ _ _ _ _ _ (await_validarTransaccion _ _ l w H)).
  rewrite bind_sync, prop_VObj, He.
  erewrite bind_async by (unfold call; rewrite Hp; reflexivity).
  destruct (is_string (lookup "clasificacion" rprops) "valida") eqn:Ev;
    [destruct (is_string (lookup "tipo" rprops) "ingreso") eqn:Ei;
       [|destruct (is_string (lookup "tipo" rprops) "egreso") eqn:Ee]
    |destruct (is_string (lookup "clasificacion" rprops) "sospechosa") eqn:Es];
    cbn -[linea append is_string]; rewrite ?Ev, ?Ei, ?Ee, ?Es;
    cbn -[linea append is_string]; rewrite ?Ev, ?Ei, ?Ee, ?Es;
    cbn -[linea append is_string]; rewrite ?Ev, ?Ei, ?Ee, ?Es;
    reflexivity.
Qed.

(** Every turn of the loop is a [paso], prints one line, and neither
    the assignment nor the line depends on the host. *)
Lemma iteracion_paso (t : value) :
  exists (f : locales -> locales) (line : value),
    (forall l, paso l (f l)) /\
    forall l w, exists w',
      iteracion t l w = (Fulfilled tt, f l, w') /\
      console w' = (console w ++ [line])%list.
Proof.
  assert (Hinv : forall id m, es_resultado "clasificacion" ["invalida"]
                                (Result "clasificacion" id "invalida" m))
    by (intros; apply es_resultado_Result; [discriminate | simpl; auto]).
  assert (Hstop : forall res id m,
    (forall S (callback : value -> value -> eff S value) (s : S),
       no_lanza callback ->
       validarTransaccionConCallback t callback s = callback VNull res s) ->
    res = Result "clasificacion" id "invalida" m ->
    exists (f : locales -> locales) (line : value),
      (forall l, paso l (f l)) /\
      forall l w, exists w',
        iteracion t l w = (Fulfilled tt, f l, w') /\
        console w' = (console w ++ [line])%list).
  { intros res id m Hcall ->. eexists (archivar_invalida _). eexists. split.
    - intros l. apply paso_invalida, Hinv.
    - intros l w. eexists.
      rewrite (iteracion_validacion_invalida _ _ l w Hcall eq_refl).
      split; reflexivity. }
  destruct (validarTransaccion_una_llamada t)
    as (res & Hcall & [(e & _ & Hres)|(props & m & tipo & _ & -> & Hm & Hfin & Ht & Hres)]).
  - eapply Hstop; eassumption.
  - destruct Hres as [(_ & _ & Hres)|[(_ & _ & Hres)|(Hpos & ->)]];
      [eapply Hstop; eassumption | eapply Hstop; eassumption |].
    destruct (is_string (lookup "clasificacion" props) "invalida") eqn:He.
    + assert (He' : lookup "clasificacion" props = VStr "invalida").
      { unfold is_string in He. destruct (lookup "clasificacion" props); try discriminate.
        apply String.eqb_eq in He. now subst. }
      eexists (archivar_invalida _). eexists. split.
      * intros l. apply paso_invalida. exists props, "invalida". simpl. auto.
      * intros l w. eexists.
        rewrite (iteracion_validacion_invalida _ _ l w Hcall He'). split; reflexivity.
    + destruct (procesarTransaccion_casos (VObj props))
        as [(id & msg & Hp)|(props' & tl & estado & motivo & E & Htl & Hk & Hest & Hp)].
      * eexists (archivar_invalida _). eexists. split.
        -- intros l. apply paso_invalida, Hinv.
        -- intros l w. eexists.
           rewrite (iteracion_transaccion_procesada _ _ l w Hcall He Hp). split; reflexivity.
      * injection E as <-. rewrite Ht in Htl. cbn [ToString] in Htl.
        rewrite Hm in Hp. subst tl.
        destruct Hest as [-> | ->]; destruct Hk as [Hk|Hk];
          pose proof (Hpos (or_introl Hk)) as Hgt || pose proof (Hpos (or_intror Hk)) as Hgt;
          rewrite Hk in Hp.
        -- eexists (archivar_ingreso _ m). eexists. split; cycle 1.
           ++ intros l w. eexists.
              rewrite (iteracion_transaccion_procesada _ _ l w Hcall He Hp). split; reflexivity.
           ++ intros l. apply paso_ingreso; auto.
        -- eexists (archivar_egreso _ m). eexists. split; cycle 1.
           ++ intros l w. eexists.
              rewrite (iteracion_transaccion_procesada _ _ l w Hcall He Hp). split; reflexivity.
           ++ intros l. apply paso_egreso; auto.
        -- eexists (archivar_sospechosa _). eexists. split; cycle 1.
           ++ intros l w. eexists.
              rewrite (iteracion_transaccion_procesada _ _ l w Hcall He Hp). split; reflexivity.
           ++ intros l. apply paso_sospechosa.
              eexists. exists "sospechosa". simpl. auto.
        -- eexists (archivar_sospechosa _). eexists. split; cycle 1.
           ++ intros l w. eexists.
              rewrite (iteracion_transaccion_procesada _ _ l w Hcall He Hp). split; reflexivity.
           ++ intros l. apply paso_sospechosa.
              eexists. exists "sospechosa". simpl. auto.
Qed.

Lemma length_push (xs : list value) (x : value) :
  List.length (push xs x) = S (List.length xs).
Proof. unfold push. rewrite length_app. simpl. lia. Qed.

Lemma Forall_push (P : value -> Prop) (xs : list value) (x : value) :
  Forall P xs -> P x -> Forall P (push xs x).
Proof. intros Hxs Hx. unfold push. apply Forall_app. split; [assumption | now constructor]. Qed.

Lemma suma_montos_push (tipo : string) (rs : list value) (r : value) :
  suma_montos tipo (push rs r) =
    if prop_is "tipo" tipo r
    then num_add (suma_montos tipo rs) (as_number (lookup "monto" (props_de r)))
    else suma_montos tipo rs.
Proof.
  unfold suma_montos, push. rewrite filter_app. simpl.
  destruct (prop_is "tipo" tipo r).
  - now rewrite fold_left_app.
  - now rewrite app_nil_r.
Qed.

(** A result that is not labelled "valida" owes nothing. *)
Lemma no_valida (e : string) (r : value) :
  e <> "valida" ->
  es_resultado "clasificacion" [e] r ->
  prop_is "clasificacion" "valida" r = true -> monto_positivo r.
Proof.
  intros Hne (props & e' & -> & He & [<-|[]]) H.
  unfold prop_is in H. rewrite prop_VObj, He in H. simpl in H.
  apply String.eqb_eq in H. contradiction.
Qed.

(** A turn keeps the invariant, files one result and lowers no total. *)
Lemma paso_invariante (l l' : locales) :
  paso l l' -> invariante l ->
  invariante l' /\
  List.length (resultados l') = S (List.length (resultados l)) /\
  num_le (totalIngresos l) (totalIngresos l') = true /\
  num_le (totalEgresos l) (totalEgresos l') = true.
Proof.
  intros Hp (Hc & Hr & Hv & Hi & He & Hfi & Hfe).
  destruct Hp as [l r Hres|l r Hres|l props m Hcl Ht Hm Hfin Hgt|l props m Hcl Ht Hm Hfin Hgt];
    unfold invariante; cbn [archivar_invalida archivar_sospechosa archivar_ingreso
                            archivar_egreso resultados validas sospechosas invalidas
                            totalIngresos totalEgresos];
    rewrite ?length_push.
  - repeat split; auto using num_le_refl; [lia|].
    apply Forall_push; [assumption|]. apply (no_valida "invalida"); [discriminate|assumption].
  - repeat split; auto using num_le_refl; [lia|].
    apply Forall_push; [assumption|]. apply (no_valida "sospechosa"); [discriminate|assumption].
  - assert (Hpos : monto_positivo (VObj props)) by (exists props, m; auto).
    destruct (num_add_positive _ _ Hfi Hfin Hgt) as [Hfin' Hle].
    repeat split; auto using num_le_refl, Forall_push; [lia| |].
    + rewrite suma_montos_push. unfold prop_is. rewrite prop_VObj, Ht.
      cbn [is_string String.eqb Ascii.eqb Bool.eqb andb props_de]. rewrite Hm, <- Hi.
      reflexivity.
    + rewrite suma_montos_push. unfold prop_is. rewrite prop_VObj, Ht. exact He.
  - assert (Hpos : monto_positivo (VObj props)) by (exists props, m; auto).
    destruct (num_add_positive _ _ Hfe Hfin Hgt) as [Hfin' Hle].
    repeat split; auto using num_le_refl, Forall_push; [lia| |].
    + rewrite suma_montos_push. unfold prop_is. rewrite prop_VObj, Ht. exact Hi.
    + rewrite suma_montos_push. unfold prop_is. rewrite prop_VObj, Ht.
      cbn [is_string String.eqb Ascii.eqb Bool.eqb andb props_de]. rewrite Hm, <- He.
      reflexivity.
Qed.

Lemma invariante_inicio : invariante inicio.
Proof. unfold invariante, inicio. simpl. repeat split; constructor. Qed.

(** [n] turns keep the invariant, file [n] results and lower no total. *)
Lemma pasos_invariante (n : nat) (l l' : locales) :
  pasos n l l' -> invariante l ->
  invariante l' /\
  List.length (resultados l') = (List.length (resultados l) + n)%nat /\
  num_le (totalIngresos l) (totalIngresos l') = true /\
  num_le (totalEgresos l) (totalEgresos l') = true.
Proof.
  revert l. induction n as [|n IH]; intros l Hp Hinv.
  - simpl in Hp. subst l'. pose proof Hinv as (_ & _ & _ & _ & _ & Hfi & Hfe).
    split; [exact Hinv|]. split; [lia|]. split; now apply num_le_refl.
  - destruct Hp as (l1 & H1 & Hn).
    destruct (paso_invariante _ _ H1 Hinv) as (Hinv1 & Hlen1 & Hi1 & He1).
    destruct (IH _ Hn Hinv1) as (Hinv' & Hlen' & Hi' & He').
    destruct Hinv1 as (_ & _ & _ & _ & _ & Hfi & Hfe).
    split; [exact Hinv'|]. split; [rewrite Hlen', Hlen1; lia|]. split.
    + apply (num_le_trans _ _ _ Hfi Hi1 Hi').
    + apply (num_le_trans _ _ _ Hfe He1 He').
Qed.

(** The loop makes one [paso] per transaction and prints lines; neither
    the assignments nor the lines depend on the host. *)
Lemma bucle_pasos (transacciones : list value) :
  exists (F : locales -> locales) (lines : list value),
    (forall l, pasos (List.length transacciones) l (F l)) /\
    forall l w, exists w',
      bucle transacciones l w = (Fulfilled tt, F l, w') /\
      console w' = (console w ++ lines)%list.
Proof.
  induction transacciones as [|t ts IH].
  - exists (fun l => l), []. split; [reflexivity|].
    intros l w. exists w. simpl. now rewrite app_nil_r.
  - destruct (iteracion_paso t) as (f & line & Hf & Ht).
    destruct IH as (F & lines & HF & Hts).
    exists (fun l => F (f l)), (line :: lines). split.
    + intros l. exists (f l). auto.
    + intros l w. destruct (Ht l w) as (w1 & E1 & C1).
      destruct (Hts (f l) w1) as (w2 & E2 & C2).
      exists w2. split.
      * unfold bucle in *.
        change (for_of (t :: ts) iteracion) with (iteracion t ;; for_of ts iteracion).
        now rewrite (bind_async _ _ _ _ _ _ _ E1).
      * rewrite C2, C1. now rewrite <- app_assoc.
Qed.

End TransaccionesFacts.


(** ** The three orchestrators *)

(** The summaries print text that depends on the variables alone. *)
Lemma resumen_operaciones (l : Operaciones.locales) :
  exists out, forall w, exists w',
    Operaciones.resumen l w = (Fulfilled tt, l, w') /\
    console w' = (console w ++ out)%list.
Proof.
  eexists. intros w. eexists. unfold Operaciones.resumen.
  rewrite !console_log_bind. unfold console_log at 1. split; [reflexivity|].
  cbn [console]. rewrite !console_tras_log, <- !app_assoc. reflexivity.
Qed.

Lemma resumen_solicitudes (l : Solicitudes.locales) :
  exists out, forall w, exists w',
    Solicitudes.resumen l w = (Fulfilled tt, l, w') /\
    console w' = (console w ++ out)%list.
Proof.
  eexists. intros w. eexists. unfold Solicitudes.resumen.
  rewrite !console_log_bind. unfold console_log at 1. split; [reflexivity|].
  cbn [console]. rewrite !console_tras_log, <- !app_assoc. reflexivity.
Qed.

Lemma resumen_transacciones (l : Transacciones.locales) :
  exists out, forall w, exists w',
    Transacciones.resumen l w = (Fulfilled tt, l, w') /\
    console w' = (console w ++ out)%list.
Proof.
  eexists. intros w. eexists. unfold Transacciones.resumen. cbv zeta.
  rewrite !console_log_bind. unfold console_log at 1. split; [reflexivity|].
  cbn [console]. rewrite !console_tras_log, <- !app_assoc. reflexivity.
Qed.

(** A whole run of each orchestrator: the variables at the end and the
    text printed are the same on every host, whatever the variables
    held before. *)
Lemma ejecutarOperaciones_run :
  exists rs out,
    Forall (es_resultado "estado" ["aprobada"; "rechazada"]) rs /\
    List.length rs = List.length Operaciones.arrObjeto /\
    forall l w, exists w',
      Operaciones.ejecutarOperaciones l w = (Fulfilled VUndefined, rs, w') /\
      console w' = (console w ++ out)%list.
Proof.
  destruct (OperacionesFacts.bucle_operaciones Operaciones.arrObjeto)
    as (rs & lines & Hrs & Hlen & Hb).
  destruct (resumen_operaciones rs) as (out & Hres).
  exists rs. eexists. split; [exact Hrs|]. split; [exact Hlen|].
  intros l w.
  destruct (Hb [] (tras_log (VStr (nl ++ "Procesando operaciones (Ejercicio 2)")) w))
    as (w2 & E2 & C2).
  simpl app in E2. destruct (Hres w2) as (w3 & E3 & C3).
  exists w3. unfold Operaciones.ejecutarOperaciones. split.
  - rewrite console_log_bind. erewrite bind_async by reflexivity.
    erewrite bind_async by exact E2. erewrite bind_async by exact E3. reflexivity.
  - rewrite C3, C2, console_tras_log, <- !app_assoc. reflexivity.
Qed.

Lemma ejecutarSolicitudes_run (hoy : string) :
  exists rs out,
    Forall (es_resultado "estado" ["aprobada"; "rechazada"]) rs /\
    List.length rs = List.length (Solicitudes.arrSolicitudes hoy) /\
    forall l w, exists w',
      Solicitudes.ejecutarSolicitudes hoy l w = (Fulfilled VUndefined, rs, w') /\
      console w' = (console w ++ out)%list.
Proof.
  destruct (SolicitudesFacts.bucle_solicitudes (Solicitudes.arrSolicitudes hoy))
    as (rs & lines & Hrs & Hlen & Hb).
  destruct (resumen_solicitudes rs) as (out & Hres).
  exists rs. eexists. split; [exact Hrs|]. split; [exact Hlen|].
  intros l w.
  destruct (Hb [] (tras_log (VStr (nl ++ "Gestionando solicitudes de servicio (Ejercicio 3)")) w))
    as (w2 & E2 & C2).
  simpl app in E2. destruct (Hres w2) as (w3 & E3 & C3).
  exists w3. unfold Solicitudes.ejecutarSolicitudes. split.
  - rewrite console_log_bind. erewrite bind_async by reflexivity.
    erewrite bind_async by exact E2. erewrite bind_async by exact E3. reflexivity.
  - rewrite C3, C2, console_tras_log, <- !app_assoc. reflexivity.
Qed.

Lemma ejecutarAnalisis_run (hoy : string) :
  exists fin out,
    pasos (List.length (Transacciones.arrTransacciones hoy)) Transacciones.inicio fin /\
    forall l w, exists w',
      Transacciones.ejecutarAnalisis hoy l w = (Fulfilled VUndefined, fin, w') /\
      console w' = (console w ++ out)%list.
Proof.
  destruct (TransaccionesFacts.bucle_pasos (Transacciones.arrTransacciones hoy))
    as (F & lines & HF & Hb).
  destruct (resumen_transacciones (F Transacciones.inicio)) as (out & Hres).
  exists (F Transacciones.inicio). eexists. split; [apply HF|].
  intros l w.
  destruct (Hb Transacciones.inicio
              (tras_log (VStr (nl ++ "Sistema de Transacciones y Control de Riesgo")) w))
    as (w2 & E2 & C2).
  destruct (Hres w2) as (w3 & E3 & C3).
  exists w3. unfold Transacciones.ejecutarAnalisis. split.
  - rewrite console_log_bind. erewrite bind_async by reflexivity.
    erewrite bind_async by exact E2. erewrite bind_async by exact E3. reflexivity.
  - rewrite C3, C2, console_tras_log, <- !app_assoc. reflexivity.
Qed.

(** C4: on every host, each orchestrator runs to its end over its
    sample array and the counts of its summary partition the results:
    approved plus rejected (operations, requests) and valid plus
    suspicious plus invalid (transactions) are the number of results
    collected, which is the length of the sample array. *)
Theorem summary_counts_partition_results (hoy : string) :
  (forall l w, exists rs w',
     Operaciones.ejecutarOperaciones l w = (Fulfilled VUndefined, rs, w') /\
     (Operaciones.aprobadas rs + Operaciones.rechazadas rs = List.length rs)%nat /\
     List.length rs = List.length Operaciones.arrObjeto) /\
  (forall l w, exists rs w',
     Solicitudes.ejecutarSolicitudes hoy l w = (Fulfilled VUndefined, rs, w') /\
     (Solicitudes.aprobadas rs + Solicitudes.rechazadas rs = List.length rs)%nat /\
     List.length rs = List.length (Solicitudes.arrSolicitudes hoy)) /\
  (forall l w, exists fin w',
     Transacciones.ejecutarAnalisis hoy l w = (Fulfilled VUndefined, fin, w') /\
     (List.length (Transacciones.validas fin) + List.length (Transacciones.sospechosas fin)
      + List.length (Transacciones.invalidas fin)
      = List.length (Transacciones.resultados fin))%nat /\
     List.length (Transacciones.resultados fin)
     = List.length (Transacciones.arrTransacciones hoy)).
Proof.
  split; [|split].
  - destruct ejecutarOperaciones_run as (rs & out & Hrs & Hlen & Hrun).
    intros l w. destruct (Hrun l w) as (w' & E & _).
    exists rs, w'. split; [exact E|]. split; [|exact Hlen].
    apply count_partition; [discriminate | exact Hrs].
  - destruct (ejecutarSolicitudes_run hoy) as (rs & out & Hrs & Hlen & Hrun).
    intros l w. destruct (Hrun l w) as (w' & E & _).
    exists rs, w'. split; [exact E|]. split; [|exact Hlen].
    apply count_partition; [discriminate | exact Hrs].
  - destruct (ejecutarAnalisis_run hoy) as (fin & out & Hp & Hrun).
    destruct (TransaccionesFacts.pasos_invariante _ _ _ Hp TransaccionesFacts.invariante_inicio)
      as ((Hc & _) & Hlen & _).
    intros l w. destruct (Hrun l w) as (w' & E & _).
    exists fin, w'. split; [exact E|]. split; [exact Hc | exact Hlen].
Qed.

(** The runs over the samples with [new Date()] read at another time:
    the date of a record reaches neither a result nor the console. *)
Lemma ejecutarSolicitudes_reference (hoy : string) (l : Solicitudes.locales) (w : world) :
  fst (Solicitudes.ejecutarSolicitudes hoy l w)
  = fst (Solicitudes.ejecutarSolicitudes "" [] Ejemplos.host_a) /\
  console (snd (Solicitudes.ejecutarSolicitudes hoy l w))
  = (console w ++ console (snd (Solicitudes.ejecutarSolicitudes "" [] Ejemplos.host_a)))%list.
Proof.
  destruct (ejecutarSolicitudes_run hoy) as (rs & out & _ & _ & Hrun).
  destruct (Hrun l w) as (w1 & E1 & C1).
  destruct (Hrun [] Ejemplos.host_a) as (w0 & E0 & C0).
  assert (R : fst (Solicitudes.ejecutarSolicitudes hoy [] Ejemplos.host_a)
              = fst (Solicitudes.ejecutarSolicitudes "" [] Ejemplos.host_a) /\
              console (snd (Solicitudes.ejecutarSolicitudes hoy [] Ejemplos.host_a))
              = console (snd (Solicitudes.ejecutarSolicitudes "" [] Ejemplos.host_a)))
    by (split; vm_compute; reflexivity).
  rewrite E1. rewrite E0 in R. cbn [fst snd] in *. destruct R as [R1 R2].
  split; [exact R1|]. rewrite C1, <- R2, C0. reflexivity.
Qed.

Lemma ejecutarAnalisis_reference (hoy : string) (l : Transacciones.locales) (w : world) :
  fst (Transacciones.ejecutarAnalisis hoy l w)
  = fst (Transacciones.ejecutarAnalisis "" Transacciones.inicio Ejemplos.host_a) /\
  console (snd (Transacciones.ejecutarAnalisis hoy l w))
  = (console w
     ++ console (snd (Transacciones.ejecutarAnalisis "" Transacciones.inicio
                        Ejemplos.host_a)))%list.
Proof.
  destruct (ejecutarAnalisis_run hoy) as (fin & out & _ & Hrun).
  destruct (Hrun l w) as (w1 & E1 & C1).
  destruct (Hrun Transacciones.inicio Ejemplos.host_a) as (w0 & E0 & C0).
  assert (R : fst (Transacciones.ejecutarAnalisis hoy Transacciones.inicio Ejemplos.host_a)
              = fst (Transacciones.ejecutarAnalisis "" Transacciones.inicio Ejemplos.host_a) /\
              console (snd (Transacciones.ejecutarAnalisis hoy Transacciones.inicio
                              Ejemplos.host_a))
              = console (snd (Transacciones.ejecutarAnalisis "" Transacciones.inicio
                                Ejemplos.host_a)))
    by (split; vm_compute; reflexivity).
  rewrite E1. rewrite E0 in R. cbn [fst snd] in *. destruct R as [R1 R2].
  split; [exact R1|]. rewrite C1, <- R2, C0. reflexivity.
Qed.

(** C9: two runs of an orchestrator over its sample array, on hosts
    that agree on nothing but what the console already shows (other
    values of [Math.random], hence other latencies, another time
    elapsed, another date read by [new Date()], other variables before
    the run), end with the same results, outcome and reason of every
    record included, and with the same console. *)
Theorem outcomes_do_not_depend_on_latency (hoy1 hoy2 : string)
    (lo1 lo2 : Operaciones.locales) (ls1 ls2 : Solicitudes.locales)
    (lt1 lt2 : Transacciones.locales) (w1 w2 : world) :
  console w1 = console w2 ->
  (fst (Operaciones.ejecutarOperaciones lo1 w1) = fst (Operaciones.ejecutarOperaciones lo2 w2) /\
   console (snd (Operaciones.ejecutarOperaciones lo1 w1))
   = console (snd (Operaciones.ejecutarOperaciones lo2 w2))) /\
  (fst (Solicitudes.ejecutarSolicitudes hoy1 ls1 w1)
   = fst (Solicitudes.ejecutarSolicitudes hoy2 ls2 w2) /\
   console (snd (Solicitudes.ejecutarSolicitudes hoy1 ls1 w1))
   = console (snd (Solicitudes.ejecutarSolicitudes hoy2 ls2 w2))) /\
  (fst (Transacciones.ejecutarAnalisis hoy1 lt1 w1)
   = fst (Transacciones.ejecutarAnalisis hoy2 lt2 w2) /\
   console (snd (Transacciones.ejecutarAnalisis hoy1 lt1 w1))
   = console (snd (Transacciones.ejecutarAnalisis hoy2 lt2 w2))).
Proof.
  intros Hc. split; [|split].
  - destruct ejecutarOperaciones_run as (rs & out & _ & _ & Hrun).
    destruct (Hrun lo1 w1) as (w1' & -> & C1). destruct (Hrun lo2 w2) as (w2' & -> & C2).
    cbn [fst snd]. split; [reflexivity | congruence].
  - destruct (ejecutarSolicitudes_reference hoy1 ls1 w1) as [R1 C1].
    destruct (ejecutarSolicitudes_reference hoy2 ls2 w2) as [R2 C2].
    split; congruence.
  - destruct (ejecutarAnalisis_reference hoy1 lt1 w1) as [R1 C1].
    destruct (ejecutarAnalisis_reference hoy2 lt2 w2) as [R2 C2].
    split; congruence.
Qed.

(** C9 on two hosts that differ in every value of [Math.random], in the
    number of values drawn, in the time elapsed and in the date. *)
Lemma outcomes_do_not_depend_on_latency_witness :
  (fst (Operaciones.ejecutarOperaciones [] Ejemplos.host_a)
   = fst (Operaciones.ejecutarOperaciones [] Ejemplos.host_b) /\
   console (snd (Operaciones.ejecutarOperaciones [] Ejemplos.host_a))
   = console (snd (Operaciones.ejecutarOperaciones [] Ejemplos.host_b))) /\
  (fst (Solicitudes.ejecutarSolicitudes "Mon Dec 01 2025" [] Ejemplos.host_a)
   = fst (Solicitudes.ejecutarSolicitudes "Tue Dec 02 2025" [] Ejemplos.host_b) /\
   console (snd (Solicitudes.ejecutarSolicitudes "Mon Dec 01 2025" [] Ejemplos.host_a))
   = console (snd (Solicitudes.ejecutarSolicitudes "Tue Dec 02 2025" [] Ejemplos.host_b))) /\
  (fst (Transacciones.ejecutarAnalisis "Mon Dec 01 2025" Transacciones.inicio Ejemplos.host_a)
   = fst (Transacciones.ejecutarAnalisis "Tue Dec 02 2025" Transacciones.inicio
            Ejemplos.host_b) /\
   console (snd (Transacciones.ejecutarAnalisis "Mon Dec 01 2025" Transacciones.inicio
                   Ejemplos.host_a))
   = console (snd (Transacciones.ejecutarAnalisis "Tue Dec 02 2025" Transacciones.inicio
                     Ejemplos.host_b))).
Proof.
  exact (outcomes_do_not_depend_on_latency "Mon Dec 01 2025" "Tue Dec 02 2025" [] [] [] []
           Transacciones.inicio Transacciones.inicio
           Ejemplos.host_a Ejemplos.host_b eq_refl).
Defined.



(* ================================================================= *)
(** * Further properties *)
(* ================================================================= *)

(** ** The latency *)



(** ** Operations, further *)

Module OperacionesProps.
Import Operaciones.

Lemma forallb_typeof_number (ns : list number) :
  forallb (fun v => (typeof v =? "number")%string) (map VNum ns) = true.
Proof. induction ns as [|n ns IH]; [reflexivity | exact IH]. Qed.


(** A record of the documented shape passes the seven rules. *)
Lemma validarOperacion_acepta (props : list (string * value)) (ns : list number)
    (tipo : string) (activa : bool) :
  (exists s, lookup "id" props = VStr s) \/ (exists n, lookup "id" props = VNum n) ->
  lookup "valores" props = VArr (map VNum ns) -> ns <> [] ->
  lookup "tipo" props = VStr tipo ->
  lookup "activa" props = VBool activa ->
  validarOperacion (VObj props) = Normal VUndefined.
Proof.
  intros Hid Hv Hne Ht Ha.
  unfold validarOperacion. rewrite !prop_VObj, Hv, Ht, Ha.
  assert (Hlen : (List.length (map VNum ns) =? 0)%nat = false)
    by (destruct ns; [congruence | reflexivity]).
  destruct Hid as [[x ->]|[x ->]];
    cbn -[append ToString forallb List.length Nat.eqb];
    rewrite Hlen; cbn -[append ToString forallb];
    rewrite forallb_typeof_number; reflexivity.
Qed.





(** X1: [validarOperacion] accepts exactly the records of the documented
    shape: an object whose [id] is a string or a number, whose [valores]
    is an array of numbers that is not empty, whose [tipo] is a string
    (any string) and whose [activa] is a boolean. *)
Theorem validarOperacion_accepts_exactly (op : value) :
  validarOperacion op = Normal VUndefined <->
  exists props ns tipo activa,
    op = VObj props /\
    ((exists s, lookup "id" props = VStr s) \/ (exists n, lookup "id" props = VNum n)) /\
    lookup "valores" props = VArr (map VNum ns) /\ ns <> [] /\
    lookup "tipo" props = VStr tipo /\
    lookup "activa" props = VBool activa.
Proof.
  split.
  - intros H. exact (proj2 (OperacionesFacts.validarOperacion_Normal _ _ H)).
  - intros (props & ns & tipo & activa & -> & Hid & Hv & Hne & Ht & Ha).
    exact (validarOperacion_acepta props ns tipo activa Hid Hv Hne Ht Ha).
Qed.

(** X1 at a record whose kind is the empty string and whose one value
    is [NaN]: it has the shape, and is accepted. *)
Lemma validarOperacion_accepts_exactly_witness :
  validarOperacion
    (VObj [("id", VStr "x"); ("valores", VArr (map VNum [NaN]));
           ("tipo", VStr ""); ("activa", VBool false)]) = Normal VUndefined.
Proof.
  apply (proj2 (validarOperacion_accepts_exactly _)).
  exists [("id", VStr "x"); ("valores", VArr (map VNum [NaN]));
          ("tipo", VStr ""); ("activa", VBool false)], [NaN], "", false.
  split; [reflexivity|]. split; [left; exists "x"; reflexivity|].
  split; [reflexivity|]. split; [discriminate|]. split; reflexivity.
Defined.

(** X2: [procesarOperacion] waits exactly for the records that are
    valid and active: for those one latency is drawn and elapses; every
    other input is answered at once, the host untouched. *)
Theorem procesarOperacion_waits_only_for_valid_active
    (op : value) {L} (l : L) (w : world) :
  exists r,
    procesarOperacion op l w =
      (Fulfilled r, l,
       match validarOperacion op, prop op "activa" with
       | Normal _, Normal (VBool true) => tras_latencia w
       | _, _ => w
       end).
Proof.
  destruct (validarOperacion op) as [u|m] eqn:E.
  - destruct (OperacionesFacts.validarOperacion_Normal _ _ E)
      as (-> & props & ns & tipo & activa & -> & _ & _ & _ & _ & Ha).
    rewrite prop_VObj, Ha. destruct activa.
    + eexists. apply (OperacionesFacts.procesarOperacion_activa props l w E Ha).
    + eexists. apply (OperacionesFacts.procesarOperacion_desactivada props l w E Ha).
  - eexists. apply (OperacionesFacts.procesarOperacion_Throw op m l w E).
Qed.

(** X3: a record of the documented shape whose [activa] is false is
    rejected as deactivated, whatever its kind and its values (an
    unrecognized kind or a negative sum is not looked at): nothing is
    computed and the host is untouched. *)
Theorem inactive_operation_is_rejected_unprocessed
    (props : list (string * value)) (ns : list number) (tipo : string) :
  (exists s, lookup "id" props = VStr s) \/ (exists n, lookup "id" props = VNum n) ->
  lookup "valores" props = VArr (map VNum ns) -> ns <> [] ->
  lookup "tipo" props = VStr tipo ->
  lookup "activa" props = VBool false ->
  forall L (l : L) (w : world),
    procesarOperacion (VObj props) l w =
      (Fulfilled (Result "estado" (lookup "id" props) "rechazada"
                    "La operación está desactivada."), l, w).
Proof.
  intros Hid Hv Hne Ht Ha L l w.
  apply OperacionesFacts.procesarOperacion_desactivada; [|assumption].
  exact (validarOperacion_acepta props ns tipo false Hid Hv Hne Ht Ha).
Qed.

(** X3 at an inactive record whose kind is not recognized and whose
    values sum below zero. *)
Lemma inactive_operation_is_rejected_unprocessed_witness :
  procesarOperacion
    (VObj [("id", VStr "a-7"); ("valores", VArr (map VNum [int 9; int (-90)]));
           ("tipo", VStr "division"); ("activa", VBool false)])
    tt Ejemplos.host_a =
  (Fulfilled (Result "estado" (VStr "a-7") "rechazada" "La operación está desactivada."),
   tt, Ejemplos.host_a).
Proof.
  refine (inactive_operation_is_rejected_unprocessed
            [("id", VStr "a-7"); ("valores", VArr (map VNum [int 9; int (-90)]));
             ("tipo", VStr "division"); ("activa", VBool false)]
            [int 9; int (-90)] "division" _ eq_refl _ eq_refl eq_refl
            unit tt Ejemplos.host_a).
  - left. exists "a-7". reflexivity.
  - discriminate.
Defined.



End OperacionesProps.

(** ** Requests, further *)

Module SolicitudesProps.
Import Solicitudes.

(** A request of the documented shape passes steps 1 to 7. *)
Lemma solicitud_estructural_acepta (props : list (string * value)) (n : number)
    (cliente tipoServicio : string) (p : number) (activo : bool) :
  lookup "id" props = VNum n ->
  lookup "cliente" props = VStr cliente -> trim cliente <> "" ->
  lookup "tipoServicio" props = VStr tipoServicio ->
  lookup "prioridad" props = VNum p ->
  num_lt p (int 1) = false -> num_gt p (int 5) = false ->
  lookup "activo" props = VBool activo ->
  (exists f, lookup "fechaSolicitud" props = VStr f) \/
  (exists f, lookup "fechaSolicitud" props = VDate f) ->
  validacionEstructural (VObj props) = Normal tt.
Proof.
  intros Hid Hc Hne Hts Hp Hlo Hhi Ha Hf.
  unfold validacionEstructural. rewrite !prop_VObj, Hid, Hc, Hts, Hp, Ha.
  assert (Hlen : (String.length (trim cliente) =? 0)%nat = false)
    by (destruct (trim cliente); [congruence | reflexivity]).
  cbn -[append trim Number_toString num_lt num_gt]. rewrite Hlen.
  cbn -[append trim Number_toString num_lt num_gt]. rewrite Hlo, Hhi.
  destruct Hf as [[f ->]|[f ->]]; reflexivity.
Qed.

(** The classifier on a request whose kind is a string. *)
Lemma procesarSolicitud_objeto (props : list (string * value)) (ts : string)
    {L} (l : L) (w : world) :
  lookup "tipoServicio" props = VStr ts ->
  procesarSolicitudConPromesa (VObj props) l w =
    (Fulfilled
       (if servicio_reconocido (toLowerCase ts) then
          Result "estado" (lookup "id" props) "aprobada"
            ("Solicitud de " ++ ts ++ " aprobada para cliente "
               ++ ToString (lookup "cliente" props) ++ ".")
        else
          Result "estado" (lookup "id" props) "rechazada"
            ("Tipo de servicio no reconocido: " ++ ts)),
     l, tras_latencia w).
Proof.
  intros Hts. unfold procesarSolicitudConPromesa, try_catch_async, servicio_reconocido.
  rewrite latencia, bind_sync, prop_VObj, Hts, bind_sync.
  cbn [tipoServicio_toLowerCase].
  destruct ((toLowerCase ts =? "instalacion")%string
            || (toLowerCase ts =? "mantenimiento")%string
            || (toLowerCase ts =? "soporte")%string); reflexivity.
Qed.

(** X6: steps 1 to 7 of [validarSolicitudConCallback] pass exactly the
    requests of the documented shape (an object with a numeric [id], a
    [cliente] that is a string with something else than white space, a
    string [tipoServicio], a [prioridad] that is a number neither below
    1 nor above 5, a boolean [activo] and a [fechaSolicitud] that is a
    string or a Date); such a request, when active, is handed to the
    callback as it came, with [null] as the error. *)
Theorem validarSolicitud_accepts_exactly (solicitud : value) :
  (validacionEstructural solicitud = Normal tt <->
   exists props n cliente tipoServicio p activo,
     solicitud = VObj props /\
     lookup "id" props = VNum n /\
     lookup "cliente" props = VStr cliente /\ trim cliente <> "" /\
     lookup "tipoServicio" props = VStr tipoServicio /\
     lookup "prioridad" props = VNum p /\
     num_lt p (int 1) = false /\ num_gt p (int 5) = false /\
     lookup "activo" props = VBool activo /\
     ((exists f, lookup "fechaSolicitud" props = VStr f) \/
      (exists f, lookup "fechaSolicitud" props = VDate f))) /\
  (validacionEstructural solicitud = Normal tt ->
   prop solicitud "activo" = Normal (VBool true) ->
   forall S (callback : value -> value -> eff S value) (s : S),
     no_lanza callback ->
     validarSolicitudConCallback solicitud callback s = callback VNull solicitud s).
Proof.
  split; [split|].
  - apply SolicitudesFacts.solicitud_estructural_Normal.
  - intros (props & n & c & ts & p & b & -> & Hid & Hc & Hne & Hts & Hp & Hlo & Hhi & Ha & Hf).
    exact (solicitud_estructural_acepta props n c ts p b Hid Hc Hne Hts Hp Hlo Hhi Ha Hf).
  - intros E Ha S callback s Hcb.
    destruct (SolicitudesFacts.validarSolicitud_una_llamada solicitud)
      as (res & Hcall & [(m & E' & _)|(props & _ & -> & [[Hb _]|[_ ->]])]).
    + congruence.
    + rewrite prop_VObj in Ha. congruence.
    + apply Hcall, Hcb.
Qed.

(** X6 at a request whose [prioridad] is [NaN], which is a number and
    is neither below 1 nor above 5: it is handed back as it came. *)
Lemma validarSolicitud_accepts_exactly_witness :
  validarSolicitudConCallback
    (VObj [("id", VNum (int 1)); ("cliente", VStr "Carlos");
           ("tipoServicio", VStr "instalacion"); ("prioridad", VNum NaN);
           ("activo", VBool true); ("fechaSolicitud", VStr "2025-12-01")]) registrar []
  = (Normal VUndefined,
     [(VNull, VObj [("id", VNum (int 1)); ("cliente", VStr "Carlos");
                    ("tipoServicio", VStr "instalacion"); ("prioridad", VNum NaN);
                    ("activo", VBool true); ("fechaSolicitud", VStr "2025-12-01")])]).
Proof.
  exact (proj2 (validarSolicitud_accepts_exactly
                  (VObj [("id", VNum (int 1)); ("cliente", VStr "Carlos");
                         ("tipoServicio", VStr "instalacion"); ("prioridad", VNum NaN);
                         ("activo", VBool true); ("fechaSolicitud", VStr "2025-12-01")]))
           eq_refl eq_refl _ registrar [] no_lanza_registrar).
Defined.

(** A turn of the loop on a request the validator hands back and that
    the loop does not take for a rejection. *)
Lemma iteracion_clasificada (props : list (string * value)) (r : value)
    (l : locales) (w : world) :
  (forall S (callback : value -> value -> eff S value) (s : S),
     no_lanza callback ->
     validarSolicitudConCallback (VObj props) callback s = callback VNull (VObj props) s) ->
  is_string (lookup "estado" props) "rechazada" = false ->
  (forall L (l : L) (w : world),
     procesarSolicitudConPromesa (VObj props) l w = (Fulfilled r, l, tras_latencia w)) ->
  (exists rprops, r = VObj rprops) ->
  iteracion (VObj props) l w =
    (Fulfilled tt, push l r, tras_log (linea_de "Solicitud" "estado" r) (tras_latencia w)).
Proof.
  intros Hcall He Hp [rprops ->]. unfold iteracion, try_catch_async.
  rewrite (bind_async _ _ _ _ _ _ _ (SolicitudesFacts.await_validarSolicitud _ _ l w Hcall)).
  rewrite bind_sync, prop_VObj, He.
  erewrite bind_async by (unfold call; rewrite Hp; reflexivity).
  cbn -[linea append]. rewrite linea_VObj. reflexivity.
Qed.

(** X7: a turn of the loop of [ejecutarSolicitudes] on an active
    request of the documented shape (that has no field [estado] saying
    "rechazada"): after one latency the request is approved exactly
    when its kind, in lower case, is "instalacion", "mantenimiento" or
    "soporte"; the [motivo] quotes the kind as it was written; the
    result is collected and its line printed. *)
Theorem valid_request_is_classified_by_kind
    (props : list (string * value)) (n : number) (cliente ts : string) (p : number) :
  lookup "id" props = VNum n ->
  lookup "cliente" props = VStr cliente -> trim cliente <> "" ->
  lookup "tipoServicio" props = VStr ts ->
  lookup "prioridad" props = VNum p ->
  num_lt p (int 1) = false -> num_gt p (int 5) = false ->
  lookup "activo" props = VBool true ->
  (exists f, lookup "fechaSolicitud" props = VStr f) \/
  (exists f, lookup "fechaSolicitud" props = VDate f) ->
  is_string (lookup "estado" props) "rechazada" = false ->
  forall (l : locales) (w : world),
    iteracion (VObj props) l w =
      let r :=
        if servicio_reconocido (toLowerCase ts) then
          Result "estado" (VNum n) "aprobada"
            ("Solicitud de " ++ ts ++ " aprobada para cliente " ++ cliente ++ ".")
        else
          Result "estado" (VNum n) "rechazada" ("Tipo de servicio no reconocido: " ++ ts) in
      (Fulfilled tt, push l r,
       tras_log (linea_de "Solicitud" "estado" r) (tras_latencia w)).
Proof.
  intros Hid Hc Hne Hts Hp Hlo Hhi Ha Hf He l w.
  pose proof (solicitud_estructural_acepta props n cliente ts p true
                Hid Hc Hne Hts Hp Hlo Hhi Ha Hf) as E.
  destruct (SolicitudesFacts.validarSolicitud_una_llamada (VObj props))
    as (res & Hcall & [(m & E' & _)|(props' & _ & Ep & [[Hb _]|[_ ->]])]);
    [congruence | injection Ep as <-; congruence |].
  cbv zeta. apply iteracion_clasificada; [exact Hcall | exact He | |].
  - intros L l' w'. rewrite (procesarSolicitud_objeto props ts l' w' Hts), Hid, Hc.
    reflexivity.
  - destruct (servicio_reconocido (toLowerCase ts)); eexists; reflexivity.
Qed.

(** X7 at a request for "SOPORTE", in capitals. *)
Lemma valid_request_is_classified_by_kind_witness :
  iteracion
    (VObj [("id", VNum (int 9)); ("cliente", VStr " Eva "); ("tipoServicio", VStr "SOPORTE");
           ("prioridad", VNum (int 1)); ("activo", VBool true);
           ("fechaSolicitud", VDate "hoy")]) [] Ejemplos.host_a =
  (Fulfilled tt,
   [Result "estado" (VNum (int 9)) "aprobada" "Solicitud de SOPORTE aprobada para cliente  Eva ."],
   tras_log (VStr "Solicitud 9: aprobada => Solicitud de SOPORTE aprobada para cliente  Eva .")
     (tras_latencia Ejemplos.host_a)).
Proof.
  refine (valid_request_is_classified_by_kind
            [("id", VNum (int 9)); ("cliente", VStr " Eva "); ("tipoServicio", VStr "SOPORTE");
             ("prioridad", VNum (int 1)); ("activo", VBool true);
             ("fechaSolicitud", VDate "hoy")]
            (int 9) " Eva " "SOPORTE" (int 1)
            eq_refl eq_refl _ eq_refl eq_refl eq_refl eq_refl eq_refl _ eq_refl
            [] Ejemplos.host_a).
  - discriminate.
  - right. exists "hoy". reflexivity.
Defined.



End SolicitudesProps.

(** ** Transactions, further *)

Module TransaccionesProps.
Import Transacciones.

(** A transaction of the documented shape passes steps 1 to 7. *)
Lemma transaccion_estructural_acepta (props : list (string * value)) (n : number)
    (usuario : string) (m : number) (tipo : string) (autorizada : bool) :
  lookup "id" props = VNum n ->
  Number_isInteger n = true -> num_le n (int 0) = false ->
  lookup "usuario" props = VStr usuario -> trim usuario <> "" ->
  lookup "monto" props = VNum m ->
  Number_isFinite m = true -> num_eq m (int 0) = false ->
  lookup "tipo" props = VStr tipo ->
  lookup "autorizada" props = VBool autorizada ->
  (exists f, lookup "fecha" props = VStr f) \/ (exists f, lookup "fecha" props = VDate f) ->
  validacionEstructural (VObj props) = Normal tt.
Proof.
  intros Hid Hint Hpos Hu Hne Hm Hfin Hnz Ht Ha Hf.
  unfold validacionEstructural. rewrite !prop_VObj, Hid, Hu, Hm, Ht, Ha.
  assert (Hlen : (String.length (trim usuario) =? 0)%nat = false)
    by (destruct (trim usuario); [congruence | reflexivity]).
  cbn -[append trim Number_toString Number_isInteger Number_isFinite num_le num_eq].
  rewrite Hint, Hpos.
  cbn -[append trim Number_toString Number_isInteger Number_isFinite num_le num_eq].
  rewrite Hlen.
  cbn -[append trim Number_toString Number_isInteger Number_isFinite num_le num_eq].
  rewrite Hfin, Hnz.
  destruct Hf as [[f ->]|[f ->]]; reflexivity.
Qed.


(** A transaction that passes steps 1 to 7 and is not an "ingreso" or
    "egreso" with an amount [<= 0] is handed back as it came. *)
Lemma validarTransaccion_pasa (props : list (string * value)) (m : number) (tipo : string) :
  validacionEstructural (VObj props) = Normal tt ->
  lookup "monto" props = VNum m -> lookup "tipo" props = VStr tipo ->
  (tipo_reconocido (toLowerCase tipo) = true -> num_gt m (int 0) = true) ->
  forall S (callback : value -> value -> eff S value) (s : S),
    no_lanza callback ->
    validarTransaccionConCallback (VObj props) callback s = callback VNull (VObj props) s.
Proof.
  intros E Hm Ht Hco.
  destruct (TransaccionesFacts.validarTransaccion_una_llamada (VObj props))
    as (res & Hcall & [(e & E' & _)|(props' & m' & t' & _ & Ep & Hm' & _ & Ht' & Hres)]);
    [congruence|].
  injection Ep as <-. rewrite Hm in Hm'. rewrite Ht in Ht'.
  injection Hm' as <-. injection Ht' as <-.
  destruct Hres as [(Hk & Hle & _)|[(Hk & Hle & _)|(_ & ->)]].
  - exfalso. apply (TransaccionesFacts.le_0_not_gt_0 m Hle), Hco.
    unfold tipo_reconocido. now rewrite Hk.
  - exfalso. apply (TransaccionesFacts.le_0_not_gt_0 m Hle), Hco.
    unfold tipo_reconocido. now rewrite Hk.
  - exact Hcall.
Qed.

(** X9: steps 1 to 7 of [validarTransaccionConCallback] pass exactly
    the transactions of the documented shape (an object whose [id] is
    an integer above zero, whose [usuario] is a string with something
    else than white space, whose [monto] is a finite number other than
    0, whose [tipo] is a string, whose [autorizada] is a boolean and
    whose [fecha] is a string or a Date); such a transaction is handed
    to the callback as it came unless it is an "ingreso" or "egreso",
    in any letter case, with an amount below zero: a kind that is
    neither is not looked at by the validator. *)
Theorem validarTransaccion_accepts_exactly (transaccion : value) :
  (validacionEstructural transaccion = Normal tt <->
   exists props n usuario m tipo autorizada,
     transaccion = VObj props /\
     lookup "id" props = VNum n /\
     Number_isInteger n = true /\ num_le n (int 0) = false /\
     lookup "usuario" props = VStr usuario /\ trim usuario <> "" /\
     lookup "monto" props = VNum m /\
     Number_isFinite m = true /\ num_eq m (int 0) = false /\
     lookup "tipo" props = VStr tipo /\
     lookup "autorizada" props = VBool autorizada /\
     ((exists f, lookup "fecha" props = VStr f) \/
      (exists f, lookup "fecha" props = VDate f))) /\
  (forall m tipo,
     validacionEstructural transaccion = Normal tt ->
     prop transaccion "monto" = Normal (VNum m) ->
     prop transaccion "tipo" = Normal (VStr tipo) ->
     (tipo_reconocido (toLowerCase tipo) = true -> num_gt m (int 0) = true) ->
     forall S (callback : value -> value -> eff S value) (s : S),
       no_lanza callback ->
       validarTransaccionConCallback transaccion callback s
       = callback VNull transaccion s).
Proof.
  split; [split|].
  - apply TransaccionesFacts.transaccion_estructural_Normal.
  - intros (props & n & us & m & t & b & -> & Hid & Hint & Hpos & Hu & Hne & Hm & Hfin
            & Hnz & Ht & Ha & Hf).
    exact (transaccion_estructural_acepta props n us m t b
             Hid Hint Hpos Hu Hne Hm Hfin Hnz Ht Ha Hf).
  - intros m tipo E Hm Ht Hco.
    destruct (TransaccionesFacts.transaccion_estructural_Normal _ _ E)
      as (props & _ & _ & _ & _ & _ & -> & _).
    rewrite prop_VObj in Hm, Ht. injection Hm as Hm. injection Ht as Ht.
    exact (validarTransaccion_pasa props m tipo E Hm Ht Hco).
Qed.

(** X9 at a "transfer" of -250: the validator hands it back as it
    came. *)
Lemma validarTransaccion_accepts_exactly_witness :
  validarTransaccionConCallback
    (VObj [("id", VNum (int 7)); ("usuario", VStr "David"); ("monto", VNum (int (-250)));
           ("tipo", VStr "transfer"); ("autorizada", VBool true);
           ("fecha", VStr "2025-12-06")]) registrar []
  = (Normal VUndefined,
     [(VNull, VObj [("id", VNum (int 7)); ("usuario", VStr "David");
                    ("monto", VNum (int (-250))); ("tipo", VStr "transfer");
                    ("autorizada", VBool true); ("fecha", VStr "2025-12-06")])]).
Proof.
  refine (proj2 (validarTransaccion_accepts_exactly
                   (VObj [("id", VNum (int 7)); ("usuario", VStr "David");
                          ("monto", VNum (int (-250))); ("tipo", VStr "transfer");
                          ("autorizada", VBool true); ("fecha", VStr "2025-12-06")]))
            (int (-250)) "transfer" eq_refl eq_refl eq_refl _
            _ registrar [] no_lanza_registrar).
  discriminate.
Defined.










End TransaccionesProps.

(** ** The order and the identifiers of the results *)






(** ** The listings of the analysis *)







(** ** A callback that throws *)

(** X20: the calls of the two validators are inside their [try] block.
    When a request (a transaction) passes every check and the callback
    throws on being handed it, the [catch] calls the callback a second
    time, with a rejection whose [motivo] is the message the callback
    threw; what that second call does is what the validator does. *)
Theorem throwing_callback_is_called_with_its_own_error :
  (forall (solicitud : value) S (callback : value -> value -> eff S value)
          (s s' : S) (m : string),
     Solicitudes.validacionEstructural solicitud = Normal tt ->
     prop solicitud "activo" = Normal (VBool true) ->
     callback VNull solicitud s = (Throw m, s') ->
     Solicitudes.validarSolicitudConCallback solicitud callback s
     = callback VNull
         (Result "estado" (id_or_desconocido solicitud) "rechazada" ("Error: " ++ m)) s') /\
  (forall (transaccion : value) (monto : number) (tipo : string)
          S (callback : value -> value -> eff S value) (s s' : S) (m : string),
     Transacciones.validacionEstructural transaccion = Normal tt ->
     prop transaccion "monto" = Normal (VNum monto) ->
     prop transaccion "tipo" = Normal (VStr tipo) ->
     (tipo_reconocido (toLowerCase tipo) = true -> num_gt monto (int 0) = true) ->
     callback VNull transaccion s = (Throw m, s') ->
     Transacciones.validarTransaccionConCallback transaccion callback s
     = callback VNull
         (Result "clasificacion" (id_or_desconocido transaccion) "invalida"
            ("Error: " ++ m)) s').
Proof.
  split.
  - intros solicitud S callback s s' m E Ha Hcb.
    destruct (SolicitudesFacts.solicitud_estructural_Normal _ _ E)
      as (props & _ & _ & _ & _ & _ & -> & _).
    rewrite prop_VObj in Ha. injection Ha as Ha.
    unfold Solicitudes.validarSolicitudConCallback, try_catch_eff.
    rewrite bind_pure, E, bind_pure, prop_VObj, Ha. cbn [truthy negb].
    rewrite Hcb. reflexivity.
  - intros transaccion monto tipo S callback s s' m E Hm Ht Hco Hcb.
    destruct (TransaccionesFacts.transaccion_estructural_Normal _ _ E)
      as (props & _ & _ & _ & _ & _ & -> & _).
    rewrite prop_VObj in Hm, Ht. injection Hm as Hm. injection Ht as Ht.
    assert (Ei : (toLowerCase tipo =? "ingreso")%string && num_le monto (int 0) = false).
    { destruct (toLowerCase tipo =? "ingreso")%string eqn:Ek; [|reflexivity].
      destruct (num_le monto (int 0)) eqn:Hle; [|reflexivity].
      exfalso. apply (TransaccionesFacts.le_0_not_gt_0 monto Hle), Hco.
      unfold tipo_reconocido. now rewrite Ek. }
    assert (Ee : (toLowerCase tipo =? "egreso")%string && num_le monto (int 0) = false).
    { destruct (toLowerCase tipo =? "egreso")%string eqn:Ek; [|reflexivity].
      destruct (num_le monto (int 0)) eqn:Hle; [|reflexivity].
      exfalso. apply (TransaccionesFacts.le_0_not_gt_0 monto Hle), Hco.
      unfold tipo_reconocido. rewrite Ek. apply orb_true_r. }
    unfold Transacciones.validarTransaccionConCallback, try_catch_eff.
    rewrite bind_pure, E, bind_pure, prop_VObj, Ht, bind_pure, prop_VObj, Hm.
    cbn [ToString as_number]. rewrite Ei, Ee, Hcb. reflexivity.
Qed.

(** X20 at the second request of the sample with the callback that
    records its call and throws: two calls. *)
Lemma throwing_callback_is_called_with_its_own_error_witness :
  Solicitudes.validarSolicitudConCallback
    (nth 1 (Solicitudes.arrSolicitudes "hoy") VUndefined) registrar_y_lanzar []
  = (Throw "callback",
     [(VNull, nth 1 (Solicitudes.arrSolicitudes "hoy") VUndefined);
      (VNull, Result "estado" (VNum (int 2)) "rechazada" "Error: callback")]).
Proof.
  exact (proj1 throwing_callback_is_called_with_its_own_error
           (nth 1 (Solicitudes.arrSolicitudes "hoy") VUndefined)
           _ registrar_y_lanzar [] _ "callback" eq_refl eq_refl eq_refl).
Defined.

(** ** Absent input *)

Lemma falsy_desconocido (v : value) :
  truthy v = false -> id_or_desconocido v = VStr "desconocido".
Proof. destruct v; try reflexivity. discriminate. Qed.

(** X15: an element that is absent or falsy ([null], [undefined], 0,
    [NaN], the empty string, [false]) goes through each of the three
    loops as one rejection with the [id] "desconocido" and the [motivo]
    of the first rule of the module; the host is left without a
    latency. *)
Theorem absent_input_is_rejected_as_desconocido (v : value) :
  truthy v = false ->
  (forall l w,
     Operaciones.iteracion v l w =
       (Fulfilled tt,
        push l (Result "estado" (VStr "desconocido") "rechazada"
                  "Error: La operación se encuentra vacía o indefinida."),
        tras_log (VStr ("Operación desconocido: rechazada => "
                          ++ "Error: La operación se encuentra vacía o indefinida.")) w)) /\
  (forall l w,
     Solicitudes.iteracion v l w =
       (Fulfilled tt,
        push l (Result "estado" (VStr "desconocido") "rechazada"
                  "Error: La solicitud se encuentra vacía o indefinida."),
        tras_log (VStr ("Solicitud desconocido: rechazada => "
                          ++ "Error: La solicitud se encuentra vacía o indefinida.")) w)) /\
  (forall l w,
     Transacciones.iteracion v l w =
       (Fulfilled tt,
        archivar_invalida
          (Result "clasificacion" (VStr "desconocido") "invalida"
             "Error: La transacción está vacía o indefinida.") l,
        tras_log (VStr ("Transacción desconocido: invalida => "
                          ++ "Error: La transacción está vacía o indefinida.")) w)).
Proof.
  intros H. pose proof (falsy_desconocido v H) as Hid. split; [|split].
  - intros l w.
    assert (E : Operaciones.validarOperacion v
                = Throw "La operación se encuentra vacía o indefinida.")
      by (unfold Operaciones.validarOperacion; rewrite H; reflexivity).
    unfold Operaciones.iteracion.
    erewrite bind_async
      by (unfold call; rewrite (OperacionesFacts.procesarOperacion_Throw v _ tt w E), Hid;
          reflexivity).
    reflexivity.
  - intros l w.
    assert (E : Solicitudes.validacionEstructural v
                = Throw "La solicitud se encuentra vacía o indefinida.")
      by (unfold Solicitudes.validacionEstructural; rewrite H; reflexivity).
    rewrite (SolicitudesFacts.iteracion_rechazada v
               [("id", VStr "desconocido"); ("estado", VStr "rechazada");
                ("motivo", VStr "Error: La solicitud se encuentra vacía o indefinida.")] l w);
      [reflexivity | | reflexivity].
    intros S callback s _. unfold Solicitudes.validarSolicitudConCallback, try_catch_eff.
    rewrite bind_pure, E, Hid. reflexivity.
  - intros l w.
    assert (E : Transacciones.validacionEstructural v
                = Throw "La transacción está vacía o indefinida.")
      by (unfold Transacciones.validacionEstructural; rewrite H; reflexivity).
    rewrite (TransaccionesFacts.iteracion_validacion_invalida v
               [("id", VStr "desconocido"); ("clasificacion", VStr "invalida");
                ("motivo", VStr "Error: La transacción está vacía o indefinida.")] l w);
      [reflexivity | | reflexivity].
    intros S callback s _. unfold Transacciones.validarTransaccionConCallback, try_catch_eff.
    rewrite bind_pure, E, Hid. reflexivity.
Qed.

(** X15 at the number 0. *)
Lemma absent_input_is_rejected_as_desconocido_witness :
  Operaciones.iteracion (VNum (int 0)) [] Ejemplos.host_a =
    (Fulfilled tt,
     [Result "estado" (VStr "desconocido") "rechazada"
        "Error: La operación se encuentra vacía o indefinida."],
     tras_log (VStr ("Operación desconocido: rechazada => "
                       ++ "Error: La operación se encuentra vacía o indefinida."))
       Ejemplos.host_a).
Proof.
  exact (proj1 (absent_input_is_rejected_as_desconocido (VNum (int 0)) eq_refl)
           [] Ejemplos.host_a).
Defined.

(** ** The two texts of the transaction validator *)

(** X16: the text of [validarTransaccionConCallback] under the header
    [transacciones.module.js] and the text of ejercicio1.js, on any
    value and with any callback: either the transaction is rejected,
    and the two texts do the same (one call, with the same "invalida"
    Result, when the callback returns), or the transaction passes every
    check, and the first text hands it to the callback while the second
    returns without a call. *)
Theorem module_validator_agrees_or_never_calls (t : value) :
  (exists id motivo,
     forall S (callback : value -> value -> eff S value) (s : S),
       TransaccionesModule.validarTransaccionConCallback t callback s
       = Transacciones.validarTransaccionConCallback t callback s /\
       (no_lanza callback ->
        Transacciones.validarTransaccionConCallback t callback s
        = callback VNull (Result "clasificacion" id "invalida" motivo) s)) \/
  (forall S (callback : value -> value -> eff S value) (s : S),
     TransaccionesModule.validarTransaccionConCallback t callback s = (Normal VUndefined, s) /\
     (no_lanza callback ->
      Transacciones.validarTransaccionConCallback t callback s = callback VNull t s)).
Proof.
  destruct (Transacciones.validacionEstructural t) as [[]|e] eqn:E.
  - destruct (TransaccionesFacts.transaccion_estructural_Normal _ _ E)
      as (props & n & us & m & tipo & b & -> & _ & _ & _ & _ & _ & Hm & _ & _ & Ht & _).
    destruct ((toLowerCase tipo =? "ingreso")%string && num_le m (int 0)) eqn:Ei;
      [|destruct ((toLowerCase tipo =? "egreso")%string && num_le m (int 0)) eqn:Ee].
    + left. eexists. eexists. intros S callback s. split.
      * unfold TransaccionesModule.validarTransaccionConCallback,
          Transacciones.validarTransaccionConCallback, try_catch_eff.
        repeat (rewrite bind_pure || rewrite E || rewrite prop_VObj
                || rewrite Ht || rewrite Hm).
        cbn [ToString as_number]. rewrite Ei. reflexivity.
      * intros Hcb. unfold Transacciones.validarTransaccionConCallback.
        apply try_catch_eff_callback; [assumption|].
        rewrite bind_pure, E, bind_pure, prop_VObj, Ht, bind_pure, prop_VObj, Hm.
        cbn [ToString as_number]. rewrite Ei. reflexivity.
    + left. eexists. eexists. intros S callback s. split.
      * unfold TransaccionesModule.validarTransaccionConCallback,
          Transacciones.validarTransaccionConCallback, try_catch_eff.
        repeat (rewrite bind_pure || rewrite E || rewrite prop_VObj
                || rewrite Ht || rewrite Hm).
        cbn [ToString as_number]. rewrite Ei, Ee. reflexivity.
      * intros Hcb. unfold Transacciones.validarTransaccionConCallback.
        apply try_catch_eff_callback; [assumption|].
        rewrite bind_pure, E, bind_pure, prop_VObj, Ht, bind_pure, prop_VObj, Hm.
        cbn [ToString as_number]. rewrite Ei, Ee. reflexivity.
    + right. intros S callback s. split.
      * unfold TransaccionesModule.validarTransaccionConCallback, try_catch_eff.
        rewrite bind_pure, E, bind_pure, prop_VObj, Ht, bind_pure, prop_VObj, Hm.
        cbn [ToString as_number]. rewrite Ei, Ee. reflexivity.
      * intros Hcb. unfold Transacciones.validarTransaccionConCallback.
        apply try_catch_eff_callback; [assumption|].
        rewrite bind_pure, E, bind_pure, prop_VObj, Ht, bind_pure, prop_VObj, Hm.
        cbn [ToString as_number]. rewrite Ei, Ee. reflexivity.
  - left. eexists. eexists. intros S callback s. split.
    + unfold TransaccionesModule.validarTransaccionConCallback,
        Transacciones.validarTransaccionConCallback, try_catch_eff.
      repeat (rewrite bind_pure || rewrite E). reflexivity.
    + intros _. unfold Transacciones.validarTransaccionConCallback, try_catch_eff.
      rewrite bind_pure, E. reflexivity.
Qed.

(** ** The menu *)

Module AppProps.
Import App.

Lemma try_catch_async_bind {L A B} (c : async L A) (k : A -> async L B)
    (h : string -> async L B) (l l' : L) (w w' : world) (a : A) :
  c l w = (Fulfilled a, l', w') ->
  try_catch_async (bind c k) h l w = try_catch_async (k a) h l' w'.
Proof. intros H. unfold try_catch_async. cbn [bind Monad_async]. rewrite H. reflexivity. Qed.


(** The turn of the menu, after its five lines and the read. *)
Lemma vuelta_leida (rop rsol ran : world -> settled value * world) (l : menu) (w : world) :
  vuelta rop rsol ran l w =
    let l1 := {| salir := salir l; entradas := entradas l;
                 leidas := S (leidas l); errores := errores l |} in
    let w5 := tras_menu w in
    match entradas l (leidas l) with
    | None => capturar "Cannot read properties of null (reading 'trim')" l1 w5
    | Some s =>
        let opcion := trim s in
        if (String.length opcion =? 0)%nat then
          (Fulfilled tt, l1,
           tras_log (VStr (nl ++ "Entrada vacía. Por favor ingrese una opción válida "
                              ++ "(1, 2 , 3 o 4).")) w5)
        else if (opcion =? "1")%string then
          try_catch_async
            (console_log
               (VStr (nl ++ "Has elegido la opción 1: Procesar operaciones por lotes.")) ;;
             llamar rop ;; ret tt) capturar l1 w5
        else if (opcion =? "2")%string then
          try_catch_async
            (console_log
               (VStr (nl ++ "Has elegido la opción 2: Gestionar solicitudes de servicio.")) ;;
             llamar rsol ;; ret tt) capturar l1 w5
        else if (opcion =? "3")%string then
          try_catch_async
            (console_log
               (VStr (nl ++ "Has elegido la opción 3: Analizar transacciones y "
                         ++ "control de riesgo.")) ;;
             llamar ran ;; ret tt) capturar l1 w5
        else if (opcion =? "4")%string then
          (Fulfilled tt,
           {| salir := true; entradas := entradas l;
              leidas := S (leidas l); errores := errores l |},
           tras_log (VStr (nl ++ "Has elegido la opción 3: Saliendo del sistema... "
                              ++ "¡Vuelva pronto!")) w5)
        else
          (Fulfilled tt, l1,
           tras_log (VStr (nl ++ "Opción inválida. Por favor ingrese las opciones "
                              ++ "1, 2, 3 o 4.")) w5)
    end.
Proof.
  unfold vuelta. rewrite !console_log_bind. fold (tras_menu w).
  rewrite (try_catch_async_bind _ _ _ l _ _ _ (entradas l (leidas l)) eq_refl).
  cbv zeta.
  destruct (entradas l (leidas l)) as [s|]; [|reflexivity].
  rewrite (try_catch_async_bind _ _ _ _ _ _ _ (trim s) eq_refl).
  destruct (String.length (trim s) =? 0)%nat; [reflexivity|].
  destruct (trim s =? "1")%string; [reflexivity|].
  destruct (trim s =? "2")%string; [reflexivity|].
  destruct (trim s =? "3")%string; [reflexivity|].
  destruct (trim s =? "4")%string; reflexivity.
Qed.





(** Splits a goal into its conjuncts and no further. *)
Ltac partes := repeat match goal with |- _ /\ _ => split end.

(** A turn on an idle read: nothing but the console and the count of
    reads changes, and no exercise is looked at. *)
Lemma vuelta_ociosa (l : menu) (w : world) :
  ociosa (entradas l (leidas l)) = true ->
  exists l1 w1,
    salir l1 = salir l /\ entradas l1 = entradas l /\ leidas l1 = S (leidas l) /\
    randoms w1 = randoms w /\ drawn w1 = drawn w /\ elapsed w1 = elapsed w /\
    forall rop rsol ran, vuelta rop rsol ran l w = (Fulfilled tt, l1, w1).
Proof.
  intros H. unfold ociosa in H.
  destruct (entradas l (leidas l)) as [s|] eqn:Ein.
  - apply andb_true_iff in H. destruct H as [H H4].
    apply andb_true_iff in H. destruct H as [H H3].
    apply andb_true_iff in H. destruct H as [H1 H2].
    apply negb_true_iff in H1, H2, H3, H4.
    destruct (String.length (trim s) =? 0)%nat eqn:El.
    + eexists. eexists. partes; cycle 6.
      * intros rop rsol ran. rewrite vuelta_leida, Ein. cbv zeta. rewrite El. reflexivity.
      * reflexivity.
      * reflexivity.
      * reflexivity.
      * reflexivity.
      * reflexivity.
      * reflexivity.
    + eexists. eexists. partes; cycle 6.
      * intros rop rsol ran. rewrite vuelta_leida, Ein. cbv zeta.
        rewrite El, H1, H2, H3, H4. reflexivity.
      * reflexivity.
      * reflexivity.
      * reflexivity.
      * reflexivity.
      * reflexivity.
      * reflexivity.
  - eexists. eexists. partes; cycle 6.
    + intros rop rsol ran. rewrite vuelta_leida, Ein. reflexivity.
    + reflexivity.
    + reflexivity.
    + reflexivity.
    + reflexivity.
    + reflexivity.
    + reflexivity.
Qed.

Lemma vuelta_salir (l : menu) (w : world) (s : string) :
  entradas l (leidas l) = Some s -> trim s = "4" ->
  exists l1 w1,
    salir l1 = true /\ entradas l1 = entradas l /\ leidas l1 = S (leidas l) /\
    errores l1 = errores l /\
    randoms w1 = randoms w /\ drawn w1 = drawn w /\ elapsed w1 = elapsed w /\
    forall rop rsol ran, vuelta rop rsol ran l w = (Fulfilled tt, l1, w1).
Proof.
  intros Ein E4. eexists. eexists. partes; cycle 7.
  - intros rop rsol ran. rewrite vuelta_leida, Ein. cbv zeta. rewrite E4. reflexivity.
  - reflexivity.
  - reflexivity.
  - reflexivity.
  - reflexivity.
  - reflexivity.
  - reflexivity.
  - reflexivity.
Qed.

Lemma mientras_ociosas (k : nat) :
  forall (l : menu) (w : world) (s : string),
    salir l = false ->
    (forall i, (i < k)%nat -> ociosa (entradas l (leidas l + i)) = true) ->
    entradas l (leidas l + k) = Some s -> trim s = "4" ->
    exists l' w',
      salir l' = true /\ leidas l' = (leidas l + k + 1)%nat /\
      randoms w' = randoms w /\ drawn w' = drawn w /\ elapsed w' = elapsed w /\
      forall rop rsol ran fuel, (k < fuel)%nat ->
        mientras rop rsol ran fuel l w = Some (Fulfilled tt, l', w').
Proof.
  induction k as [|k IH]; intros l w s Hs Hidle Hin H4.
  - rewrite Nat.add_0_r in Hin.
    destruct (vuelta_salir l w s Hin H4)
      as (l1 & w1 & Hs1 & _ & Hl1 & _ & Hr & Hd & He & Hv).
    exists l1, w1. repeat split; trivial; [lia|].
    intros rop rsol ran fuel Hf. destruct fuel as [|fuel]; [lia|].
    simpl. rewrite Hs, Hv. destruct fuel; simpl; rewrite Hs1; reflexivity.
  - assert (H0 : ociosa (entradas l (leidas l)) = true)
      by (rewrite <- (Nat.add_0_r (leidas l)); apply Hidle; lia).
    destruct (vuelta_ociosa l w H0) as (l1 & w1 & Hs1 & He1 & Hl1 & Hr & Hd & Hel & Hv).
    destruct (IH l1 w1 s) as (l' & w' & Hs' & Hl' & Hr' & Hd' & He' & Hm).
    + congruence.
    + intros i Hi. rewrite He1, Hl1.
      replace (S (leidas l) + i)%nat with (leidas l + S i)%nat by lia.
      apply Hidle. lia.
    + rewrite He1, Hl1.
      replace (S (leidas l) + k)%nat with (leidas l + S k)%nat by lia. exact Hin.
    + exact H4.
    + exists l', w'. repeat split; try congruence; [lia|].
      intros rop rsol ran fuel Hf. destruct fuel as [|fuel]; [lia|].
      simpl. rewrite Hs, Hv. apply Hm. lia.
Qed.

(** X18: when the next [k] reads are idle (interrupted, empty, or
    anything that is not one of the four options once trimmed) and the
    read after them is option 4, with white space around it or not,
    [mainMenu] ends: it fulfils with [salir] raised after [k + 1] reads,
    and no exercise has run: the outcome is the same whatever the three
    exercises are, and the host has drawn no random value and spent no
    time. *)
Theorem menu_ends_at_option_4_after_idle_reads
    (k : nat) (l : menu) (w : world) (s : string) :
  (forall i, (i < k)%nat -> ociosa (entradas l (leidas l + i)) = true) ->
  entradas l (leidas l + k) = Some s -> trim s = "4" ->
  exists l' w',
    salir l' = true /\ leidas l' = (leidas l + k + 1)%nat /\
    randoms w' = randoms w /\ drawn w' = drawn w /\ elapsed w' = elapsed w /\
    forall rop rsol ran fuel, (k < fuel)%nat ->
      mainMenu rop rsol ran fuel l w = Some (Fulfilled tt, l', w').
Proof.
  intros Hidle Hin H4. unfold mainMenu.
  apply (mientras_ociosas k
           {| salir := false; entradas := entradas l; leidas := leidas l;
              errores := errores l |} w s eq_refl Hidle Hin H4).
Qed.

(** X18 on a terminal that gives an empty line, an interrupted read and
    then option 4 between spaces. *)
Lemma menu_ends_at_option_4_after_idle_reads_witness :
  exists l' w',
    salir l' = true /\ leidas l' = 3%nat /\
    randoms w' = randoms Ejemplos.host_b /\ drawn w' = drawn Ejemplos.host_b /\
    elapsed w' = elapsed Ejemplos.host_b /\
    forall rop rsol ran fuel, (2 < fuel)%nat ->
      mainMenu rop rsol ran fuel Casos.terminal Ejemplos.host_b
      = Some (Fulfilled tt, l', w').
Proof.
  refine (menu_ends_at_option_4_after_idle_reads 2 Casos.terminal Ejemplos.host_b " 4 "
            _ eq_refl eq_refl).
  intros i Hi. destruct i as [|[|i]]; [reflexivity | reflexivity | lia].
Defined.

End AppProps.
